(** * Reservation pipeline of the multi-tenant booking backend

    A shallow embedding of the lock service (lockService.js), the booking
    service (bookingService.js), the payment service (paymentService.js),
    the booking-id generator of the Booking model and the tenant gate
    (appAuth.js), followed by the properties of the specification that
    concern them.

    Conventions of the embedding.
    - Instants are milliseconds since the epoch, in [Z]; one call observes
      one instant [now].
    - The Redis store is a finite map from keys to parsed lock values; the
      expiry of a key is a step of its own (see [apply_action]).
    - A Mongo collection is the list of its documents in insertion order;
      a unique index makes an insert with a taken value fail.
    - What a call reads from its surroundings (clock, uuid, random number,
      fresh object id, whether the durable store accepts the write) is
      passed in an [Env.t] record.
    - A thrown error is the [Throw] case of [Result]; every operation
      returns the state it leaves behind together with its result.
    - Calls run one after the other. Logging, the casts and field
      validators of the schemas and a failing connection to Redis are left
      out; ids are strings, and a statement that needs an id to have the
      form the store gives it says so. *)

From Stdlib Require Import ZArith String Ascii List Bool Lia Sorted.
From stdpp Require Import base option list gmap strings.

Local Open Scope Z_scope.

(** ** Errors (utils/errors.js) *)

Inductive Error : Type :=
| NotFoundError (resource : string)
| ConflictError (message : string)
| SeatLockError (message : string) (details : option (string * option Z))
| PaymentError (message : string)
| AuthenticationError (message : string)
| AuthorizationError (message : string)
| PlainError (message : string).

Inductive Result (A : Type) : Type :=
| Ok (a : A)
| Throw (e : Error).

Arguments Ok {A} a.
Arguments Throw {A} e.

Definition isOk {A : Type} (r : Result A) : bool :=
  match r with Ok _ => true | Throw _ => false end.

(** JavaScript truthiness of a string value. *)
Definition truthy (s : string) : bool := negb (String.eqb s "").

(** Truthiness of an optional string argument ([null] is falsy). *)
Definition truthy_opt (o : option string) : bool :=
  match o with Some s => truthy s | None => false end.

(** ** Lock service (lockService.js) *)

Module Lock.
Record t : Type := mk {
  reservationToken : string;
  userId : string;
  timestamp : Z;
  expiresAt : Z
}.
End Lock.

Module LockDetails.
Record t : Type := mk {
  reservationToken : string;
  expiresAt : Z;
  ttl : Z
}.
End LockDetails.

Definition getLockKey (seatId : string) : string := "seat:lock:" +:+ seatId.

Definition getLock (seatId : string) (redis : gmap string Lock.t) : option Lock.t :=
  redis !! getLockKey seatId.

(** [Math.max(0, Math.ceil((expiresAt - now) / 1000))] *)
Definition calculateRemainingTime (expiresAt now : Z) : Z :=
  Z.max 0 (- ((- (expiresAt - now)) / 1000)).

(** [SET key value NX EX ttl]: the value is stored only when the key is
    absent. *)
Definition acquireLock (ttl : Z) (uuid : string) (now : Z)
    (seatId userId : string) (redis : gmap string Lock.t)
  : gmap string Lock.t * Result LockDetails.t :=
  let key := getLockKey seatId in
  let reservationToken := uuid in
  let timestamp := now in
  let expiresAt := timestamp + ttl * 1000 in
  match redis !! key with
  | None =>
      (<[key := Lock.mk reservationToken userId timestamp expiresAt]> redis,
       Ok (LockDetails.mk reservationToken expiresAt ttl))
  | Some _ =>
      let existingLock := getLock seatId redis in
      (redis,
       Throw (SeatLockError "Seat is already locked by another user"
                (Some (seatId,
                       match existingLock with
                       | Some l => Some (calculateRemainingTime (Lock.expiresAt l) now)
                       | None => None
                       end))))
  end.

Definition verifyLock (seatId reservationToken userId : string) (now : Z)
    (redis : gmap string Lock.t) : bool :=
  match getLock seatId redis with
  | None => false
  | Some lock =>
      String.eqb (Lock.reservationToken lock) reservationToken
      && String.eqb (Lock.userId lock) userId
      && (now <? Lock.expiresAt lock)
  end.

(** [DEL key]: the number of keys removed. *)
Definition redis_del (key : string) (redis : gmap string Lock.t)
  : gmap string Lock.t * Z :=
  match redis !! key with
  | Some _ => (delete key redis, 1)
  | None => (redis, 0)
  end.

Definition releaseLock (seatId : string) (reservationToken : option string)
    (redis : gmap string Lock.t) : gmap string Lock.t * Result bool :=
  let mismatch :=
    match reservationToken with
    | Some tok =>
        truthy tok &&
        match getLock seatId redis with
        | Some lock => negb (String.eqb (Lock.reservationToken lock) tok)
        | None => false
        end
    | None => false
    end in
  if mismatch then
    (redis, Throw (SeatLockError "Invalid reservation token for this seat" None))
  else
    let '(redis', result) := redis_del (getLockKey seatId) redis in
    (redis', Ok (result =? 1)).

Definition isLocked (seatId : string) (redis : gmap string Lock.t) : bool :=
  match getLock seatId redis with Some _ => true | None => false end.

(** ** String primitives of the runtime *)

Definition isDigit (c : ascii) : bool :=
  let n := nat_of_ascii c in (48 <=? n)%nat && (n <=? 57)%nat.

Definition isUpper (c : ascii) : bool :=
  let n := nat_of_ascii c in (65 <=? n)%nat && (n <=? 90)%nat.

Definition isLower (c : ascii) : bool :=
  let n := nat_of_ascii c in (97 <=? n)%nat && (n <=? 122)%nat.

(** The character classes [A-Za-z0-9] and [A-Z0-9]. *)
Definition isAlnum (c : ascii) : bool := isUpper c || isLower c || isDigit c.
Definition isUpperAlnum (c : ascii) : bool := isUpper c || isDigit c.

Fixpoint all_chars (p : ascii -> bool) (s : string) : bool :=
  match s with
  | EmptyString => true
  | String c s' => p c && all_chars p s'
  end.

Definition upper_char (c : ascii) : ascii :=
  if isLower c then ascii_of_nat (nat_of_ascii c - 32) else c.

Definition lower_char (c : ascii) : ascii :=
  if isUpper c then ascii_of_nat (nat_of_ascii c + 32) else c.

Fixpoint map_chars (f : ascii -> ascii) (s : string) : string :=
  match s with
  | EmptyString => EmptyString
  | String c s' => String (f c) (map_chars f s')
  end.

Definition toUpperCase (s : string) : string := map_chars upper_char s.
Definition toLowerCase (s : string) : string := map_chars lower_char s.

(** [s.substring(start, end)]: the arguments are swapped when
    [start > end], and both are clamped to the length. *)
Definition js_substring (start end_ : nat) (s : string) : string :=
  if (end_ <? start)%nat then String.substring end_ (start - end_) s
  else String.substring start (end_ - start) s.

(** [s.split(sep)[0]] for a one-character separator. *)
Fixpoint split_head (sep : ascii) (s : string) : string :=
  match s with
  | EmptyString => EmptyString
  | String c s' => if Ascii.eqb c sep then EmptyString else String c (split_head sep s')
  end.

(** [s.replace(/c/g, '')] for a single character [c]. *)
Fixpoint remove_char (c : ascii) (s : string) : string :=
  match s with
  | EmptyString => EmptyString
  | String d s' => if Ascii.eqb d c then remove_char c s' else String d (remove_char c s')
  end.

(** [hay.includes(needle)] *)
Fixpoint includes (needle hay : string) : bool :=
  String.prefix needle hay
  || match hay with
     | EmptyString => false
     | String _ hay' => includes needle hay'
     end.

(** The rest of [s] after the literal [p], when [s] starts with it. *)
Fixpoint strip_prefix (p s : string) : option string :=
  match p, s with
  | EmptyString, _ => Some s
  | String a p', String b s' => if Ascii.eqb a b then strip_prefix p' s' else None
  | String _ _, EmptyString => None
  end.

(** The longest prefix of characters in the class [p], and what follows. *)
Fixpoint span_chars (p : ascii -> bool) (s : string) : string * string :=
  match s with
  | EmptyString => (EmptyString, EmptyString)
  | String c s' =>
      if p c then let '(a, b) := span_chars p s' in (String c a, b)
      else (EmptyString, s)
  end.

(** ** Payment service (paymentService.js) *)

(** [/^pay_[A-Za-z0-9]+$/] *)
Definition razorpayPattern (s : string) : bool :=
  match strip_prefix "pay_" s with
  | Some r => negb (String.eqb r "") && all_chars isAlnum r
  | None => false
  end.

(** [/^PAY-[A-Z0-9]+-[A-Z0-9]+$/]: the class excludes the dash, so the
    first run is the longest one. *)
Definition simulatedPattern (s : string) : bool :=
  match strip_prefix "PAY-" s with
  | Some r =>
      let '(a, rest) := span_chars isUpperAlnum r in
      negb (String.eqb a "")
      && match rest with
         | String c b =>
             Ascii.eqb c "-" && negb (String.eqb b "") && all_chars isUpperAlnum b
         | EmptyString => false
         end
  | None => false
  end.

Definition validatePaymentIdFormat (paymentId : string) : bool :=
  razorpayPattern paymentId || simulatedPattern paymentId.

Module VerifiedPayment.
Record t : Type := mk {
  paymentId : string;
  status : string;
  timestamp : Z
}.
End VerifiedPayment.

Definition verifyPayment (now : Z) (paymentId : string) : Result VerifiedPayment.t :=
  if negb (truthy paymentId) then Throw (PaymentError "Payment ID is required")
  else
    let isValid := validatePaymentIdFormat paymentId in
    if negb isValid then Throw (PaymentError "Invalid payment ID format")
    else Ok (VerifiedPayment.mk paymentId "VERIFIED" now).

(** ** Booking id (models/Booking.js)

    [isoString] is the value of [new Date().toISOString()] and [random36]
    the value of [Math.random().toString(36)]. *)
Definition generateBookingId (isoString random36 : string) : string :=
  let dateStr := remove_char "-" (split_head "T" isoString) in
  let random := toUpperCase (js_substring 2 8 random36) in
  "BK-" +:+ dateStr +:+ "-" +:+ random.

(** The digits [Number.prototype.toString(36)] writes. *)
Definition isBase36 (c : ascii) : bool := isDigit c || isLower c.

(** The values [Math.random().toString(36)] can take: ["0"], or ["0."]
    followed by at least one base-36 digit. *)
Definition is_random36 (s : string) : bool :=
  String.eqb s "0"
  || match strip_prefix "0." s with
     | Some d => negb (String.eqb d "") && all_chars isBase36 d
     | None => false
     end.

(** [/^BK-[0-9]{8}-[A-Z0-9]{6}$/] *)
Definition bookingIdPattern (s : string) : bool :=
  match strip_prefix "BK-" s with
  | Some r =>
      let d := String.substring 0 8 r in
      let r1 := String.substring 8 (String.length r - 8) r in
      (String.length d =? 8)%nat && all_chars isDigit d
      && match r1 with
         | String c x =>
             Ascii.eqb c "-" && (String.length x =? 6)%nat && all_chars isUpperAlnum x
         | EmptyString => false
         end
  | None => false
  end.

(** ** Documents of the durable store (models/) *)

Inductive SeatStatus : Type := AVAILABLE | BOOKED.

Inductive ReservationStatus : Type := ACTIVE | EXPIRED | CONFIRMED | RELEASED.

Inductive PaymentStatus : Type := PENDING | SUCCESS | FAILED.

Definition SeatStatus_eqb (a b : SeatStatus) : bool :=
  match a, b with
  | AVAILABLE, AVAILABLE | BOOKED, BOOKED => true
  | _, _ => false
  end.

Definition ReservationStatus_eqb (a b : ReservationStatus) : bool :=
  match a, b with
  | ACTIVE, ACTIVE | EXPIRED, EXPIRED | CONFIRMED, CONFIRMED | RELEASED, RELEASED => true
  | _, _ => false
  end.

Definition ReservationStatus_name (s : ReservationStatus) : string :=
  match s with
  | ACTIVE => "ACTIVE"
  | EXPIRED => "EXPIRED"
  | CONFIRMED => "CONFIRMED"
  | RELEASED => "RELEASED"
  end.

Module Seat.
Record t : Type := mk {
  appId : string;
  domain : string;
  entityId : string;
  seatNumber : string;
  status : SeatStatus;
  price : Z;
  bookedBy : option string;
  bookingId : option string
}.
End Seat.

Module Reservation.
Record t : Type := mk {
  reservationToken : string;
  userId : string;
  appId : string;
  seatId : string;
  status : ReservationStatus;
  expiresAt : Z;
  seatNumber : string;
  price : Z;
  entityId : string
}.

Definition set_status (s : ReservationStatus) (r : t) : t :=
  mk (reservationToken r) (userId r) (appId r) (seatId r) s (expiresAt r)
     (seatNumber r) (price r) (entityId r).

(** [new Date() > this.expiresAt] *)
Definition isExpired (now : Z) (r : t) : bool := expiresAt r <? now.

Definition isActive (now : Z) (r : t) : bool :=
  ReservationStatus_eqb (status r) ACTIVE && negb (isExpired now r).
End Reservation.

Module Booking.
Record t : Type := mk {
  _id : string;
  bookingId : string;
  userId : string;
  appId : string;
  seatId : string;
  reservationToken : string;
  paymentStatus : PaymentStatus;
  paymentId : string;
  amount : Z;
  currency : string;
  bookingDate : Z;
  seatNumber : string;
  entityId : string;
  domain : string
}.
End Booking.

(** What a call reads from its surroundings. [mongoFailure] is the message
    of the error the durable store answers the call's write with, if it
    refuses it for a reason of its own (unreachable, timed out). *)
Module Env.
Record t : Type := mk {
  LOCK_TTL_SECONDS : Z;
  now : Z;
  uuidv4 : string;
  isoString : string;
  random36 : string;
  objectId : string;
  mongoFailure : option string
}.
End Env.

Record State : Type := mkState {
  redis : gmap string Lock.t;
  seats : gmap string Seat.t;
  reservations : list Reservation.t;
  bookings : list Booking.t
}.

Definition set_redis (r : gmap string Lock.t) (st : State) : State :=
  mkState r (seats st) (reservations st) (bookings st).

Definition set_reservations (rs : list Reservation.t) (st : State) : State :=
  mkState (redis st) (seats st) rs (bookings st).

(** [Reservation.findOne({ reservationToken })] *)
Definition findReservation (reservationToken : string) (rs : list Reservation.t)
  : option Reservation.t :=
  List.find (fun r => String.eqb (Reservation.reservationToken r) reservationToken) rs.

(** [reservation.status = s; reservation.save()] for the document that
    [findReservation] returned: the first one carrying the token. *)
Fixpoint saveReservationStatus (reservationToken : string) (s : ReservationStatus)
    (rs : list Reservation.t) : list Reservation.t :=
  match rs with
  | [] => []
  | r :: rs' =>
      if String.eqb (Reservation.reservationToken r) reservationToken
      then Reservation.set_status s r :: rs'
      else r :: saveReservationStatus reservationToken s rs'
  end.

(** Insert under the unique index on [reservationToken]. The casts of the
    schema's [ObjectId] fields, which precede the insert, are not part of
    it: the insert is the one of a row whose [userId] and [seatId] are in
    [ObjectId] form. *)
Definition insertReservation (mongoFailure : option string) (r : Reservation.t)
    (rs : list Reservation.t) : Result (list Reservation.t) :=
  match mongoFailure with
  | Some msg => Throw (PlainError msg)
  | None =>
      if existsb (fun r' => String.eqb (Reservation.reservationToken r')
                              (Reservation.reservationToken r)) rs
      then Throw (PlainError "E11000 duplicate key error: reservationToken")
      else Ok (rs ++ [r])
  end.

(** Insert under the unique index on [bookingId]. *)
Definition insertBooking (b : Booking.t) (bs : list Booking.t) : Result (list Booking.t) :=
  if existsb (fun b' => String.eqb (Booking.bookingId b') (Booking.bookingId b)) bs
  then Throw (PlainError "E11000 duplicate key error: bookingId")
  else Ok (bs ++ [b]).

(** ** Booking service (bookingService.js) *)

Module SeatView.
Record t : Type := mk {
  id : string;
  seatNumber : string;
  price : option Z;
  entityId : string
}.
End SeatView.

Module ReserveResult.
Record t : Type := mk {
  reservationToken : string;
  expiresAt : Z;
  seat : SeatView.t;
  ttl : Z
}.
End ReserveResult.

Module ConfirmResult.
Record t : Type := mk {
  bookingId : string;
  booking : Booking.t;
  seat : SeatView.t
}.
End ConfirmResult.

Definition reserveSeat (env : Env.t) (appId seatId userId : string) (st : State)
  : State * Result ReserveResult.t :=
  match seats st !! seatId with
  | None => (st, Throw (NotFoundError "Seat"))
  | Some seat =>
      if negb (String.eqb (Seat.appId seat) appId) then
        (st, Throw (ConflictError "Seat does not belong to this app"))
      else if negb (SeatStatus_eqb (Seat.status seat) AVAILABLE) then
        (st, Throw (ConflictError "Seat is not available"))
      else
        match acquireLock (Env.LOCK_TTL_SECONDS env) (Env.uuidv4 env) (Env.now env)
                seatId userId (redis st) with
        | (redis', Throw e) => (set_redis redis' st, Throw e)
        | (redis', Ok lockDetails) =>
            let st1 := set_redis redis' st in
            let reservation :=
              Reservation.mk (LockDetails.reservationToken lockDetails) userId appId
                seatId ACTIVE (LockDetails.expiresAt lockDetails)
                (Seat.seatNumber seat) (Seat.price seat) (Seat.entityId seat) in
            match insertReservation (Env.mongoFailure env) reservation (reservations st1) with
            | Throw e => (st1, Throw e)
            | Ok rs =>
                (set_reservations rs st1,
                 Ok (ReserveResult.mk (LockDetails.reservationToken lockDetails)
                       (LockDetails.expiresAt lockDetails)
                       (SeatView.mk seatId (Seat.seatNumber seat)
                          (Some (Seat.price seat)) (Seat.entityId seat))
                       (LockDetails.ttl lockDetails)))
            end
        end
  end.

(** The durable transaction of [confirmBooking]: the four writes, then the
    commit. [Throw] means the transaction was aborted and nothing written. *)
Definition confirmTransaction (env : Env.t) (appId reservationToken paymentId userId : string)
    (seatId : string) (seat : Seat.t) (st : State)
  : Result (State * Booking.t) :=
  let bookingId := generateBookingId (Env.isoString env) (Env.random36 env) in
  match Env.mongoFailure env with
  | Some msg => Throw (PlainError msg)
  | None =>
      let seat1 := Seat.mk (Seat.appId seat) (Seat.domain seat) (Seat.entityId seat)
                     (Seat.seatNumber seat) BOOKED (Seat.price seat) (Some userId) None in
      let booking :=
        Booking.mk (Env.objectId env) bookingId userId appId seatId reservationToken
          SUCCESS paymentId (Seat.price seat) "USD" (Env.now env)
          (Seat.seatNumber seat) (Seat.entityId seat) (Seat.domain seat) in
      match insertBooking booking (bookings st) with
      | Throw e => Throw e
      | Ok bs =>
          let seat2 := Seat.mk (Seat.appId seat1) (Seat.domain seat1) (Seat.entityId seat1)
                         (Seat.seatNumber seat1) (Seat.status seat1) (Seat.price seat1)
                         (Seat.bookedBy seat1) (Some (Booking._id booking)) in
          Ok (mkState (redis st) (<[seatId := seat2]> (seats st))
                (saveReservationStatus reservationToken CONFIRMED (reservations st)) bs,
              booking)
      end
  end.

Definition confirmBooking (env : Env.t) (appId reservationToken paymentId userId : string)
    (st : State) : State * Result ConfirmResult.t :=
  match findReservation reservationToken (reservations st) with
  | None => (st, Throw (NotFoundError "Reservation"))
  | Some reservation =>
      if negb (String.eqb (Reservation.userId reservation) userId) then
        (st, Throw (ConflictError "Reservation does not belong to this user"))
      else if negb (ReservationStatus_eqb (Reservation.status reservation) ACTIVE) then
        (st, Throw (ConflictError
                      ("Reservation is " +:+
                       toLowerCase (ReservationStatus_name (Reservation.status reservation)))))
      else if Reservation.isExpired (Env.now env) reservation then
        match Env.mongoFailure env with
        | Some msg => (st, Throw (PlainError msg))
        | None =>
            let st1 := set_reservations
                         (saveReservationStatus reservationToken EXPIRED (reservations st)) st in
            match releaseLock (Reservation.seatId reservation) None (redis st1) with
            | (redis', Throw e) => (set_redis redis' st1, Throw e)
            | (redis', Ok _) =>
                (set_redis redis' st1, Throw (ConflictError "Reservation has expired"))
            end
        end
      else if negb (verifyLock (Reservation.seatId reservation) reservationToken userId
                      (Env.now env) (redis st)) then
        (st, Throw (SeatLockError "Reservation lock is no longer valid" None))
      else
        match seats st !! Reservation.seatId reservation with
        | None => (st, Throw (ConflictError "Seat is no longer available"))
        | Some seat =>
            if negb (SeatStatus_eqb (Seat.status seat) AVAILABLE) then
              (st, Throw (ConflictError "Seat is no longer available"))
            else
              match verifyPayment (Env.now env) paymentId with
              | Throw e => (st, Throw e)
              | Ok _ =>
                  match confirmTransaction env appId reservationToken paymentId userId
                          (Reservation.seatId reservation) seat st with
                  | Throw e => (st, Throw e)
                  | Ok (st1, booking) =>
                      match releaseLock (Reservation.seatId reservation)
                              (Some reservationToken) (redis st1) with
                      | (redis', Throw _) =>
                          (* the catch block aborts a committed transaction *)
                          (set_redis redis' st1,
                           Throw (PlainError
                                    "Cannot call abortTransaction after calling commitTransaction"))
                      | (redis', Ok _) =>
                          (set_redis redis' st1,
                           Ok (ConfirmResult.mk (Booking.bookingId booking) booking
                                 (SeatView.mk (Reservation.seatId reservation)
                                    (Seat.seatNumber seat) None (Seat.entityId seat))))
                      end
                  end
              end
        end
  end.

Definition releaseSeat (env : Env.t) (reservationToken userId : string) (st : State)
  : State * Result bool :=
  match findReservation reservationToken (reservations st) with
  | None => (st, Throw (NotFoundError "Reservation"))
  | Some reservation =>
      if negb (String.eqb (Reservation.userId reservation) userId) then
        (st, Throw (ConflictError "Reservation does not belong to this user"))
      else if ReservationStatus_eqb (Reservation.status reservation) CONFIRMED then
        (st, Throw (ConflictError "Cannot release confirmed booking"))
      else
        match releaseLock (Reservation.seatId reservation) (Some reservationToken) (redis st) with
        | (redis', Throw e) => (set_redis redis' st, Throw e)
        | (redis', Ok _) =>
            let st1 := set_redis redis' st in
            match Env.mongoFailure env with
            | Some msg => (st1, Throw (PlainError msg))
            | None =>
                (set_reservations
                   (saveReservationStatus reservationToken RELEASED (reservations st1)) st1,
                 Ok true)
            end
        end
  end.

(** ** Histories of the pipeline

    The engine's three operations, and the expiry of a lock key in the
    store once its time to live has run out. *)

Inductive Action : Type :=
| AReserve (env : Env.t) (appId seatId userId : string)
| AConfirm (env : Env.t) (appId reservationToken paymentId userId : string)
| ARelease (env : Env.t) (reservationToken userId : string)
| AExpire (now : Z) (seatId : string).

Definition action_time (a : Action) : Z :=
  match a with
  | AReserve env _ _ _ | AConfirm env _ _ _ _ | ARelease env _ _ => Env.now env
  | AExpire now _ => now
  end.

(** The state an action leaves; [None] when the action cannot happen (a key
    expires only when it exists and its expiry instant has come). *)
Definition apply_action (a : Action) (st : State) : option State :=
  match a with
  | AReserve env appId seatId userId => Some (fst (reserveSeat env appId seatId userId st))
  | AConfirm env appId tok paymentId userId =>
      Some (fst (confirmBooking env appId tok paymentId userId st))
  | ARelease env tok userId => Some (fst (releaseSeat env tok userId st))
  | AExpire now seatId =>
      match getLock seatId (redis st) with
      | Some lock =>
          if Lock.expiresAt lock <=? now
          then Some (set_redis (delete (getLockKey seatId) (redis st)) st)
          else None
      | None => None
      end
  end.

Record World : Type := mkWorld { clock : Z; state : State }.

(** One action, at an instant not before the clock. *)
Definition step_world (a : Action) (w : World) : option World :=
  if clock w <=? action_time a then
    match apply_action a (state w) with
    | Some st' => Some (mkWorld (action_time a) st')
    | None => None
    end
  else None.

Fixpoint run (acts : list Action) (w : World) : option World :=
  match acts with
  | [] => Some w
  | a :: acts' =>
      match step_world a w with
      | Some w' => run acts' w'
      | None => None
      end
  end.

(** A seeded inventory, and nothing locked, reserved or booked yet. *)
Definition initial (t0 : Z) (inventory : gmap string Seat.t) : World :=
  mkWorld t0 (mkState ∅ inventory [] []).

Inductive reachable : World -> Prop :=
| reachable_initial t0 inventory : reachable (initial t0 inventory)
| reachable_step w a w' : reachable w -> step_world a w = Some w' -> reachable w'.

(** The ACTIVE reservation rows of a seat. *)
Definition activeReservations (seatId : string) (st : State) : list Reservation.t :=
  List.filter (fun r => String.eqb (Reservation.seatId r) seatId
                        && ReservationStatus_eqb (Reservation.status r) ACTIVE)
              (reservations st).

(** The ACTIVE reservation rows of a seat whose token is the one of the
    lock the seat currently carries. *)
Definition lockedReservations (seatId : string) (st : State) : list Reservation.t :=
  List.filter (fun r => match getLock seatId (redis st) with
                        | Some lock =>
                            String.eqb (Reservation.reservationToken r)
                              (Lock.reservationToken lock)
                        | None => false
                        end)
              (activeReservations seatId st).

(** The moves of a reservation's status that the engine makes. *)
Inductive status_move : ReservationStatus -> ReservationStatus -> Prop :=
| move_stay s : status_move s s
| move_from_active s : status_move ACTIVE s
| move_expired_released : status_move EXPIRED RELEASED.

(** ** Tenant gate (middleware/appAuth.js) *)

Module App.
Record t : Type := mk {
  _id : string;
  appId : string;
  name : string;
  domain : string;
  apiKeyHash : string;
  allowedDomains : list string;
  isActive : bool
}.
End App.

Module Headers.
Record t : Type := mk {
  x_app_id : option string;
  x_api_key : option string;
  origin : option string;
  referer : option string
}.
End Headers.

Module AppContext.
Record t : Type := mk {
  id : string;
  appId : string;
  name : string;
  domain : string
}.
End AppContext.

(** [a || b] on two optional header values. *)
Definition js_or (a b : option string) : option string :=
  if truthy_opt a then a else b.

Section AppAuth.

(** [bcrypt.compare(plain, hash)] *)
Variable bcrypt_compare : string -> string -> bool.

(** [new URL(s).hostname]; [None] when the constructor throws. *)
Variable URL_hostname : string -> option string.

(** The callback given to [allowedDomains.some]. *)
Definition originMatches (origin allowedDomain : string) : bool :=
  if String.eqb allowedDomain "*" then true
  else
    match URL_hostname origin with
    | None => false
    | Some originHostname =>
        if String.eqb allowedDomain originHostname then true
        else if String.eqb allowedDomain origin then true
        else if includes allowedDomain origin then true
        else false
    end.

Definition appAuth (headers : Headers.t) (apps : list App.t) : Result AppContext.t :=
  let appId := Headers.x_app_id headers in
  let apiKey := Headers.x_api_key headers in
  let origin := js_or (Headers.origin headers) (Headers.referer headers) in
  match appId, apiKey with
  | Some appId, Some apiKey =>
      if negb (truthy appId) || negb (truthy apiKey) then
        Throw (AuthenticationError "App credentials required (x-app-id, x-api-key)")
      else
        match List.find (fun a => String.eqb (App.appId a) appId && App.isActive a) apps with
        | None => Throw (AuthenticationError "Invalid app credentials or app is inactive")
        | Some app =>
            let isApiKeyValid := bcrypt_compare apiKey (App.apiKeyHash app) in
            if negb isApiKeyValid then Throw (AuthenticationError "Invalid app credentials")
            else
              let ctx := AppContext.mk (App._id app) (App.appId app) (App.name app)
                           (App.domain app) in
              match origin with
              | Some origin =>
                  if (0 <? length (App.allowedDomains app))%nat && truthy origin then
                    let isOriginAllowed :=
                      existsb (originMatches origin) (App.allowedDomains app) in
                    if negb isOriginAllowed then
                      Throw (AuthorizationError "Origin domain not authorized for this app")
                    else Ok ctx
                  else Ok ctx
              | None => Ok ctx
              end
        end
  | _, _ => Throw (AuthenticationError "App credentials required (x-app-id, x-api-key)")
  end.

End AppAuth.

(** The host name of an absolute http(s) URL with a lower-case ASCII host,
    the form a browser gives the Origin and Referer headers: what follows
    the scheme up to the first of [/ ? #], without user information and
    port. On these inputs it is what [new URL(s).hostname] returns; any
    other input is refused. *)
Definition isAuthorityEnd (c : ascii) : bool :=
  Ascii.eqb c "/" || Ascii.eqb c "?" || Ascii.eqb c "#".

Fixpoint after_char (sep : ascii) (s : string) : option string :=
  match s with
  | EmptyString => None
  | String c s' => if Ascii.eqb c sep then Some s' else after_char sep s'
  end.

Definition http_hostname (s : string) : option string :=
  let rest :=
    match strip_prefix "https://" s with
    | Some r => Some r
    | None => strip_prefix "http://" s
    end in
  match rest with
  | None => None
  | Some r =>
      let authority := fst (span_chars (fun c => negb (isAuthorityEnd c)) r) in
      let hostport :=
        match after_char "@" authority with
        | Some h => h
        | None => authority
        end in
      let host := split_head ":" hostport in
      if String.eqb host "" then None
      else if all_chars (fun c => isLower c || isDigit c || Ascii.eqb c "." || Ascii.eqb c "-") host
      then Some host
      else None
  end.

(** ** The specification's wording, for comparison with the code *)

(** [suffix] ends [s]. *)
Definition endsWith (suffix s : string) : bool :=
  String.eqb suffix
    (String.substring (String.length s - String.length suffix) (String.length suffix) s)
  && (String.length suffix <=? String.length s)%nat.

(** An allowed entry matches a host by equality, as an ending of the host,
    or when it is the wildcard. *)
Definition spec_hostMatches (host allowedDomain : string) : bool :=
  String.eqb allowedDomain "*" || String.eqb allowedDomain host || endsWith allowedDomain host.

(** Reference-mode verification as the specification words it: an accepted
    prefix, and a gateway that reports the reference captured and not yet
    consumed. *)
Definition spec_hasAcceptedPrefix (paymentId : string) : bool :=
  String.prefix "pay_" paymentId || String.prefix "PAY-" paymentId.

Definition spec_verifies (gatewayCapturedUnconsumed : string -> bool) (paymentId : string) : bool :=
  spec_hasAcceptedPrefix paymentId && gatewayCapturedUnconsumed paymentId.

(** What [confirmBooking] checks before it opens the transaction. *)
Definition confirmReady (env : Env.t) (reservationToken paymentId userId : string)
    (st : State) (reservation : Reservation.t) (seat : Seat.t) : Prop :=
  findReservation reservationToken (reservations st) = Some reservation
  /\ Reservation.userId reservation = userId
  /\ Reservation.status reservation = ACTIVE
  /\ Reservation.isExpired (Env.now env) reservation = false
  /\ verifyLock (Reservation.seatId reservation) reservationToken userId (Env.now env)
       (redis st) = true
  /\ seats st !! Reservation.seatId reservation = Some seat
  /\ Seat.status seat = AVAILABLE
  /\ paymentId <> ""
  /\ validatePaymentIdFormat paymentId = true.

(** The lock value and the reservation row a reserve call writes. *)
Definition acquiredLock (env : Env.t) (userId : string) : Lock.t :=
  Lock.mk (Env.uuidv4 env) userId (Env.now env)
    (Env.now env + Env.LOCK_TTL_SECONDS env * 1000).

Definition reservationRow (env : Env.t) (appId seatId userId : string) (seat : Seat.t)
  : Reservation.t :=
  Reservation.mk (Env.uuidv4 env) userId appId seatId ACTIVE
    (Env.now env + Env.LOCK_TTL_SECONDS env * 1000)
    (Seat.seatNumber seat) (Seat.price seat) (Seat.entityId seat).

(** The tokens of the reservation rows, in insertion order. *)
Definition tokens (rs : list Reservation.t) : list string :=
  map Reservation.reservationToken rs.

(** The rows an operation leaves are the rows it found, with the status of
    at most one of them changed, plus at most one new row with a token no
    row carried. *)
Inductive rows_after (rs : list Reservation.t) : list Reservation.t -> Prop :=
| rows_same : rows_after rs rs
| rows_saved tok s : rows_after rs (saveReservationStatus tok s rs)
| rows_inserted r : ~ In (Reservation.reservationToken r) (tokens rs) -> rows_after rs (rs ++ [r]).

(** The locks the store holds for a seat. *)
Definition seatLocks (seatId : string) (redis : gmap string Lock.t) : gmap string Lock.t :=
  filter (fun kv => kv.1 = getLockKey seatId) redis.

(** The shape of [new Date().toISOString()] up to the time separator:
    [dddd-dd-ddT]. *)
Definition isoDateTime (s : string) : bool :=
  match s with
  | String y1 (String y2 (String y3 (String y4 (String h1 (String m1 (String m2
      (String h2 (String d1 (String d2 (String t _)))))))))) =>
      isDigit y1 && isDigit y2 && isDigit y3 && isDigit y4 && Ascii.eqb h1 "-"
      && isDigit m1 && isDigit m2 && Ascii.eqb h2 "-"
      && isDigit d1 && isDigit d2 && Ascii.eqb t "T"
  | _ => false
  end.

(** The value [confirmBooking] returns for a booking. *)
Definition confirmResult (reservation : Reservation.t) (seat : Seat.t) (booking : Booking.t)
  : ConfirmResult.t :=
  ConfirmResult.mk (Booking.bookingId booking) booking
    (SeatView.mk (Reservation.seatId reservation) (Seat.seatNumber seat) None
       (Seat.entityId seat)).

(** ** Sample data: a tenant with two seats and two users *)

Module Sample.

Definition seatA1 : Seat.t := Seat.mk "tenantA" "EVENT" "E1" "A1" AVAILABLE 100 None None.
Definition seatA2 : Seat.t := Seat.mk "tenantA" "EVENT" "E1" "A2" AVAILABLE 150 None None.

Definition inventory : gmap string Seat.t := {[ "S1" := seatA1; "S2" := seatA2 ]}.

Definition world0 : World := initial 0 inventory.

(** The surroundings of a call at [now] milliseconds after the epoch;
    [iso] is that instant as [toISOString] writes it. *)
Definition env (now : Z) (iso uuid random36 oid : string) (failure : option string) : Env.t :=
  Env.mk 120 now uuid iso random36 oid failure.

(** The lock of a reservation made at instant 1000 with a time to live
    of 120 seconds. *)
Definition lock1 : Lock.t := Lock.mk "tok-1" "u1" 1000 121000.

Definition store1 : gmap string Lock.t := {[ getLockKey "S1" := lock1 ]}.

(** u1 reserves S1. *)
Definition reserved1 : State :=
  fst (reserveSeat (env 1000 "1970-01-01T00:00:01.000Z" "tok-1" "0.4fzyo82mvyr" "oid-0" None)
         "tenantA" "S1" "u1" (state world0)).

(** The same reserve call, with the durable store refusing the insert. *)
Definition envRefused : Env.t :=
  env 1000 "1970-01-01T00:00:01.000Z" "tok-1" "0.4fzyo82mvyr" "oid-0" (Some "MongoNetworkError: connection timed out").

(** u1 confirms in time. *)
Definition envConfirm1 : Env.t := env 5000 "1970-01-01T00:00:05.000Z" "tok-x" "0.4fzyo82mvyr" "oid-1" None.

Definition confirmed1 : State :=
  fst (confirmBooking envConfirm1 "tenantA" "tok-1" "pay_abc123" "u1" reserved1).

(** The state after an action, or the state itself when the action cannot
    happen. *)
Definition after (a : Action) (st : State) : State :=
  match apply_action a st with
  | Some st' => st'
  | None => st
  end.

(** The lock of S1 runs out. *)
Definition lapsed1 : State := after (AExpire 121000 "S1") reserved1.

(** u1 confirms too late: the reservation is marked EXPIRED. *)
Definition envLate : Env.t := env 130000 "1970-01-01T00:02:10.000Z" "tok-x" "0.4fzyo82mvyr" "oid-1" None.

Definition expired1 : State :=
  fst (confirmBooking envLate "tenantA" "tok-1" "pay_abc123" "u1" lapsed1).

(** u1 releases the expired reservation. *)
Definition envRelease : Env.t := env 140000 "1970-01-01T00:02:20.000Z" "tok-x" "0.4fzyo82mvyr" "oid-2" None.

(** After u1's booking of S1, u2 reserves S2. *)
Definition reserved2 : State :=
  fst (reserveSeat (env 6000 "1970-01-01T00:00:06.000Z" "tok-2" "0.4fzyo82mvyr" "oid-0" None)
         "tenantA" "S2" "u2" confirmed1).

(** u2 confirms, and the generator produces the id of u1's booking. *)
Definition envCollide : Env.t := env 7000 "1970-01-01T00:00:07.000Z" "tok-x" "0.4fzyo82mvyr" "oid-2" None.

(** u2 confirms with the payment reference u1's booking already
    carries. *)
Definition envConfirm2 : Env.t := env 7000 "1970-01-01T00:00:07.000Z" "tok-x" "0.9k2j4h6g8f1" "oid-2" None.

(** u1 reserves S1, the lock expires, u2 reserves S1. *)
Definition twoReserves : list Action :=
  [ AReserve (env 1000 "1970-01-01T00:00:01.000Z" "tok-1" "0.4fzyo82mvyr" "oid-0" None) "tenantA" "S1" "u1";
    AExpire 121000 "S1";
    AReserve (env 121500 "1970-01-01T00:02:01.500Z" "tok-2" "0.4fzyo82mvyr" "oid-0" None) "tenantA" "S1" "u2" ].

Definition world2 : World :=
  match run twoReserves world0 with
  | Some w => w
  | None => world0
  end.

(** A stand-in for the hash comparison, enough for the sample key. *)
Definition bcrypt_compare (plain hash : string) : bool :=
  String.eqb hash ("$2a$10$" +:+ plain).

(** A tenant that allows one domain, and a request from a look-alike
    origin. *)
Definition appA : App.t :=
  App.mk "app-1" "tenantA" "Events" "EVENT" "$2a$10$secret-key" ["example.com"] true.

Definition lookalike : Headers.t :=
  Headers.mk (Some "tenantA") (Some "secret-key")
    (Some "https://example.com.evil.org") None.

End Sample.

(** * The rest of the services

    The remaining operations of the lock service, the booking service, the
    payment and the gateway service, the token helper, the user gate and
    the Redis connection, modelled under the conventions above. Amounts
    are whole numbers; a digest, a signature check and the decoding of a
    token are parameters. *)

(** ** Lock service: batch check (lockService.js) *)

(** [EXISTS key] *)
Definition redis_exists (key : string) (redis : gmap string Lock.t) : Z :=
  match redis !! key with
  | Some _ => 1
  | None => 0
  end.

(** The names of the members every plain object inherits from
    [Object.prototype]. *)
Definition objectPrototypeNames : list string :=
  [ "constructor"; "__defineGetter__"; "__defineSetter__"; "hasOwnProperty";
    "__lookupGetter__"; "__lookupSetter__"; "isPrototypeOf"; "propertyIsEnumerable";
    "toString"; "valueOf"; "__proto__"; "toLocaleString" ].

(** The pipeline of [EXISTS] commands, then one property per seat id, a
    later entry for the same id replacing an earlier one. The map holds
    the entries of the object [lockStatus], and a lookup is the read
    [lockStatus[seatId]], for every key outside [objectPrototypeNames]:
    on a plain object the assignment to ["__proto__"] writes no entry, and
    the read of a missing inherited name finds the inherited member. Seat
    ids are [ObjectId] strings. *)
Definition bulkCheckLocks (seatIds : list string) (redis : gmap string Lock.t)
  : gmap string bool :=
  let results := map (fun seatId => redis_exists (getLockKey seatId) redis) seatIds in
  fold_left (fun lockStatus '(seatId, result) => <[seatId := (result =? 1)]> lockStatus)
    (combine seatIds results) ∅.

(** ** Booking service: listing (bookingService.js) *)

Module SeatFilters.
Record t : Type := mk {
  minPrice : option Z;
  maxPrice : option Z
}.
End SeatFilters.

(** The query [{ appId, entityId, status: 'AVAILABLE', price: { $gte, $lte } }]. *)
Definition availableQuery (appId entityId : string) (filters : SeatFilters.t)
    (seat : Seat.t) : bool :=
  String.eqb (Seat.appId seat) appId
  && String.eqb (Seat.entityId seat) entityId
  && SeatStatus_eqb (Seat.status seat) AVAILABLE
  && match SeatFilters.minPrice filters with
     | Some minPrice => minPrice <=? Seat.price seat
     | None => true
     end
  && match SeatFilters.maxPrice filters with
     | Some maxPrice => Seat.price seat <=? maxPrice
     | None => true
     end.

(** [sort({ seatNumber: 1 })]: ascending in the byte order of the strings. *)
Fixpoint insertBySeatNumber (x : string * Seat.t) (l : list (string * Seat.t))
  : list (string * Seat.t) :=
  match l with
  | [] => [x]
  | y :: l' =>
      if String.leb (Seat.seatNumber (snd x)) (Seat.seatNumber (snd y))
      then x :: y :: l'
      else y :: insertBySeatNumber x l'
  end.

(** Ascending seat numbers. *)
Definition seatNumber_le (x y : string * Seat.t) : Prop :=
  String.leb (Seat.seatNumber (snd x)) (Seat.seatNumber (snd y)) = true.

Definition sortBySeatNumber (l : list (string * Seat.t)) : list (string * Seat.t) :=
  fold_right insertBySeatNumber [] l.

(** [Seat.find(query).sort({ seatNumber: 1 }).lean()]: the documents with
    their ids. *)
Definition findSeats (query : Seat.t -> bool) (seats : gmap string Seat.t)
  : list (string * Seat.t) :=
  sortBySeatNumber (List.filter (fun kv => query (snd kv)) (map_to_list seats)).

Definition getAvailableSeats (appId entityId : string) (filters : SeatFilters.t)
    (st : State) : list (string * Seat.t) :=
  let seats := findSeats (availableQuery appId entityId filters) (seats st) in
  let seatIds := map fst seats in
  let lockStatus := bulkCheckLocks seatIds (redis st) in
  List.filter (fun seat => negb (default false (lockStatus !! fst seat))) seats.

(** ** Payment service: generated ids (paymentService.js)

    [timestamp36] is the value of [Date.now().toString(36)] and [uuid] the
    value of [uuidv4()]. *)
Definition generatePaymentId (timestamp36 uuid : string) : string :=
  let prefix := "PAY" in
  let timestamp := toUpperCase timestamp36 in
  let random := toUpperCase (split_head "-" uuid) in
  prefix +:+ "-" +:+ timestamp +:+ "-" +:+ random.

Definition generateRefundId (timestamp36 uuid : string) : string :=
  let prefix := "REF" in
  let timestamp := toUpperCase timestamp36 in
  let random := toUpperCase (split_head "-" uuid) in
  prefix +:+ "-" +:+ timestamp +:+ "-" +:+ random.

(** The digits of a version-4 uuid. *)
Definition isHex (c : ascii) : bool :=
  isDigit c || (let n := nat_of_ascii c in (97 <=? n)%nat && (n <=? 102)%nat).

(** ** Reservation schema (models/Reservation.js)

    The schema declares [userId] and [seatId] of type [ObjectId], and
    [save()] refuses a row whose value for one of them does not cast to
    it. The cast is the library's and is not part of the embedding; it
    accepts every id in the form [ObjectId.prototype.toString()] writes:
    24 hexadecimal digits, the letters in lower case. *)
Definition isObjectIdString (s : string) : bool :=
  (String.length s =? 24)%nat && all_chars isHex s.

(** ** Token helper (tokenService.js) *)

(** [s.substring(start)] *)
Fixpoint js_substring_from (start : nat) (s : string) : string :=
  match start, s with
  | O, _ => s
  | S n, EmptyString => EmptyString
  | S n, String _ s' => js_substring_from n s'
  end.

Definition extractToken (authHeader : option string) : option string :=
  match authHeader with
  | None => None
  | Some h =>
      if negb (truthy h) || negb (String.prefix "Bearer " h) then None
      else Some (js_substring_from 7 h)
  end.

(** ** Redis connection: the reconnect strategy (config/redis.js)

    The strategy answers with an error, which ends the attempts, or with
    the delay before the next attempt. *)
Definition reconnectStrategy (retries : Z) : string + Z :=
  if 10 <? retries then inl "Max reconnection attempts reached"
  else
    let delay := Z.min (retries * 100) 3000 in
    inr delay.

(** ** Bookings in the histories of the pipeline *)


(** Sample data: u1's reservation of S1 has run out, u2 has reserved S1,
    and u1 confirms late. *)
Module Late.

Definition world : World :=
  match run Sample.twoReserves Sample.world0 with
  | Some w => w
  | None => Sample.world0
  end.

Definition envLate : Env.t :=
  Sample.env 130000 "1970-01-01T00:02:10.000Z" "tok-x" "0.4fzyo82mvyr" "oid-1" None.

Definition lock2 : Lock.t := Lock.mk "tok-2" "u2" 121500 241500.

End Late.

(** Sample data: u1 reserves and books S1, then u2 reserves and books
    S2. *)
Module Booked.

Definition twoBookings : list Action :=
  [ AReserve (Sample.env 1000 "1970-01-01T00:00:01.000Z" "tok-1" "0.4fzyo82mvyr" "oid-0" None)
      "tenantA" "S1" "u1";
    AConfirm Sample.envConfirm1 "tenantA" "tok-1" "pay_abc123" "u1";
    AReserve (Sample.env 6000 "1970-01-01T00:00:06.000Z" "tok-2" "0.4fzyo82mvyr" "oid-0" None)
      "tenantA" "S2" "u2";
    AConfirm Sample.envConfirm2 "tenantA" "tok-2" "pay_def456" "u2" ].

Definition world : World :=
  match run twoBookings Sample.world0 with
  | Some w => w
  | None => Sample.world0
  end.

End Booked.

(** Sample data with ids as the store writes them: a tenant with one
    seat, and a reserve call of a platform user. *)
Module Stored.

Definition seatId : string := "65a1f0c2b3d4e5f607182930".
Definition userId : string := "65a1f0c2b3d4e5f607182a41".

Definition st0 : State := mkState ∅ {[ seatId := Sample.seatA1 ]} [] [].

Definition env : Env.t :=
  Sample.env 1000 "1970-01-01T00:00:01.000Z" "3f2b8c1e-5a4d-4e6f-9b7a-0c1d2e3f4a5b"
    "0.4fzyo82mvyr" "65a1f0c2b3d4e5f607182b52" None.

End Stored.

(** ** Gateway service (razorpayService.js) *)

Module RazorpayEnv.
Record t : Type := mk {
  RAZORPAY_KEY_ID : option string;
  RAZORPAY_KEY_SECRET : option string;
  RAZORPAY_WEBHOOK_SECRET : option string;
  sdkInstalled : bool
}.
End RazorpayEnv.

(** [!env.RAZORPAY_KEY_ID || !env.RAZORPAY_KEY_SECRET] *)
Definition isSimulated (cfg : RazorpayEnv.t) : bool :=
  negb (truthy_opt (RazorpayEnv.RAZORPAY_KEY_ID cfg))
  || negb (truthy_opt (RazorpayEnv.RAZORPAY_KEY_SECRET cfg)).

Module Order.
Record t : Type := mk {
  id : string;
  entity : string;
  amount : Z;
  amount_paid : Z;
  amount_due : Z;
  currency : string;
  receipt : string;
  status : string;
  created_at : Z;
  notes : gmap string string
}.
End Order.

Module OrderOptions.
Record t : Type := mk {
  amount : Z;
  currency : string;
  receipt : string;
  notes : gmap string string
}.
End OrderOptions.

Module OrderData.
Record t : Type := mk {
  reservationToken : option string;
  amount : option Z;
  currency : option string;
  notes : option (gmap string string)
}.
End OrderData.

(** The instant of a gateway call, [nowString] being the instant as a
    template literal writes it, and the value of
    [Math.random().toString(36)]. *)
Module GatewayEnv.
Record t : Type := mk {
  now : Z;
  nowString : string;
  random36 : string
}.
End GatewayEnv.

(** [s.substr(start, length)] *)
Definition js_substr (start len : nat) (s : string) : string :=
  String.substring start len s.

Definition simulateCreateOrder (env : GatewayEnv.t) (options : OrderOptions.t) : Order.t :=
  let orderId :=
    "order_SIM" +:+ GatewayEnv.nowString env +:+ js_substr 2 6 (GatewayEnv.random36 env) in
  Order.mk orderId "order" (OrderOptions.amount options * 100) 0
    (OrderOptions.amount options * 100) (OrderOptions.currency options)
    (OrderOptions.receipt options) "created" (GatewayEnv.now env / 1000)
    (OrderOptions.notes options).

Module PaymentData.
Record t : Type := mk {
  razorpay_order_id : option string;
  razorpay_payment_id : option string;
  razorpay_signature : option string
}.
End PaymentData.

Module Verification.
Record t : Type := mk {
  verified : bool;
  orderId : string;
  paymentId : string
}.
End Verification.

Module Webhook.
Record t : Type := mk {
  event : string;
  json : string
}.
End Webhook.

Section Razorpay.

(** [razorpay.orders.create], of the gateway's library. *)
Variable razorpay_orders_create : OrderOptions.t -> Result Order.t.

(** [crypto.createHmac('sha256', key).update(body).digest('hex')] *)
Variable hmac_sha256_hex : string -> string -> string.

(** [crypto.createHash('md5').update(body).digest('hex')] *)
Variable md5_hex : string -> string.

Definition createOrder (cfg : RazorpayEnv.t) (env : GatewayEnv.t) (orderData : OrderData.t)
    (orderCache : gmap string Order.t) : gmap string Order.t * Result Order.t :=
  let currency := default "INR" (OrderData.currency orderData) in
  let notes := default ∅ (OrderData.notes orderData) in
  match OrderData.reservationToken orderData with
  | None => (orderCache, Throw (PaymentError "Reservation token is required for idempotency"))
  | Some reservationToken =>
      if negb (truthy reservationToken) then
        (orderCache, Throw (PaymentError "Reservation token is required for idempotency"))
      else
        match OrderData.amount orderData with
        | None => (orderCache, Throw (PaymentError "Invalid amount"))
        | Some amount =>
            if (amount =? 0) || (amount <=? 0) then
              (orderCache, Throw (PaymentError "Invalid amount"))
            else
              match orderCache !! reservationToken with
              | Some existingOrder => (orderCache, Ok existingOrder)
              | None =>
                  let notes' := <["reservationToken" := reservationToken]> notes in
                  let created :=
                    if isSimulated cfg then
                      Ok (simulateCreateOrder env
                            (OrderOptions.mk amount currency reservationToken notes'))
                    else if RazorpayEnv.sdkInstalled cfg then
                      razorpay_orders_create
                        (OrderOptions.mk (amount * 100) currency reservationToken notes')
                    else
                      Throw (PlainError
                               "Cannot read properties of undefined (reading 'orders')") in
                  match created with
                  | Throw e => (orderCache, Throw e)
                  | Ok order => (<[reservationToken := order]> orderCache, Ok order)
                  end
              end
        end
  end.

Definition verifyPaymentSignature (cfg : RazorpayEnv.t) (paymentData : PaymentData.t)
  : Result Verification.t :=
  match PaymentData.razorpay_order_id paymentData,
        PaymentData.razorpay_payment_id paymentData,
        PaymentData.razorpay_signature paymentData with
  | Some razorpay_order_id, Some razorpay_payment_id, Some razorpay_signature =>
      if negb (truthy razorpay_order_id) || negb (truthy razorpay_payment_id)
         || negb (truthy razorpay_signature) then
        Throw (PaymentError "Missing payment verification data")
      else
        let accepted := Verification.mk true razorpay_order_id razorpay_payment_id in
        if isSimulated cfg && String.prefix "SIM_" razorpay_signature then Ok accepted
        else
          match RazorpayEnv.RAZORPAY_KEY_SECRET cfg with
          | None => Ok accepted
          | Some secret =>
              if negb (truthy secret) then Ok accepted
              else
                let body := razorpay_order_id +:+ "|" +:+ razorpay_payment_id in
                let expectedSignature := hmac_sha256_hex secret body in
                let isValid := String.eqb expectedSignature razorpay_signature in
                if negb isValid then Throw (PaymentError "Invalid payment signature")
                else Ok accepted
          end
  | _, _, _ => Throw (PaymentError "Missing payment verification data")
  end.

Definition verifyWebhook (cfg : RazorpayEnv.t) (payload : Webhook.t)
    (signature : option string) : Result (bool * string * Webhook.t) :=
  if isSimulated cfg then Ok (true, Webhook.event payload, payload)
  else
    match RazorpayEnv.RAZORPAY_WEBHOOK_SECRET cfg with
    | None => Throw (PaymentError "Webhook secret not configured")
    | Some webhookSecret =>
        if negb (truthy webhookSecret) then
          Throw (PaymentError "Webhook secret not configured")
        else
          let expectedSignature := hmac_sha256_hex webhookSecret (Webhook.json payload) in
          match signature with
          | Some s =>
              if negb (String.eqb expectedSignature s) then
                Throw (PaymentError "Invalid webhook signature")
              else Ok (true, Webhook.event payload, payload)
          | None => Throw (PaymentError "Invalid webhook signature")
          end
    end.

Definition generateSimulatedPaymentResponse (env : GatewayEnv.t) (orderId : string)
  : PaymentData.t :=
  let paymentId :=
    "pay_SIM" +:+ GatewayEnv.nowString env +:+ js_substr 2 6 (GatewayEnv.random36 env) in
  let signature := "SIM_" +:+ md5_hex (orderId +:+ paymentId) in
  PaymentData.mk (Some orderId) (Some paymentId) (Some signature).

End Razorpay.

(** ** User gate (tokenService.js, middleware/userAuth.js) *)

Module TokenPayload.
Record t : Type := mk {
  userId : string;
  type : string
}.
End TokenPayload.

Module User.
Record t : Type := mk {
  _id : string;
  email : string;
  name : string;
  isActive : bool
}.
End User.

Module AuthUser.
Record t : Type := mk {
  id : string;
  externalId : option string;
  email : string;
  name : string;
  isExternal : option bool;
  appId : option string
}.
End AuthUser.

Module ExternalUser.
Record t : Type := mk {
  id : option string;
  userId : option string;
  email : option string;
  name : option string
}.
End ExternalUser.

Module UserRequest.
Record t : Type := mk {
  authorization : option string;
  x_external_user_id : option string;
  x_external_user_email : option string;
  x_external_user_name : option string;
  externalUser : option ExternalUser.t;
  userId : option string;
  userEmail : option string;
  userName : option string;
  appId : string
}.
End UserRequest.

(** A value inside a template literal. *)
Definition template (o : option string) : string := default "undefined" o.

(** [a || b] with a string on the right. *)
Definition js_or_else (a : option string) (b : string) : string :=
  match a with
  | Some s => if truthy s then s else b
  | None => b
  end.

Section UserAuth.

(** [jwt.verify(token, secret)]; [None] when it throws. *)
Variable jwt_verify : string -> string -> option TokenPayload.t.

Variable JWT_SECRET_USER : string.
Variable JWT_SECRET_ADMIN : string.

Definition verifyUserToken (token : string) : Result TokenPayload.t :=
  match jwt_verify token JWT_SECRET_USER with
  | Some decoded =>
      if negb (String.eqb (TokenPayload.type decoded) "user")
      then Throw (PlainError "Invalid or expired user token")
      else Ok decoded
  | None => Throw (PlainError "Invalid or expired user token")
  end.

Definition verifyAdminToken (token : string) : Result TokenPayload.t :=
  match jwt_verify token JWT_SECRET_ADMIN with
  | Some decoded =>
      if negb (String.eqb (TokenPayload.type decoded) "admin")
      then Throw (PlainError "Invalid or expired admin token")
      else Ok decoded
  | None => Throw (PlainError "Invalid or expired admin token")
  end.

Definition userAuth (authorization : option string) (users : gmap string User.t)
  : Result AuthUser.t :=
  match extractToken authorization with
  | None => Throw (AuthenticationError "User authentication token required")
  | Some token =>
      if negb (truthy token) then
        Throw (AuthenticationError "User authentication token required")
      else
        match verifyUserToken token with
        | Throw (PlainError message) => Throw (AuthenticationError message)
        | Throw e => Throw e
        | Ok decoded =>
            match users !! TokenPayload.userId decoded with
            | None => Throw (AuthenticationError "User not found")
            | Some user =>
                if negb (User.isActive user) then
                  Throw (AuthenticationError "User account is inactive")
                else
                  Ok (AuthUser.mk (User._id user) None (User.email user) (User.name user)
                        None None)
            end
        end
  end.

(** The first stage of [externalUserAuth]: a platform token that names an
    active user. *)
Definition platformUser (authorization : option string) (users : gmap string User.t)
  : option AuthUser.t :=
  match extractToken authorization with
  | None => None
  | Some token =>
      if negb (truthy token) then None
      else
        match verifyUserToken token with
        | Throw _ => None
        | Ok decoded =>
            match users !! TokenPayload.userId decoded with
            | None => None
            | Some user =>
                if User.isActive user then
                  Some (AuthUser.mk (User._id user) None (User.email user) (User.name user)
                          (Some false) None)
                else None
            end
        end
  end.

Definition externalUserAuth (req : UserRequest.t) (users : gmap string User.t)
  : Result AuthUser.t :=
  match platformUser (UserRequest.authorization req) users with
  | Some user => Ok user
  | None =>
      let appId := UserRequest.appId req in
      let externalUserId := UserRequest.x_external_user_id req in
      if truthy_opt externalUserId then
        Ok (AuthUser.mk ("ext_" +:+ appId +:+ "_" +:+ template externalUserId)
              externalUserId
              (js_or_else (UserRequest.x_external_user_email req)
                 ("user_" +:+ template externalUserId +:+ "@external"))
              (js_or_else (UserRequest.x_external_user_name req)
                 ("User " +:+ template externalUserId))
              (Some true) (Some appId))
      else
        match UserRequest.externalUser req with
        | Some externalUser =>
            let declared :=
              js_or (ExternalUser.id externalUser) (ExternalUser.userId externalUser) in
            Ok (AuthUser.mk ("ext_" +:+ appId +:+ "_" +:+ template declared)
                  declared
                  (js_or_else (ExternalUser.email externalUser) "user@external")
                  (js_or_else (ExternalUser.name externalUser) "External User")
                  (Some true) (Some appId))
        | None =>
            let userId := UserRequest.userId req in
            if truthy_opt userId then
              Ok (AuthUser.mk ("ext_" +:+ appId +:+ "_" +:+ template userId)
                    userId
                    (js_or_else (UserRequest.userEmail req)
                       ("user_" +:+ template userId +:+ "@external"))
                    (js_or_else (UserRequest.userName req) ("User " +:+ template userId))
                    (Some true) (Some appId))
            else
              Throw (AuthenticationError
                       "User identification required. Provide Authorization header, x-external-user-id header, or userId in request body.")
        end
  end.

End UserAuth.

(** ** Sample data for the gateway and the user gate *)

Module Gateway.

(** No keys configured: simulation. *)
Definition simulated : RazorpayEnv.t := RazorpayEnv.mk None None None false.

(** Both keys configured. *)
Definition live : RazorpayEnv.t :=
  RazorpayEnv.mk (Some "rzp_live_key") (Some "rzp_live_secret") (Some "whsec") true.

Definition env1 : GatewayEnv.t := GatewayEnv.mk 1700000000000 "1700000000000" "0.4fzyo82mvyr".
Definition env2 : GatewayEnv.t := GatewayEnv.mk 1700000005000 "1700000005000" "0.9k2j4h6g8f1".

Definition orderFor (amount : Z) : OrderData.t :=
  OrderData.mk (Some "tok-1") (Some amount) None None.

(** Stand-ins for the gateway's library and for the digests. *)
Definition orders_create (options : OrderOptions.t) : Result Order.t :=
  Throw (PlainError "gateway unreachable").

Definition hmac (key body : string) : string := "hmac:" +:+ key +:+ ":" +:+ body.

Definition md5 (body : string) : string := "md5:" +:+ body.

Definition order1 : Order.t :=
  simulateCreateOrder env1
    (OrderOptions.mk 100 "INR" "tok-1" (<["reservationToken" := "tok-1"]> ∅)).

Definition cache1 : gmap string Order.t := <["tok-1" := order1]> ∅.

(** Stand-in for the decoding of a token: the token names the user. *)
Definition jwt (token secret : string) : option TokenPayload.t :=
  if String.eqb secret "user-secret" then
    match strip_prefix "jwt:" token with
    | Some userId => Some (TokenPayload.mk userId "user")
    | None => None
    end
  else None.

Definition alice : User.t := User.mk "u1" "alice@example.com" "Alice" true.
Definition bob : User.t := User.mk "u2" "bob@example.com" "Bob" false.

Definition users : gmap string User.t := <["u1" := alice]> (<["u2" := bob]> ∅).

(** A request of a disabled user that also declares an external user. *)
Definition disabledWithHeader : UserRequest.t :=
  UserRequest.mk (Some "Bearer jwt:u2") (Some "42") None None None None None None "tenantA".

End Gateway.

(** * Properties *)

(** ** Lock service *)

Lemma getLockKey_inj (a b : string) : getLockKey a = getLockKey b -> a = b.
Proof. unfold getLockKey. simpl. intros H. by inversion H. Qed.

Lemma getLockKey_ne (a b : string) : a <> b -> getLockKey a <> getLockKey b.
Proof. intros Hne Heq. apply Hne. by apply getLockKey_inj. Qed.

Lemma truthy_true (s : string) : truthy s = true <-> s <> "".
Proof.
  unfold truthy. rewrite negb_true_iff. apply String.eqb_neq.
Qed.

Lemma getLock_delete_other (seatId other : string) (redis : gmap string Lock.t) :
  other <> seatId -> getLock other (delete (getLockKey seatId) redis) = getLock other redis.
Proof.
  intros Hne. unfold getLock. apply lookup_delete_ne.
  intros Heq. apply Hne. symmetry. by apply getLockKey_inj.
Qed.

Lemma verifyLock_holder (seatId reservationToken userId : string) (now : Z)
    (redis : gmap string Lock.t) :
  verifyLock seatId reservationToken userId now redis = true ->
  exists lock, getLock seatId redis = Some lock
               /\ Lock.reservationToken lock = reservationToken
               /\ Lock.userId lock = userId
               /\ now < Lock.expiresAt lock.
Proof.
  unfold verifyLock. destruct (getLock seatId redis) as [lock|]; [| discriminate].
  rewrite !andb_true_iff, !String.eqb_eq, Z.ltb_lt.
  intros [[Htok Huser] Hlt]. exists lock. auto.
Qed.

(** C9: [verifyLock] answers true exactly when a lock is stored for the
    seat, its token and its user are the ones given, and its expiry instant
    lies strictly after the instant of the call; at the expiry instant
    itself the holder's own token and user no longer verify. *)
Theorem verifyLock_true_iff (seatId reservationToken userId : string) (now : Z)
    (lock0 : Lock.t) (redis : gmap string Lock.t) :
  (verifyLock seatId reservationToken userId now redis = true <->
   exists lock, getLock seatId redis = Some lock
                /\ Lock.reservationToken lock = reservationToken
                /\ Lock.userId lock = userId
                /\ now < Lock.expiresAt lock)
  /\ verifyLock seatId (Lock.reservationToken lock0) (Lock.userId lock0)
       (Lock.expiresAt lock0) (<[getLockKey seatId := lock0]> redis) = false.
Proof.
  split.
  - unfold verifyLock. destruct (getLock seatId redis) as [lock|] eqn:Hget.
    + rewrite !andb_true_iff, !String.eqb_eq, Z.ltb_lt. split.
      * intros [[Htok Huser] Hlt]. exists lock. auto.
      * intros (lock' & Hsome & Htok & Huser & Hlt). inversion Hsome; subst. auto.
    + split; [discriminate |]. intros (lock' & Hsome & _). discriminate.
  - unfold verifyLock, getLock. rewrite lookup_insert_eq.
    rewrite Z.ltb_irrefl. by rewrite andb_false_r.
Qed.

(** C3, as the code has it: with a non-empty expected token, a stored lock
    whose token differs is left in place and the call fails with
    SeatLockError; a stored lock whose token is the expected one is deleted
    and the call returns true; with no lock stored nothing is removed and
    the call returns false; with no expected token the stored lock is
    deleted whatever its token; no call touches the lock of another seat. *)
Theorem releaseLock_compare_and_delete (seatId : string) (expectedToken : option string)
    (redis : gmap string Lock.t) :
  (forall tok lock,
      expectedToken = Some tok -> tok <> "" ->
      getLock seatId redis = Some lock -> Lock.reservationToken lock <> tok ->
      releaseLock seatId expectedToken redis
      = (redis, Throw (SeatLockError "Invalid reservation token for this seat" None)))
  /\ (forall tok lock,
      expectedToken = Some tok ->
      getLock seatId redis = Some lock -> Lock.reservationToken lock = tok ->
      releaseLock seatId expectedToken redis = (delete (getLockKey seatId) redis, Ok true))
  /\ (getLock seatId redis = None ->
      releaseLock seatId expectedToken redis = (redis, Ok false))
  /\ (forall lock,
      truthy_opt expectedToken = false -> getLock seatId redis = Some lock ->
      releaseLock seatId expectedToken redis = (delete (getLockKey seatId) redis, Ok true))
  /\ (forall other,
      other <> seatId ->
      getLock other (fst (releaseLock seatId expectedToken redis)) = getLock other redis).
Proof.
  repeat split.
  - intros tok lock -> Hne Hget Hdiff. unfold releaseLock. rewrite Hget.
    apply truthy_true in Hne. rewrite Hne.
    apply String.eqb_neq in Hdiff. by rewrite Hdiff.
  - intros tok lock -> Hget Heq. unfold releaseLock, redis_del. rewrite Hget.
    apply String.eqb_eq in Heq. rewrite Heq, andb_false_r.
    unfold getLock in Hget. by rewrite Hget.
  - intros Hget. unfold releaseLock, redis_del. rewrite Hget.
    unfold getLock in Hget. rewrite Hget.
    destruct expectedToken as [tok|]; [by rewrite andb_false_r | done].
  - intros lock Hfalsy Hget. unfold releaseLock, redis_del.
    unfold getLock in *. rewrite Hget.
    destruct expectedToken as [tok|]; simpl in *; [by rewrite Hfalsy | done].
  - intros other Hne. unfold releaseLock, redis_del.
    destruct (match expectedToken with Some _ => _ | None => _ end); [done |].
    destruct (redis !! getLockKey seatId); simpl; [| done].
    by apply getLock_delete_other.
Qed.

Lemma releaseLock_compare_and_delete_witness :
  releaseLock "S1" (Some "tok-2") Sample.store1
  = (Sample.store1, Throw (SeatLockError "Invalid reservation token for this seat" None)).
Proof.
  apply (proj1 (releaseLock_compare_and_delete "S1" (Some "tok-2") Sample.store1)
           "tok-2" Sample.lock1).
  - reflexivity.
  - discriminate.
  - reflexivity.
  - discriminate.
Defined.

(** C3 fails as stated: a release with an expected token that differs from
    the stored one does not return false, it throws. *)
Lemma releaseLock_mismatch_does_not_return_false :
  snd (releaseLock "S1" (Some "tok-2") Sample.store1) <> Ok false
  /\ snd (releaseLock "S1" (Some "tok-2") Sample.store1)
     = Throw (SeatLockError "Invalid reservation token for this seat" None).
Proof. split; [discriminate | reflexivity]. Qed.

(** ** Reserve *)

Lemma SeatStatus_eqb_eq (a b : SeatStatus) : SeatStatus_eqb a b = true <-> a = b.
Proof. destruct a, b; simpl; split; (done || discriminate). Qed.

Lemma ReservationStatus_eqb_eq (a b : ReservationStatus) :
  ReservationStatus_eqb a b = true <-> a = b.
Proof. destruct a, b; simpl; split; (done || discriminate). Qed.

(** C1, as the code has it: when a reserve call has acquired the seat's
    lock and the insert of the reservation row fails, the call surfaces the
    insert's error and leaves the lock it acquired in the store; no
    reservation row is written and the lock is not released. *)
Theorem reserveSeat_insert_failure_keeps_lock (env : Env.t) (appId seatId userId : string)
    (st : State) (seat : Seat.t) (e : Error) :
  seats st !! seatId = Some seat ->
  Seat.appId seat = appId ->
  Seat.status seat = AVAILABLE ->
  getLock seatId (redis st) = None ->
  insertReservation (Env.mongoFailure env) (reservationRow env appId seatId userId seat)
    (reservations st) = Throw e ->
  exists st',
    reserveSeat env appId seatId userId st = (st', Throw e)
    /\ getLock seatId (redis st') = Some (acquiredLock env userId)
    /\ reservations st' = reservations st
    /\ seats st' = seats st
    /\ bookings st' = bookings st.
Proof.
  intros Hseat Happ Hstatus Hfree Hinsert.
  unfold reserveSeat. rewrite Hseat.
  apply String.eqb_eq in Happ. rewrite Happ. simpl.
  rewrite Hstatus. simpl.
  unfold acquireLock. unfold getLock in Hfree. rewrite Hfree. simpl.
  unfold reservationRow in Hinsert. rewrite Hinsert.
  eexists. split; [reflexivity |]. simpl.
  unfold getLock. rewrite lookup_insert_eq. done.
Qed.

Lemma reserveSeat_insert_failure_keeps_lock_witness :
  exists st',
    reserveSeat Sample.envRefused "tenantA" "S1" "u1" (state Sample.world0)
    = (st', Throw (PlainError "MongoNetworkError: connection timed out"))
    /\ getLock "S1" (redis st') = Some (acquiredLock Sample.envRefused "u1")
    /\ reservations st' = reservations (state Sample.world0)
    /\ seats st' = seats (state Sample.world0)
    /\ bookings st' = bookings (state Sample.world0).
Proof.
  apply (reserveSeat_insert_failure_keeps_lock Sample.envRefused "tenantA" "S1" "u1"
           (state Sample.world0) Sample.seatA1).
  - reflexivity.
  - reflexivity.
  - reflexivity.
  - reflexivity.
  - reflexivity.
Defined.

(** C1 fails as stated: the reserve call below acquires the lock of S1,
    its insert is refused, and the lock is still stored when the error
    surfaces. *)
Lemma reserveSeat_failed_insert_leaves_lock :
  getLock "S1" (redis (state Sample.world0)) = None
  /\ snd (reserveSeat Sample.envRefused "tenantA" "S1" "u1" (state Sample.world0))
     = Throw (PlainError "MongoNetworkError: connection timed out")
  /\ getLock "S1"
       (redis (fst (reserveSeat Sample.envRefused "tenantA" "S1" "u1" (state Sample.world0))))
     = Some Sample.lock1.
Proof. repeat split; reflexivity. Qed.

(** ** Reservation rows under the engine's operations *)

Lemma tokens_save (tok : string) (s : ReservationStatus) (rs : list Reservation.t) :
  tokens (saveReservationStatus tok s rs) = tokens rs.
Proof.
  induction rs as [|r rs IH]; simpl; [done |].
  destruct (String.eqb (Reservation.reservationToken r) tok); simpl; [done |].
  f_equal. exact IH.
Qed.

Lemma existsb_token_false (tok : string) (rs : list Reservation.t) :
  existsb (fun r' => String.eqb (Reservation.reservationToken r') tok) rs = false ->
  ~ In tok (tokens rs).
Proof.
  induction rs as [|r rs IH]; simpl; [tauto |].
  rewrite orb_false_iff. intros [Hne Hrest] [Heq | Hin].
  - apply String.eqb_neq in Hne. done.
  - by apply IH.
Qed.

Lemma insertReservation_tokens (failure : option string) (r : Reservation.t)
    (rs rs' : list Reservation.t) :
  insertReservation failure r rs = Ok rs' ->
  rs' = rs ++ [r] /\ ~ In (Reservation.reservationToken r) (tokens rs).
Proof.
  unfold insertReservation. destruct failure; [discriminate |].
  destruct (existsb _ rs) eqn:Hex; [discriminate |].
  intros [= <-]. split; [done |]. by apply existsb_token_false.
Qed.

Lemma reserveSeat_rows (env : Env.t) (appId seatId userId : string) (st : State) :
  rows_after (reservations st) (reservations (fst (reserveSeat env appId seatId userId st))).
Proof.
  unfold reserveSeat.
  destruct (seats st !! seatId) as [seat|]; [| constructor].
  destruct (negb (String.eqb (Seat.appId seat) appId)); [constructor |].
  destruct (negb (SeatStatus_eqb (Seat.status seat) AVAILABLE)); [constructor |].
  destruct (acquireLock _ _ _ _ _ _) as [redis' [details | e]]; simpl; [| constructor].
  destruct (insertReservation _ _ _) as [rs | e] eqn:Hins; simpl; [| constructor].
  apply insertReservation_tokens in Hins as [-> Hfresh]. by constructor.
Qed.

Lemma releaseLock_reservations (seatId : string) (tok : option string) (st : State) :
  reservations (set_redis (fst (releaseLock seatId tok (redis st))) st) = reservations st.
Proof. done. Qed.

Lemma confirmTransaction_rows (env : Env.t) (appId tok paymentId userId seatId : string)
    (seat : Seat.t) (st st1 : State) (b : Booking.t) :
  confirmTransaction env appId tok paymentId userId seatId seat st = Ok (st1, b) ->
  reservations st1 = saveReservationStatus tok CONFIRMED (reservations st).
Proof.
  unfold confirmTransaction. destruct (Env.mongoFailure env); [discriminate |].
  destruct (insertBooking _ _); [| discriminate]. by intros [= <- _].
Qed.

Lemma confirmBooking_rows (env : Env.t) (appId tok paymentId userId : string) (st : State) :
  reservations (fst (confirmBooking env appId tok paymentId userId st)) = reservations st
  \/ exists r s,
       findReservation tok (reservations st) = Some r
       /\ Reservation.status r = ACTIVE
       /\ (s = EXPIRED \/ s = CONFIRMED)
       /\ reservations (fst (confirmBooking env appId tok paymentId userId st))
          = saveReservationStatus tok s (reservations st).
Proof.
  unfold confirmBooking.
  destruct (findReservation tok (reservations st)) as [r|] eqn:Hfind; [| by left].
  destruct (negb (String.eqb (Reservation.userId r) userId)); [by left |].
  destruct (ReservationStatus_eqb (Reservation.status r) ACTIVE) eqn:Hactive;
    simpl; [| by left].
  apply ReservationStatus_eqb_eq in Hactive.
  destruct (Reservation.isExpired (Env.now env) r).
  { destruct (Env.mongoFailure env); [by left |].
    right. exists r, EXPIRED. split; [done |]. split; [done |]. split; [by left |].
    by destruct (releaseLock _ _ _) as [redis' [ok | e]]. }
  destruct (negb (verifyLock _ _ _ _ _)); [by left |].
  destruct (seats st !! Reservation.seatId r) as [seat|]; [| by left].
  destruct (negb (SeatStatus_eqb (Seat.status seat) AVAILABLE)); [by left |].
  destruct (verifyPayment _ _); [| by left].
  destruct (confirmTransaction _ _ _ _ _ _ _ _) as [[st1 b] | e] eqn:Htx; [| by left].
  right. exists r, CONFIRMED. split; [done |]. split; [done |]. split; [by right |].
  apply confirmTransaction_rows in Htx.
  by destruct (releaseLock _ _ _) as [redis' [ok | e]].
Qed.

Lemma releaseSeat_rows (env : Env.t) (tok userId : string) (st : State) :
  reservations (fst (releaseSeat env tok userId st)) = reservations st
  \/ exists r,
       findReservation tok (reservations st) = Some r
       /\ Reservation.status r <> CONFIRMED
       /\ reservations (fst (releaseSeat env tok userId st))
          = saveReservationStatus tok RELEASED (reservations st).
Proof.
  unfold releaseSeat.
  destruct (findReservation tok (reservations st)) as [r|] eqn:Hfind; [| by left].
  destruct (negb (String.eqb (Reservation.userId r) userId)); [by left |].
  destruct (ReservationStatus_eqb (Reservation.status r) CONFIRMED) eqn:Hconf; [by left |].
  destruct (releaseLock _ _ _) as [redis' [ok | e]]; [| by left].
  destruct (Env.mongoFailure env); [by left |].
  right. exists r. split; [done |]. split; [| done].
  intros Heq. apply ReservationStatus_eqb_eq in Heq. congruence.
Qed.

Lemma apply_action_rows (a : Action) (st st' : State) :
  apply_action a st = Some st' -> rows_after (reservations st) (reservations st').
Proof.
  destruct a as [env appId seatId userId | env appId tok pay userId | env tok userId
                | now seatId]; simpl.
  - intros [= <-]. apply reserveSeat_rows.
  - intros [= <-].
    destruct (confirmBooking_rows env appId tok pay userId st) as [-> | (r & s & _ & _ & _ & ->)];
      constructor.
  - intros [= <-].
    destruct (releaseSeat_rows env tok userId st) as [-> | (r & _ & _ & ->)]; constructor.
  - destruct (getLock seatId (redis st)) as [lock|]; [| discriminate].
    destruct (Lock.expiresAt lock <=? now); [| discriminate].
    intros [= <-]. constructor.
Qed.

(** Tokens stay pairwise distinct: the unique index of the collection. *)
Lemma rows_after_NoDup (rs rs' : list Reservation.t) :
  rows_after rs rs' -> NoDup (tokens rs) -> NoDup (tokens rs').
Proof.
  intros [| tok s | r Hfresh] Hnd; [done | by rewrite tokens_save |].
  unfold tokens. rewrite map_app. simpl.
  apply NoDup_app. repeat split; [done | | apply NoDup_singleton].
  intros x Hx Hin. apply list_elem_of_In in Hx.
  apply list_elem_of_singleton in Hin. subst. done.
Qed.

Lemma reachable_tokens_NoDup (w : World) :
  reachable w -> NoDup (tokens (reservations (state w))).
Proof.
  induction 1 as [t0 inventory | w a w' Hreach IH Hstep]; [constructor |].
  unfold step_world in Hstep.
  destruct (clock w <=? action_time a); [| discriminate].
  destruct (apply_action a (state w)) as [st'|] eqn:Happly; [| discriminate].
  injection Hstep as <-. simpl.
  eapply rows_after_NoDup; [by eapply apply_action_rows | done].
Qed.

Lemma run_reachable (acts : list Action) (w w' : World) :
  reachable w -> run acts w = Some w' -> reachable w'.
Proof.
  revert w. induction acts as [|a acts IH]; simpl; intros w Hreach.
  - by intros [= <-].
  - destruct (step_world a w) as [w1|] eqn:Hstep; [| discriminate].
    apply IH. by eapply reachable_step.
Qed.

Lemma filter_token_absent (tok : string) (rs : list Reservation.t) :
  ~ In tok (tokens rs) ->
  List.filter (fun r => String.eqb (Reservation.reservationToken r) tok) rs = [].
Proof.
  induction rs as [|r rs IH]; simpl; [done |].
  intros Hnotin.
  destruct (String.eqb (Reservation.reservationToken r) tok) eqn:Heq.
  - apply String.eqb_eq in Heq. tauto.
  - apply IH. tauto.
Qed.

Lemma filter_token_length (tok : string) (rs : list Reservation.t) :
  NoDup (tokens rs) ->
  (length (List.filter (fun r => String.eqb (Reservation.reservationToken r) tok) rs) <= 1)%nat.
Proof.
  induction rs as [|r rs IH]; simpl; [lia |].
  intros Hnd. apply NoDup_cons in Hnd as [Hnotin Hnd].
  destruct (String.eqb (Reservation.reservationToken r) tok) eqn:Heq; [| by apply IH].
  apply String.eqb_eq in Heq. simpl.
  rewrite filter_token_absent; [simpl; lia |].
  rewrite <- Heq. intros Hin. apply Hnotin. by apply list_elem_of_In.
Qed.

Lemma filter_filter_length {A : Type} (p q : A -> bool) (l : list A) :
  (length (List.filter p (List.filter q l)) <= length (List.filter p l))%nat.
Proof.
  induction l as [|x l IH]; simpl; [lia |].
  destruct (q x), (p x) eqn:Hp; simpl; rewrite ?Hp; simpl; lia.
Qed.

(** ** One lock per seat, and one reservation holding it *)

Lemma seatLocks_size (seatId : string) (redis : gmap string Lock.t) :
  (size (seatLocks seatId redis) <= 1)%nat.
Proof.
  unfold seatLocks.
  destruct (redis !! getLockKey seatId) as [lock|] eqn:Hget.
  - assert (filter (fun kv : string * Lock.t => kv.1 = getLockKey seatId) redis
            = {[ getLockKey seatId := lock ]}) as ->.
    { apply map_eq. intros k. apply option_eq. intros x.
      rewrite map_lookup_filter_Some, lookup_singleton_Some. simpl.
      split.
      - intros [Hk ->]. rewrite Hget in Hk. by inversion Hk.
      - intros [<- <-]. done. }
    by rewrite map_size_singleton.
  - assert (filter (fun kv : string * Lock.t => kv.1 = getLockKey seatId) redis = ∅) as ->.
    { apply map_eq. intros k. rewrite lookup_empty.
      apply map_lookup_filter_None. right. simpl. intros x Hk ->. congruence. }
    rewrite map_size_empty. lia.
Qed.

Lemma lockedReservations_length (seatId : string) (st : State) :
  NoDup (tokens (reservations st)) ->
  (length (lockedReservations seatId st) <= 1)%nat.
Proof.
  intros Hnd. unfold lockedReservations, activeReservations.
  destruct (getLock seatId (redis st)) as [lock|].
  - etransitivity; [apply filter_filter_length |].
    by apply filter_token_length.
  - induction (List.filter _ (reservations st)) as [|x l IH]; simpl; lia.
Qed.

(** C2, as the code has it: in every state a history of reserve, confirm,
    release and lock-expiry steps reaches, the store holds at most one lock
    for a seat, and at most one ACTIVE reservation row of the seat carries
    the token of that lock. ACTIVE rows whose lock is gone stay ACTIVE
    until a confirm or a release visits them, and are not counted. *)
Theorem reachable_one_lock_one_holder (w : World) (seatId : string) :
  reachable w ->
  (size (seatLocks seatId (redis (state w))) <= 1)%nat
  /\ (length (lockedReservations seatId (state w)) <= 1)%nat.
Proof.
  intros Hreach. split.
  - apply seatLocks_size.
  - apply lockedReservations_length. by apply reachable_tokens_NoDup.
Qed.

Lemma world2_reachable : reachable Sample.world2.
Proof.
  apply (run_reachable Sample.twoReserves Sample.world0).
  - apply reachable_initial.
  - vm_compute. reflexivity.
Qed.

Lemma reachable_one_lock_one_holder_witness :
  (size (seatLocks "S1" (redis (state Sample.world2))) <= 1)%nat
  /\ (length (lockedReservations "S1" (state Sample.world2)) <= 1)%nat.
Proof.
  apply (reachable_one_lock_one_holder Sample.world2 "S1").
  apply (run_reachable Sample.twoReserves Sample.world0).
  - apply reachable_initial.
  - vm_compute. reflexivity.
Defined.

(** C2 fails as stated: after u1 reserves S1, the lock expires and u2
    reserves S1, the seat has two ACTIVE reservation rows. *)
Lemma two_active_reservations_on_one_seat :
  reachable Sample.world2
  /\ length (activeReservations "S1" (state Sample.world2)) = 2%nat
  /\ map Reservation.userId (activeReservations "S1" (state Sample.world2)) = ["u1"; "u2"].
Proof.
  split; [apply world2_reachable |]. split; vm_compute; reflexivity.
Qed.

(** ** The status of a reservation *)

Lemma save_lookup (tok : string) (s : ReservationStatus) (rs : list Reservation.t)
    (i : nat) (r : Reservation.t) :
  rs !! i = Some r ->
  saveReservationStatus tok s rs !! i = Some r
  \/ (findReservation tok rs = Some r
      /\ saveReservationStatus tok s rs !! i = Some (Reservation.set_status s r)).
Proof.
  revert i. induction rs as [|r0 rs IH]; intros i Hi; [done |].
  unfold findReservation. simpl.
  destruct (String.eqb (Reservation.reservationToken r0) tok) eqn:Heq.
  - destruct i as [|i]; simpl in *.
    + right. by inversion Hi; subst.
    + by left.
  - destruct i as [|i]; simpl in *; [by left |].
    by apply IH.
Qed.

Lemma reserveSeat_rows_app (env : Env.t) (appId seatId userId : string) (st : State) :
  exists l, reservations (fst (reserveSeat env appId seatId userId st)) = reservations st ++ l.
Proof.
  unfold reserveSeat.
  destruct (seats st !! seatId) as [seat|]; [| exists []; by rewrite app_nil_r].
  destruct (negb (String.eqb (Seat.appId seat) appId)); [exists []; by rewrite app_nil_r |].
  destruct (negb (SeatStatus_eqb (Seat.status seat) AVAILABLE));
    [exists []; by rewrite app_nil_r |].
  destruct (acquireLock _ _ _ _ _ _) as [redis' [details | e]]; simpl;
    [| exists []; by rewrite app_nil_r].
  destruct (insertReservation _ _ _) as [rs | e] eqn:Hins; simpl;
    [| exists []; by rewrite app_nil_r].
  apply insertReservation_tokens in Hins as [-> _]. by eexists.
Qed.

(** C4, as the code has it: under every engine operation and under lock
    expiry a reservation row keeps its place and its token, and its status
    either stays, or leaves ACTIVE, or goes from EXPIRED to RELEASED (a
    release of an expired reservation); a CONFIRMED or RELEASED row keeps
    its status. *)
Theorem status_moves (a : Action) (st st' : State) (i : nat) (r : Reservation.t) :
  apply_action a st = Some st' ->
  reservations st !! i = Some r ->
  exists r',
    reservations st' !! i = Some r'
    /\ Reservation.reservationToken r' = Reservation.reservationToken r
    /\ status_move (Reservation.status r) (Reservation.status r')
    /\ (Reservation.status r = CONFIRMED \/ Reservation.status r = RELEASED ->
        Reservation.status r' = Reservation.status r).
Proof.
  intros Happly Hi.
  assert (Hsame : reservations st' = reservations st -> exists r',
    reservations st' !! i = Some r'
    /\ Reservation.reservationToken r' = Reservation.reservationToken r
    /\ status_move (Reservation.status r) (Reservation.status r')
    /\ (Reservation.status r = CONFIRMED \/ Reservation.status r = RELEASED ->
        Reservation.status r' = Reservation.status r)).
  { intros ->. exists r. repeat split; [done | constructor]. }
  destruct a as [env appId seatId userId | env appId tok pay userId | env tok userId
                | now seatId]; simpl in Happly.
  - injection Happly as <-.
    destruct (reserveSeat_rows_app env appId seatId userId st) as [l ->].
    exists r. rewrite lookup_app_l; [| by eapply lookup_lt_Some].
    repeat split; [done | constructor].
  - injection Happly as <-.
    destruct (confirmBooking_rows env appId tok pay userId st)
      as [Heq | (r0 & s & Hfind & Hactive & Hs & ->)]; [by apply Hsame |].
    destruct (save_lookup tok s _ i r Hi) as [Hkeep | [Hfound Hset]].
    + exists r. repeat split; [done | constructor].
    + rewrite Hfind in Hfound. inversion Hfound; subst r0.
      exists (Reservation.set_status s r). simpl. rewrite Hactive.
      repeat split; [done | constructor | intros [? | ?]; discriminate].
  - injection Happly as <-.
    destruct (releaseSeat_rows env tok userId st)
      as [Heq | (r0 & Hfind & Hnotconf & ->)]; [by apply Hsame |].
    destruct (save_lookup tok RELEASED _ i r Hi) as [Hkeep | [Hfound Hset]].
    + exists r. repeat split; [done | constructor].
    + rewrite Hfind in Hfound. inversion Hfound; subst r0.
      exists (Reservation.set_status RELEASED r). simpl.
      repeat split; [done | | intros [? | ->]; [done | done]].
      destruct (Reservation.status r); [constructor | constructor | done | constructor].
  - destruct (getLock seatId (redis st)) as [lock|]; [| discriminate].
    destruct (Lock.expiresAt lock <=? now); [| discriminate].
    injection Happly as <-. by apply Hsame.
Qed.

Lemma status_moves_witness :
  exists r',
    reservations Sample.expired1 !! 0%nat = Some r'
    /\ Reservation.reservationToken r' = "tok-1"
    /\ status_move ACTIVE (Reservation.status r')
    /\ (ACTIVE = CONFIRMED \/ ACTIVE = RELEASED -> Reservation.status r' = ACTIVE).
Proof.
  apply (status_moves (AConfirm Sample.envLate "tenantA" "tok-1" "pay_abc123" "u1")
           Sample.lapsed1 Sample.expired1 0%nat
           (Reservation.mk "tok-1" "u1" "tenantA" "S1" ACTIVE 121000 "A1" 100 "E1")).
  - reflexivity.
  - reflexivity.
Defined.

(** C4 fails as stated: a reservation that a late confirm marked EXPIRED is
    moved to RELEASED by a later release. *)
Lemma release_moves_expired_to_released :
  Reservation.status <$> findReservation "tok-1" (reservations Sample.expired1) = Some EXPIRED
  /\ snd (releaseSeat Sample.envRelease "tok-1" "u1" Sample.expired1) = Ok true
  /\ Reservation.status <$>
       findReservation "tok-1"
         (reservations (fst (releaseSeat Sample.envRelease "tok-1" "u1" Sample.expired1)))
     = Some RELEASED.
Proof. repeat split; vm_compute; reflexivity. Qed.

(** ** Confirm *)

Lemma find_save (tok : string) (s : ReservationStatus) (rs : list Reservation.t)
    (r : Reservation.t) :
  findReservation tok rs = Some r ->
  findReservation tok (saveReservationStatus tok s rs) = Some (Reservation.set_status s r).
Proof.
  unfold findReservation. induction rs as [|r0 rs IH]; simpl; [discriminate |].
  destruct (String.eqb (Reservation.reservationToken r0) tok) eqn:Heq.
  - intros [= ->]. simpl. by rewrite Heq.
  - intros Hfind. simpl. rewrite Heq. by apply IH.
Qed.

Lemma confirmTransaction_redis (env : Env.t) (appId tok paymentId userId seatId : string)
    (seat : Seat.t) (st st1 : State) (b : Booking.t) :
  confirmTransaction env appId tok paymentId userId seatId seat st = Ok (st1, b) ->
  redis st1 = redis st.
Proof.
  unfold confirmTransaction. destruct (Env.mongoFailure env); [discriminate |].
  destruct (insertBooking _ _); [| discriminate]. by intros [= <- _].
Qed.

Lemma releaseLock_held (seatId tok userId : string) (now : Z) (redis : gmap string Lock.t) :
  verifyLock seatId tok userId now redis = true ->
  releaseLock seatId (Some tok) redis = (delete (getLockKey seatId) redis, Ok true).
Proof.
  intros Hverify.
  apply (verifyLock_holder seatId tok userId now redis) in Hverify
    as (lock & Hget & Htok & _).
  unfold releaseLock, redis_del. rewrite Hget.
  apply String.eqb_eq in Htok. rewrite Htok. rewrite andb_false_r.
  unfold getLock in Hget. by rewrite Hget.
Qed.

(** Once its checks pass, [confirmBooking] is its transaction followed by
    the release of the lock. *)
Lemma confirmBooking_ready (env : Env.t) (appId tok pay userId : string) (st : State)
    (r : Reservation.t) (seat : Seat.t) :
  confirmReady env tok pay userId st r seat ->
  confirmBooking env appId tok pay userId st
  = match confirmTransaction env appId tok pay userId (Reservation.seatId r) seat st with
    | Throw e => (st, Throw e)
    | Ok (st1, b) =>
        (set_redis (delete (getLockKey (Reservation.seatId r)) (redis st1)) st1,
         Ok (confirmResult r seat b))
    end.
Proof.
  intros (Hfind & Huser & Hactive & Hfresh & Hverify & Hseat & Havail & Hpay & Hformat).
  unfold confirmBooking. rewrite Hfind.
  apply String.eqb_eq in Huser. rewrite Huser. simpl.
  rewrite Hactive. simpl. rewrite Hfresh, Hverify. simpl.
  rewrite Hseat, Havail. simpl.
  unfold verifyPayment. apply truthy_true in Hpay. rewrite Hpay, Hformat. simpl.
  destruct (confirmTransaction _ _ _ _ _ _ _ _) as [[st1 b] | e] eqn:Htx; [| done].
  apply confirmTransaction_redis in Htx. rewrite Htx.
  by rewrite (releaseLock_held _ _ _ _ _ Hverify).
Qed.

(** A confirm that returns a booking passed every check. *)
Lemma confirmBooking_Ok_inv (env : Env.t) (appId tok pay userId : string) (st st' : State)
    (out : ConfirmResult.t) :
  confirmBooking env appId tok pay userId st = (st', Ok out) ->
  exists r seat st1 b,
    confirmReady env tok pay userId st r seat
    /\ confirmTransaction env appId tok pay userId (Reservation.seatId r) seat st = Ok (st1, b)
    /\ st' = set_redis (delete (getLockKey (Reservation.seatId r)) (redis st1)) st1
    /\ out = confirmResult r seat b.
Proof.
  intros Hconfirm.
  assert (exists r seat, confirmReady env tok pay userId st r seat) as (r & seat & Hready).
  { revert Hconfirm. unfold confirmBooking, confirmReady.
    destruct (findReservation tok (reservations st)) as [r|] eqn:Hfind; [| discriminate].
    destruct (String.eqb (Reservation.userId r) userId) eqn:Huser; [| discriminate].
    destruct (ReservationStatus_eqb (Reservation.status r) ACTIVE) eqn:Hactive;
      [| discriminate]. simpl.
    destruct (Reservation.isExpired (Env.now env) r) eqn:Hexpired.
    { destruct (Env.mongoFailure env); [discriminate |].
      by destruct (releaseLock _ _ _) as [redis' [ok | e]]. }
    destruct (verifyLock _ _ _ _ _) eqn:Hverify; [| discriminate]. simpl.
    destruct (seats st !! Reservation.seatId r) as [seat|] eqn:Hseat; [| discriminate].
    destruct (SeatStatus_eqb (Seat.status seat) AVAILABLE) eqn:Havail; [| discriminate].
    simpl. unfold verifyPayment.
    destruct (truthy pay) eqn:Hpay; [| discriminate]. simpl.
    destruct (validatePaymentIdFormat pay) eqn:Hformat; [| discriminate]. simpl.
    intros _. exists r, seat.
    apply String.eqb_eq in Huser. apply ReservationStatus_eqb_eq in Hactive.
    apply SeatStatus_eqb_eq in Havail. apply truthy_true in Hpay.
    repeat split; done. }
  exists r, seat.
  rewrite (confirmBooking_ready env appId tok pay userId st r seat Hready) in Hconfirm.
  destruct (confirmTransaction _ _ _ _ _ _ _ _) as [[st1 b] | e]; [| discriminate].
  exists st1, b. inversion Hconfirm. done.
Qed.

(** C5, as the code has it: once a confirm has returned a booking, every
    later confirm of the same reservation by the same user, with the same
    or with another paymentId, fails with Conflict ("Reservation is
    confirmed") and changes nothing; the booking of the first confirm stays
    stored. *)
Theorem confirm_again_conflicts (env env' : Env.t) (appId appId' tok pay pay' userId : string)
    (st st' : State) (out : ConfirmResult.t) :
  confirmBooking env appId tok pay userId st = (st', Ok out) ->
  confirmBooking env' appId' tok pay' userId st'
  = (st', Throw (ConflictError "Reservation is confirmed"))
  /\ In (ConfirmResult.booking out) (bookings st').
Proof.
  intros Hconfirm.
  apply confirmBooking_Ok_inv in Hconfirm
    as (r & seat & st1 & b & Hready & Htx & -> & ->).
  destruct Hready as (Hfind & Huser & _).
  pose proof (confirmTransaction_rows _ _ _ _ _ _ _ _ _ _ Htx) as Hrows.
  split.
  - unfold confirmBooking. simpl. rewrite Hrows.
    rewrite (find_save tok CONFIRMED _ r Hfind). simpl.
    apply String.eqb_eq in Huser. rewrite Huser. done.
  - simpl. revert Htx. unfold confirmTransaction.
    destruct (Env.mongoFailure env); [discriminate |].
    unfold insertBooking. destruct (existsb _ _); [discriminate |].
    intros [= <- <-]. simpl. apply in_or_app. right. by left.
Qed.

Lemma confirm_again_conflicts_witness :
  confirmBooking Sample.envCollide "tenantA" "tok-1" "pay_other999" "u1" Sample.confirmed1
  = (Sample.confirmed1, Throw (ConflictError "Reservation is confirmed"))
  /\ In (ConfirmResult.booking
           (confirmResult
              (Reservation.mk "tok-1" "u1" "tenantA" "S1" ACTIVE 121000 "A1" 100 "E1")
              Sample.seatA1
              (Booking.mk "oid-1" "BK-19700101-4FZYO8" "u1" "tenantA" "S1" "tok-1" SUCCESS
                 "pay_abc123" 100 "USD" 5000 "A1" "E1" "EVENT")))
        (bookings Sample.confirmed1).
Proof.
  apply (confirm_again_conflicts Sample.envConfirm1 Sample.envCollide "tenantA" "tenantA"
           "tok-1" "pay_abc123" "pay_other999" "u1" Sample.reserved1 Sample.confirmed1).
  vm_compute. reflexivity.
Defined.

(** C5 fails as stated: the second confirm of the same reservation with the
    same paymentId does not return the booking of the first one, it fails
    with Conflict. *)
Lemma confirm_twice_second_fails :
  isOk (snd (confirmBooking Sample.envConfirm1 "tenantA" "tok-1" "pay_abc123" "u1"
               Sample.reserved1)) = true
  /\ snd (confirmBooking Sample.envConfirm1 "tenantA" "tok-1" "pay_abc123" "u1"
            Sample.confirmed1)
     = Throw (ConflictError "Reservation is confirmed").
Proof. split; vm_compute; reflexivity. Qed.

(** ** Booking ids *)

Lemma isDigit_not_T (c : ascii) : isDigit c = true -> Ascii.eqb c "T" = false.
Proof. destruct c as [[] [] [] [] [] [] [] []]; vm_compute; congruence. Qed.

Lemma isDigit_not_dash (c : ascii) : isDigit c = true -> Ascii.eqb c "-" = false.
Proof. destruct c as [[] [] [] [] [] [] [] []]; vm_compute; congruence. Qed.

Lemma upper_char_base36 (c : ascii) : isBase36 c = true -> isUpperAlnum (upper_char c) = true.
Proof. destruct c as [[] [] [] [] [] [] [] []]; vm_compute; congruence. Qed.

Lemma substring_0_0 (s : string) : String.substring 0 0 s = "".
Proof. by destruct s. Qed.

Lemma generateBookingId_format (isoString random36 : string) :
  isoDateTime isoString = true ->
  is_random36 random36 = true ->
  (8 <= String.length random36)%nat ->
  bookingIdPattern (generateBookingId isoString random36) = true.
Proof.
  intros Hiso Hrnd Hlen.
  destruct isoString as [|y1 [|y2 [|y3 [|y4 [|h1 [|m1 [|m2 [|h2 [|d1 [|d2 [|t rest]]]]]]]]]]];
    try discriminate.
  unfold isoDateTime in Hiso.
  do 10 (apply andb_true_iff in Hiso as [Hiso ?]).
  repeat match goal with H : Ascii.eqb _ _ = true |- _ => apply Ascii.eqb_eq in H; subst end.
  destruct random36 as [|z [|p [|c1 [|c2 [|c3 [|c4 [|c5 [|c6 more]]]]]]]];
    try (simpl in Hlen; lia).
  unfold is_random36 in Hrnd.
  cbn [String.eqb strip_prefix] in Hrnd.
  assert (Hdigits : all_chars isBase36
                      (String c1 (String c2 (String c3 (String c4 (String c5 (String c6 more))))))
                    = true).
  { destruct (Ascii.eqb z "0"), (Ascii.eqb "0" z), (Ascii.eqb "." p);
      cbn [orb String.eqb negb andb] in Hrnd; (discriminate || exact Hrnd). }
  cbn [all_chars] in Hdigits.
  do 6 (apply andb_true_iff in Hdigits as [? Hdigits]).
  unfold generateBookingId.
  repeat first [ rewrite !isDigit_not_T by assumption
               | progress cbn [split_head Ascii.eqb Bool.eqb] ].
  repeat first [ rewrite !isDigit_not_dash by assumption
               | progress cbn [remove_char Ascii.eqb Bool.eqb] ].
  unfold bookingIdPattern.
  cbn -[isDigit isUpperAlnum upper_char].
  rewrite substring_0_0.
  cbv [String.append map_chars].
  cbn -[isDigit isUpperAlnum upper_char].
  repeat match goal with H : isDigit _ = true |- _ => rewrite H; clear H end.
  rewrite !upper_char_base36 by assumption.
  reflexivity.
Qed.

(** The id is made of the date digits and of the characters that follow
    ["0."], up to six of them, upper-cased. *)
Lemma generateBookingId_value (isoString random36 : string) :
  isoDateTime isoString = true ->
  generateBookingId isoString random36
  = "BK-" +:+ String.substring 0 4 isoString +:+ String.substring 5 2 isoString
    +:+ String.substring 8 2 isoString +:+ "-"
    +:+ toUpperCase (String.substring 2 6 random36).
Proof.
  intros Hiso.
  destruct isoString as [|y1 [|y2 [|y3 [|y4 [|h1 [|m1 [|m2 [|h2 [|d1 [|d2 [|t rest]]]]]]]]]]];
    try discriminate.
  unfold isoDateTime in Hiso.
  do 10 (apply andb_true_iff in Hiso as [Hiso ?]).
  repeat match goal with H : Ascii.eqb _ _ = true |- _ => apply Ascii.eqb_eq in H; subst end.
  unfold generateBookingId.
  repeat first [ rewrite !isDigit_not_T by assumption
               | progress cbn [split_head Ascii.eqb Bool.eqb] ].
  repeat first [ rewrite !isDigit_not_dash by assumption
               | progress cbn [remove_char Ascii.eqb Bool.eqb] ].
  change (js_substring 2 8 random36) with (String.substring 2 6 random36).
  cbn [String.substring]. rewrite ?substring_0_0. reflexivity.
Qed.

Lemma confirmTransaction_collision (env : Env.t) (appId tok pay userId seatId : string)
    (seat : Seat.t) (st : State) :
  Env.mongoFailure env = None ->
  existsb (fun b => String.eqb (Booking.bookingId b)
                      (generateBookingId (Env.isoString env) (Env.random36 env)))
          (bookings st) = true ->
  confirmTransaction env appId tok pay userId seatId seat st
  = Throw (PlainError "E11000 duplicate key error: bookingId").
Proof.
  intros Hok Htaken. unfold confirmTransaction, insertBooking. rewrite Hok. simpl.
  by rewrite Htaken.
Qed.

Lemma confirmTransaction_fresh (env : Env.t) (appId tok pay userId seatId : string)
    (seat : Seat.t) (st : State) :
  Env.mongoFailure env = None ->
  existsb (fun b => String.eqb (Booking.bookingId b)
                      (generateBookingId (Env.isoString env) (Env.random36 env)))
          (bookings st) = false ->
  exists st1 b,
    confirmTransaction env appId tok pay userId seatId seat st = Ok (st1, b)
    /\ Booking.bookingId b = generateBookingId (Env.isoString env) (Env.random36 env)
    /\ bookings st1 = bookings st ++ [b].
Proof.
  intros Hok Hfree. unfold confirmTransaction, insertBooking. rewrite Hok. simpl.
  rewrite Hfree. by eexists _, _.
Qed.

(** C8, as the code has it: the generated id is BK-, the eight date digits
    of the instant, a dash and the upper-cased characters of the random
    number's base-36 expansion that follow the point, up to six of them;
    when that expansion has at least six digits after the point the id has
    the form BK-YYYYMMDD-XXXXXX with six upper-case base-36 characters.
    When the generated id is the id of a stored booking, the insert fails
    on the unique index, the transaction is aborted, and the confirm fails
    with the store's error, the state and the lock left as they were: no
    other id is generated. When the id is free, the confirm succeeds, and
    the booking it stores and returns carries the generated id. *)
Theorem bookingId_format_and_collision (env : Env.t) (appId tok pay userId : string)
    (st : State) (r : Reservation.t) (seat : Seat.t) :
  (isoDateTime (Env.isoString env) = true ->
   generateBookingId (Env.isoString env) (Env.random36 env)
   = "BK-" +:+ String.substring 0 4 (Env.isoString env)
     +:+ String.substring 5 2 (Env.isoString env)
     +:+ String.substring 8 2 (Env.isoString env) +:+ "-"
     +:+ toUpperCase (String.substring 2 6 (Env.random36 env))
   /\ (is_random36 (Env.random36 env) = true ->
       (8 <= String.length (Env.random36 env))%nat ->
       bookingIdPattern (generateBookingId (Env.isoString env) (Env.random36 env)) = true))
  /\ (confirmReady env tok pay userId st r seat ->
      Env.mongoFailure env = None ->
      existsb (fun b => String.eqb (Booking.bookingId b)
                          (generateBookingId (Env.isoString env) (Env.random36 env)))
              (bookings st) = true ->
      confirmBooking env appId tok pay userId st
      = (st, Throw (PlainError "E11000 duplicate key error: bookingId")))
  /\ (confirmReady env tok pay userId st r seat ->
      Env.mongoFailure env = None ->
      existsb (fun b => String.eqb (Booking.bookingId b)
                          (generateBookingId (Env.isoString env) (Env.random36 env)))
              (bookings st) = false ->
      exists st' out,
        confirmBooking env appId tok pay userId st = (st', Ok out)
        /\ ConfirmResult.bookingId out
           = generateBookingId (Env.isoString env) (Env.random36 env)
        /\ Booking.bookingId (ConfirmResult.booking out)
           = generateBookingId (Env.isoString env) (Env.random36 env)
        /\ bookings st' = bookings st ++ [ConfirmResult.booking out]).
Proof.
  split; [| split].
  - intros Hiso. split.
    + by apply generateBookingId_value.
    + intros Hrnd Hlen. by apply generateBookingId_format.
  - intros Hready Hok Htaken.
    rewrite (confirmBooking_ready env appId tok pay userId st r seat Hready).
    by rewrite confirmTransaction_collision.
  - intros Hready Hok Hfree.
    rewrite (confirmBooking_ready env appId tok pay userId st r seat Hready).
    destruct (confirmTransaction_fresh env appId tok pay userId (Reservation.seatId r)
                seat st Hok Hfree) as (st1 & b & -> & Hid & Hbs).
    eexists _, _. split; [reflexivity |]. simpl. done.
Qed.

Lemma bookingId_format_and_collision_witness :
  (generateBookingId "1970-01-01T00:00:07.000Z" "0.9k2j4h6g8f1" = "BK-19700101-9K2J4H"
   /\ bookingIdPattern (generateBookingId "1970-01-01T00:00:07.000Z" "0.9k2j4h6g8f1") = true)
  /\ confirmBooking Sample.envCollide "tenantA" "tok-2" "pay_def456" "u2" Sample.reserved2
     = (Sample.reserved2, Throw (PlainError "E11000 duplicate key error: bookingId"))
  /\ (exists st' out,
        confirmBooking Sample.envConfirm2 "tenantA" "tok-2" "pay_def456" "u2" Sample.reserved2
        = (st', Ok out)
        /\ ConfirmResult.bookingId out = "BK-19700101-9K2J4H"
        /\ Booking.bookingId (ConfirmResult.booking out) = "BK-19700101-9K2J4H"
        /\ bookings st' = bookings Sample.reserved2 ++ [ConfirmResult.booking out]).
Proof.
  assert (Hready : forall env, Env.now env = 7000 ->
            confirmReady env "tok-2" "pay_def456" "u2" Sample.reserved2
              (Reservation.mk "tok-2" "u2" "tenantA" "S2" ACTIVE 126000 "A2" 150 "E1")
              Sample.seatA2).
  { intros env Hnow. unfold confirmReady. rewrite Hnow.
    repeat split; vm_compute; (reflexivity || discriminate). }
  split; [| split].
  - destruct (proj1 (bookingId_format_and_collision Sample.envConfirm2 "tenantA" "tok-2"
                    "pay_def456" "u2" Sample.reserved2
                    (Reservation.mk "tok-2" "u2" "tenantA" "S2" ACTIVE 126000 "A2" 150 "E1")
                    Sample.seatA2) eq_refl) as [Hid Hformat].
    split; [exact Hid | apply Hformat; [reflexivity | simpl; lia]].
  - apply (proj1 (proj2 (bookingId_format_and_collision Sample.envCollide "tenantA" "tok-2"
                           "pay_def456" "u2" Sample.reserved2
                           (Reservation.mk "tok-2" "u2" "tenantA" "S2" ACTIVE 126000 "A2" 150
                              "E1")
                           Sample.seatA2))).
    + apply Hready. reflexivity.
    + reflexivity.
    + vm_compute. reflexivity.
  - apply (proj2 (proj2 (bookingId_format_and_collision Sample.envConfirm2 "tenantA" "tok-2"
                           "pay_def456" "u2" Sample.reserved2
                           (Reservation.mk "tok-2" "u2" "tenantA" "S2" ACTIVE 126000 "A2" 150
                              "E1")
                           Sample.seatA2))).
    + apply Hready. reflexivity.
    + reflexivity.
    + vm_compute. reflexivity.
Defined.

(** C8 fails as stated: a confirm whose generated id is the id of a stored
    booking fails and stores no booking, and a random number with a short
    base-36 expansion (0.5 is written 0.i) gives an id with fewer than six
    characters after the date. *)
Lemma bookingId_collision_fails_and_short_suffix :
  (snd (confirmBooking Sample.envCollide "tenantA" "tok-2" "pay_def456" "u2" Sample.reserved2)
   = Throw (PlainError "E11000 duplicate key error: bookingId")
   /\ map Booking.bookingId
        (bookings (fst (confirmBooking Sample.envCollide "tenantA" "tok-2" "pay_def456" "u2"
                          Sample.reserved2)))
      = ["BK-19700101-4FZYO8"])
  /\ (is_random36 "0.i" = true
      /\ generateBookingId "1970-01-01T00:00:07.000Z" "0.i" = "BK-19700101-I"
      /\ bookingIdPattern (generateBookingId "1970-01-01T00:00:07.000Z" "0.i") = false).
Proof. repeat split; vm_compute; reflexivity. Qed.

(** ** The caller's tenant in confirm *)

(** C10: two confirm calls that differ only in the caller's appId end the
    same way: both fail with the same error and leave the same state, or
    both succeed, with the same booking id, lock store, seats and
    reservation rows, each storing a booking that records its caller's
    appId; no check relates that appId to the seat's or the reservation's. *)
Theorem confirmBooking_ignores_caller_tenant (env : Env.t)
    (appId1 appId2 tok pay userId : string) (st : State) :
  match confirmBooking env appId1 tok pay userId st,
        confirmBooking env appId2 tok pay userId st with
  | (st1, Ok out1), (st2, Ok out2) =>
      Booking.appId (ConfirmResult.booking out1) = appId1
      /\ Booking.appId (ConfirmResult.booking out2) = appId2
      /\ In (ConfirmResult.booking out1) (bookings st1)
      /\ In (ConfirmResult.booking out2) (bookings st2)
      /\ ConfirmResult.bookingId out1 = ConfirmResult.bookingId out2
      /\ redis st1 = redis st2
      /\ seats st1 = seats st2
      /\ reservations st1 = reservations st2
  | (st1, Throw e1), (st2, Throw e2) => e1 = e2 /\ st1 = st2
  | _, _ => False
  end.
Proof.
  unfold confirmBooking.
  destruct (findReservation tok (reservations st)) as [r|]; [| done].
  destruct (negb (String.eqb (Reservation.userId r) userId)); [done |].
  destruct (negb (ReservationStatus_eqb (Reservation.status r) ACTIVE)); [done |].
  destruct (Reservation.isExpired (Env.now env) r).
  { destruct (Env.mongoFailure env); [done |].
    by destruct (releaseLock _ _ _) as [redis' [ok | e]]. }
  destruct (verifyLock _ _ _ _ _) eqn:Hverify; [| done]. simpl.
  destruct (seats st !! Reservation.seatId r) as [seat|]; [| done].
  destruct (negb (SeatStatus_eqb (Seat.status seat) AVAILABLE)); [done |].
  destruct (verifyPayment _ _); [| done].
  unfold confirmTransaction, insertBooking.
  destruct (Env.mongoFailure env); [done |].
  cbn [Booking.bookingId].
  destruct (existsb _ (bookings st)); [done |].
  cbn [redis].
  rewrite (releaseLock_held _ _ _ _ _ Hverify). simpl.
  repeat split; try done; apply in_or_app; right; by left.
Qed.

(** The tenant of the caller need not be the tenant of the seat: tenantB
    confirms the reservation of a seat of tenantA, and the booking is
    stored under tenantB. *)
Lemma confirm_cross_tenant_example :
  Seat.appId <$> (seats Sample.reserved1 !! "S1") = Some "tenantA"
  /\ (Booking.appId ∘ ConfirmResult.booking)
       <$> (match snd (confirmBooking Sample.envConfirm1 "tenantB" "tok-1" "pay_abc123" "u1"
                         Sample.reserved1) with
            | Ok out => Some out
            | Throw _ => None
            end) = Some "tenantB".
Proof. split; vm_compute; reflexivity. Qed.

(** ** Strings *)

Lemma append_cons (c : ascii) (s t : string) : String c s +:+ t = String c (s +:+ t).
Proof. reflexivity. Qed.

Lemma append_nil (t : string) : "" +:+ t = t.
Proof. reflexivity. Qed.

Lemma append_nil_r (s : string) : s +:+ "" = s.
Proof. induction s as [|c s IH]; [done |]. by rewrite append_cons, IH. Qed.

Lemma append_assoc (s t u : string) : (s +:+ t) +:+ u = s +:+ t +:+ u.
Proof. induction s as [|c s IH]; [done |]. by rewrite !append_cons, IH. Qed.

Lemma strip_prefix_Some (p s r : string) : strip_prefix p s = Some r <-> s = p +:+ r.
Proof.
  revert s. induction p as [|a p IH]; intros s; simpl.
  - change ("" +:+ r) with r. split; [by intros [= ->] | by intros ->].
  - change (String a p +:+ r) with (String a (p +:+ r)). destruct s as [|b s].
    + split; discriminate.
    + destruct (Ascii.eqb a b) eqn:Hab.
      * apply Ascii.eqb_eq in Hab as ->. rewrite IH.
        split; [by intros -> | by intros [= ->]].
      * apply Ascii.eqb_neq in Hab. split; [discriminate | intros [= -> _]; done].
Qed.

Lemma strip_prefix_None (p s : string) :
  strip_prefix p s = None -> forall r, s <> p +:+ r.
Proof.
  intros Hnone r Heq. apply strip_prefix_Some in Heq. congruence.
Qed.

Lemma span_chars_split (p : ascii -> bool) (s a rest : string) :
  span_chars p s = (a, rest) -> s = a +:+ rest /\ all_chars p a = true.
Proof.
  revert a rest. induction s as [|c s IH]; intros a rest; simpl.
  - by intros [= <- <-].
  - destruct (p c) eqn:Hc.
    + destruct (span_chars p s) as [a' rest']. intros [= <- <-].
      destruct (IH a' rest' eq_refl) as [-> Hall].
      rewrite append_cons. simpl. by rewrite Hc, Hall.
    + by intros [= <- <-].
Qed.

Lemma span_chars_stop (p : ascii -> bool) (a : string) (c : ascii) (b : string) :
  all_chars p a = true -> p c = false ->
  span_chars p (a +:+ String c b) = (a, String c b).
Proof.
  intros Hall Hc. induction a as [|x a IH]; simpl in *.
  - rewrite ?append_nil. simpl. by rewrite Hc.
  - apply andb_true_iff in Hall as [Hx Hall].
    rewrite ?append_cons. simpl. by rewrite Hx, (IH Hall).
Qed.

Lemma eqb_empty_false (s : string) : negb (String.eqb s "") = true <-> s <> "".
Proof. rewrite negb_true_iff. apply String.eqb_neq. Qed.

(** ** Payment references *)

Lemma razorpayPattern_iff (s : string) :
  razorpayPattern s = true <->
  exists r, s = "pay_" +:+ r /\ r <> "" /\ all_chars isAlnum r = true.
Proof.
  unfold razorpayPattern. split.
  - destruct (strip_prefix "pay_" s) as [r|] eqn:Hstrip; [| discriminate].
    rewrite andb_true_iff, eqb_empty_false. intros [Hne Hall].
    apply strip_prefix_Some in Hstrip. by exists r.
  - intros (r & Hs & Hne & Hall). apply strip_prefix_Some in Hs. rewrite Hs.
    rewrite andb_true_iff, eqb_empty_false. done.
Qed.

Lemma simulatedPattern_iff (s : string) :
  simulatedPattern s = true <->
  exists a b, s = "PAY-" +:+ a +:+ "-" +:+ b
              /\ a <> "" /\ b <> ""
              /\ all_chars isUpperAlnum a = true /\ all_chars isUpperAlnum b = true.
Proof.
  unfold simulatedPattern. split.
  - destruct (strip_prefix "PAY-" s) as [r|] eqn:Hstrip; [| discriminate].
    apply strip_prefix_Some in Hstrip.
    destruct (span_chars isUpperAlnum r) as [a rest] eqn:Hspan.
    apply span_chars_split in Hspan as [-> Halla].
    rewrite andb_true_iff, eqb_empty_false. intros [Hne Hrest].
    destruct rest as [|c b]; [discriminate |].
    rewrite !andb_true_iff, eqb_empty_false, Ascii.eqb_eq in Hrest.
    destruct Hrest as [[-> Hbne] Hallb].
    exists a, b. done.
  - intros (a & b & -> & Hane & Hbne & Halla & Hallb).
    assert (Hstrip : strip_prefix "PAY-" ("PAY-" +:+ a +:+ "-" +:+ b)
                     = Some (a +:+ "-" +:+ b)) by by apply strip_prefix_Some.
    rewrite Hstrip.
    change ("-" +:+ b) with (String "-" b).
    rewrite (span_chars_stop isUpperAlnum a "-" b Halla eq_refl).
    rewrite Ascii.eqb_refl, Hallb. simpl.
    apply eqb_empty_false in Hane, Hbne. by rewrite Hane, Hbne.
Qed.

(** C7, as the code has it: a payment reference verifies exactly when it is
    pay_ followed by one or more letters or digits, or PAY- followed by two
    non-empty runs of upper-case letters or digits with one dash between
    them; the answer then carries the reference with status VERIFIED, and
    any other reference fails with PaymentError. Nothing but the characters
    of the reference is looked at: no gateway is asked. *)
Theorem verifyPayment_format_only (now : Z) (paymentId : string) :
  (isOk (verifyPayment now paymentId) = true <->
   (exists r, paymentId = "pay_" +:+ r /\ r <> "" /\ all_chars isAlnum r = true)
   \/ (exists a b, paymentId = "PAY-" +:+ a +:+ "-" +:+ b
                   /\ a <> "" /\ b <> ""
                   /\ all_chars isUpperAlnum a = true /\ all_chars isUpperAlnum b = true))
  /\ (isOk (verifyPayment now paymentId) = true ->
      verifyPayment now paymentId = Ok (VerifiedPayment.mk paymentId "VERIFIED" now))
  /\ (isOk (verifyPayment now paymentId) = false ->
      exists msg, verifyPayment now paymentId = Throw (PaymentError msg)).
Proof.
  assert (Hformat : validatePaymentIdFormat paymentId = true -> truthy paymentId = true).
  { unfold validatePaymentIdFormat. rewrite orb_true_iff, razorpayPattern_iff,
      simulatedPattern_iff, truthy_true.
    intros [(r & -> & _) | (a & b & -> & _)]; discriminate. }
  assert (Hok : isOk (verifyPayment now paymentId) = validatePaymentIdFormat paymentId).
  { unfold verifyPayment.
    destruct (validatePaymentIdFormat paymentId) eqn:Hvalid.
    - by rewrite (Hformat eq_refl).
    - by destruct (truthy paymentId). }
  split; [| split].
  - rewrite Hok. unfold validatePaymentIdFormat.
    by rewrite orb_true_iff, razorpayPattern_iff, simulatedPattern_iff.
  - rewrite Hok. intros Hvalid. unfold verifyPayment.
    by rewrite (Hformat Hvalid), Hvalid.
  - unfold verifyPayment. destruct (truthy paymentId); simpl; [| by eexists].
    destruct (validatePaymentIdFormat paymentId); simpl; [discriminate | by eexists].
Qed.

Lemma verifyPayment_format_only_witness :
  verifyPayment 5000 "pay_abc123" = Ok (VerifiedPayment.mk "pay_abc123" "VERIFIED" 5000).
Proof.
  apply (proj1 (proj2 (verifyPayment_format_only 5000 "pay_abc123"))).
  reflexivity.
Defined.

(** C7 fails as stated: a well-formed reference verifies although the
    gateway does not report it captured, and a reference that a stored
    booking already carries is accepted for a second booking. *)
Lemma verifyPayment_ignores_gateway :
  (isOk (verifyPayment 5000 "pay_abc123") = true
   /\ spec_verifies (fun _ => false) "pay_abc123" = false)
  /\ (map Booking.paymentId (bookings Sample.reserved2) = ["pay_abc123"]
      /\ map Booking.paymentId
           (bookings (fst (confirmBooking Sample.envConfirm2 "tenantA" "tok-2" "pay_abc123"
                             "u2" Sample.reserved2)))
         = ["pay_abc123"; "pay_abc123"]).
Proof. repeat split; vm_compute; reflexivity. Qed.

(** ** Origins *)

Lemma prefix_iff (n h : string) : String.prefix n h = true <-> exists b, h = n +:+ b.
Proof.
  revert h. induction n as [|c n IH]; intros h.
  - destruct h; simpl; (split; [intros _; by eexists | done]).
  - destruct h as [|d h]; simpl.
    + split; [discriminate | intros [b Hb]; discriminate].
    + destruct (ascii_dec c d) as [-> | Hne].
      * rewrite IH. split; intros [b Hb]; exists b.
        -- by rewrite Hb.
        -- rewrite append_cons in Hb. by inversion Hb.
      * split; [discriminate |]. intros [b Hb]. rewrite append_cons in Hb.
        inversion Hb. done.
Qed.

Lemma includes_iff (n h : string) :
  includes n h = true <-> exists a b, h = a +:+ n +:+ b.
Proof.
  induction h as [|d h IH].
  - cbn [includes]. rewrite orb_false_r, prefix_iff. split.
    + intros [b Hb]. by exists "", b.
    + intros (a & b & Hab). destruct a; [by exists b |]. discriminate.
  - cbn [includes]. rewrite orb_true_iff, prefix_iff, IH. split.
    + intros [[b Hb] | (a & b & Hab)].
      * by exists "", b.
      * exists (String d a), b. by rewrite Hab.
    + intros (a & b & Hab). destruct a as [|x a].
      * left. by exists b.
      * right. rewrite append_cons in Hab. inversion Hab. by exists a, b.
Qed.

Section AppAuthFacts.

Variable bcrypt_compare : string -> string -> bool.
Variable URL_hostname : string -> option string.

Lemma originMatches_iff (origin allowedDomain : string) :
  originMatches URL_hostname origin allowedDomain = true <->
  allowedDomain = "*"
  \/ exists host, URL_hostname origin = Some host
                  /\ (allowedDomain = host \/ exists a b, origin = a +:+ allowedDomain +:+ b).
Proof.
  unfold originMatches.
  destruct (String.eqb allowedDomain "*") eqn:Hstar.
  { apply String.eqb_eq in Hstar. split; [by left | done]. }
  apply String.eqb_neq in Hstar.
  destruct (URL_hostname origin) as [host|].
  - destruct (String.eqb allowedDomain host) eqn:Hhost.
    { apply String.eqb_eq in Hhost. split; [| done]. intros _. right. exists host. auto. }
    apply String.eqb_neq in Hhost.
    destruct (String.eqb allowedDomain origin) eqn:Horigin.
    { apply String.eqb_eq in Horigin. split; [| done]. intros _. right. exists host.
      split; [done |]. right. exists "", "". by rewrite append_nil, append_nil_r. }
    destruct (includes allowedDomain origin) eqn:Hinc.
    + apply includes_iff in Hinc. split; [| done]. intros _. right. exists host. auto.
    + split; [discriminate |]. intros [? | (h & [= <-] & [? | Hsub])]; [done | done |].
      apply includes_iff in Hsub. congruence.
  - split; [discriminate |]. intros [? | (h & ? & _)]; done.
Qed.

(** What the origin check accepts. For a tenant whose credentials pass, a
    request with an origin (or, failing that, a referer) and a non-empty
    list of allowed domains is accepted exactly when some entry is the
    wildcard, or the origin parses as a URL and the entry equals its host
    name or occurs anywhere in the origin string as written; otherwise it
    fails with AuthorizationError. A request without origin and referer,
    and any request to a tenant with no allowed domains, is accepted. *)
Theorem appAuth_origin_check (headers : Headers.t) (apps : list App.t) (app : App.t)
    (appId apiKey : string) :
  Headers.x_app_id headers = Some appId -> appId <> "" ->
  Headers.x_api_key headers = Some apiKey -> apiKey <> "" ->
  List.find (fun a => String.eqb (App.appId a) appId && App.isActive a) apps = Some app ->
  bcrypt_compare apiKey (App.apiKeyHash app) = true ->
  (forall origin,
      js_or (Headers.origin headers) (Headers.referer headers) = Some origin ->
      origin <> "" -> App.allowedDomains app <> [] ->
      (isOk (appAuth bcrypt_compare URL_hostname headers apps) = true <->
       exists d, In d (App.allowedDomains app)
                 /\ (d = "*"
                     \/ exists host,
                          URL_hostname origin = Some host
                          /\ (d = host \/ exists a b, origin = a +:+ d +:+ b)))
      /\ (isOk (appAuth bcrypt_compare URL_hostname headers apps) = false ->
          appAuth bcrypt_compare URL_hostname headers apps
          = Throw (AuthorizationError "Origin domain not authorized for this app")))
  /\ (isOk (appAuth bcrypt_compare URL_hostname headers apps) = true ->
      appAuth bcrypt_compare URL_hostname headers apps
      = Ok (AppContext.mk (App._id app) (App.appId app) (App.name app) (App.domain app)))
  /\ (App.allowedDomains app = [] ->
      isOk (appAuth bcrypt_compare URL_hostname headers apps) = true)
  /\ (truthy_opt (js_or (Headers.origin headers) (Headers.referer headers)) = false ->
      isOk (appAuth bcrypt_compare URL_hostname headers apps) = true).
Proof.
  intros Hid Hidne Hkey Hkeyne Hfind Hbcrypt.
  apply truthy_true in Hidne, Hkeyne.
  unfold appAuth. rewrite Hid, Hkey, Hidne, Hkeyne. simpl.
  rewrite Hfind, Hbcrypt. simpl.
  split; [| split; [| split]].
  - intros origin -> Horigin Hdomains.
    apply truthy_true in Horigin. rewrite Horigin.
    destruct (App.allowedDomains app) as [|d0 ds] eqn:Hlist; [done |].
    cbn [length Nat.ltb Nat.leb andb].
    destruct (existsb (originMatches URL_hostname origin) (d0 :: ds)) eqn:Hex; cbn [negb isOk].
    + split; [| discriminate]. split; [| done]. intros _.
      apply existsb_exists in Hex as (d & Hin & Hmatch).
      exists d. split; [done |]. by apply originMatches_iff.
    + split; [| done]. split; [discriminate |].
      intros (d & Hin & Hmatch). apply originMatches_iff in Hmatch.
      assert (existsb (originMatches URL_hostname origin) (d0 :: ds) = true)
        by (apply existsb_exists; eauto).
      congruence.
  - destruct (js_or (Headers.origin headers) (Headers.referer headers)) as [origin|]; [| done].
    destruct ((0 <? length (App.allowedDomains app))%nat && truthy origin); [| done].
    by destruct (existsb _ _).
  - intros ->. simpl.
    by destruct (js_or (Headers.origin headers) (Headers.referer headers)).
  - destruct (js_or (Headers.origin headers) (Headers.referer headers)) as [origin|];
      [| done].
    simpl. intros ->. by rewrite andb_false_r.
Qed.

End AppAuthFacts.

(** C6: the origin check is meant to accept the wildcard, the allowed host
    itself and its subdomains, and the code tests whether the allowed entry
    occurs anywhere in the origin string. Here the tenant allows
    example.com only, the request comes from the host example.com.evil.org,
    which is neither example.com nor ends with it, and the request is
    accepted where the claim requires an AuthorizationError. *)
Lemma appAuth_accepts_lookalike_origin :
  App.allowedDomains Sample.appA = ["example.com"]
  /\ http_hostname "https://example.com.evil.org" = Some "example.com.evil.org"
  /\ existsb (spec_hostMatches "example.com.evil.org") (App.allowedDomains Sample.appA) = false
  /\ appAuth Sample.bcrypt_compare http_hostname Sample.lookalike [Sample.appA]
     = Ok (AppContext.mk "app-1" "tenantA" "Events" "EVENT").
Proof. repeat split; vm_compute; reflexivity. Qed.

(** * Further properties *)

(** ** Lock service: acquire, verify, release *)

Lemma getLock_insert_other (seatId other : string) (lock : Lock.t)
    (redis : gmap string Lock.t) :
  other <> seatId -> getLock other (<[getLockKey seatId := lock]> redis) = getLock other redis.
Proof.
  intros Hne. unfold getLock. apply lookup_insert_ne.
  intros Heq. apply Hne. symmetry. by apply getLockKey_inj.
Qed.

(** X1: A lock acquired on a free seat carries the fresh token, expires a time
    to live after the call, and verifies for exactly that token and that
    user at the instants strictly before its expiry; the locks of other
    seats are untouched. *)
Theorem acquireLock_then_verifyLock (ttl : Z) (uuid : string) (now : Z)
    (seatId userId token user : string) (t : Z) (redis : gmap string Lock.t) :
  getLock seatId redis = None ->
  exists details redis',
    acquireLock ttl uuid now seatId userId redis = (redis', Ok details)
    /\ LockDetails.reservationToken details = uuid
    /\ LockDetails.expiresAt details = now + ttl * 1000
    /\ LockDetails.ttl details = ttl
    /\ (verifyLock seatId token user t redis' = true <->
        token = uuid /\ user = userId /\ t < now + ttl * 1000)
    /\ (forall other, other <> seatId -> getLock other redis' = getLock other redis).
Proof.
  intros Hfree. unfold acquireLock. unfold getLock in Hfree. rewrite Hfree.
  eexists _, _. split; [reflexivity |]. simpl. repeat split; try done.
  - unfold verifyLock, getLock in H. rewrite lookup_insert_eq in H. simpl in H.
    rewrite !andb_true_iff, !String.eqb_eq in H. by destruct H as [[-> _] _].
  - unfold verifyLock, getLock in H. rewrite lookup_insert_eq in H. simpl in H.
    rewrite !andb_true_iff, !String.eqb_eq in H. by destruct H as [[_ ->] _].
  - unfold verifyLock, getLock in H. rewrite lookup_insert_eq in H. simpl in H.
    rewrite !andb_true_iff, Z.ltb_lt in H. by destruct H as [_ ?].
  - intros (-> & -> & Hlt). unfold verifyLock, getLock. rewrite lookup_insert_eq. simpl.
    rewrite !String.eqb_refl. simpl. by apply Z.ltb_lt.
  - intros other Hne. by apply getLock_insert_other.
Qed.

Lemma acquireLock_then_verifyLock_witness :
  exists details redis',
    acquireLock 120 "tok-1" 1000 "S1" "u1" ∅ = (redis', Ok details)
    /\ LockDetails.reservationToken details = "tok-1"
    /\ LockDetails.expiresAt details = 1000 + 120 * 1000
    /\ LockDetails.ttl details = 120
    /\ (verifyLock "S1" "tok-1" "u1" 120999 redis' = true <->
        "tok-1" = "tok-1" /\ "u1" = "u1" /\ 120999 < 1000 + 120 * 1000)
    /\ (forall other, other <> "S1" -> getLock other redis' = getLock other ∅).
Proof.
  apply (acquireLock_then_verifyLock 120 "tok-1" 1000 "S1" "u1" "tok-1" "u1" 120999 ∅).
  reflexivity.
Defined.

Lemma remainingTime_live (expiresAt now : Z) :
  now < expiresAt ->
  1 <= calculateRemainingTime expiresAt now
  /\ (calculateRemainingTime expiresAt now - 1) * 1000 < expiresAt - now
  /\ expiresAt - now <= calculateRemainingTime expiresAt now * 1000.
Proof.
  unfold calculateRemainingTime.
  pose proof (Z.div_mod (- (expiresAt - now)) 1000 ltac:(lia)) as Hdiv.
  pose proof (Z.mod_pos_bound (- (expiresAt - now)) 1000 ltac:(lia)) as Hmod.
  intros. lia.
Qed.

(** X4: The seconds a lock has left are never negative, are zero once the
    expiry instant has come, and otherwise are the remaining time rounded
    up to a whole second. *)
Theorem calculateRemainingTime_bounds (expiresAt now : Z) :
  0 <= calculateRemainingTime expiresAt now
  /\ (expiresAt <= now -> calculateRemainingTime expiresAt now = 0)
  /\ (now < expiresAt ->
      1 <= calculateRemainingTime expiresAt now
      /\ (calculateRemainingTime expiresAt now - 1) * 1000 < expiresAt - now
      /\ expiresAt - now <= calculateRemainingTime expiresAt now * 1000).
Proof.
  unfold calculateRemainingTime.
  pose proof (Z.div_mod (- (expiresAt - now)) 1000 ltac:(lia)) as Hdiv.
  pose proof (Z.mod_pos_bound (- (expiresAt - now)) 1000 ltac:(lia)) as Hmod.
  repeat split; intros; lia.
Qed.

Lemma calculateRemainingTime_bounds_witness :
  1 <= calculateRemainingTime 121000 1500
  /\ (calculateRemainingTime 121000 1500 - 1) * 1000 < 121000 - 1500
  /\ 121000 - 1500 <= calculateRemainingTime 121000 1500 * 1000.
Proof.
  apply (proj2 (proj2 (calculateRemainingTime_bounds 121000 1500))). lia.
Defined.

(** X2: While a lock is held, a second acquire for the seat, by any user and
    with any token, fails with SeatLockError and leaves the store as it
    is; if it comes after the first acquire and before the lock's expiry,
    the remaining time it reports lies between one second and the time to
    live. *)
Theorem acquireLock_twice (ttl : Z) (uuid1 uuid2 : string) (now1 now2 : Z)
    (seatId user1 user2 : string) (redis : gmap string Lock.t) :
  getLock seatId redis = None ->
  now1 <= now2 < now1 + ttl * 1000 ->
  exists expiresIn,
    acquireLock ttl uuid2 now2 seatId user2
      (fst (acquireLock ttl uuid1 now1 seatId user1 redis))
    = (fst (acquireLock ttl uuid1 now1 seatId user1 redis),
       Throw (SeatLockError "Seat is already locked by another user"
                (Some (seatId, Some expiresIn))))
    /\ 1 <= expiresIn <= ttl.
Proof.
  intros Hfree Hnow. unfold acquireLock at 2 3. unfold getLock in Hfree. rewrite Hfree.
  simpl. unfold acquireLock, getLock. rewrite lookup_insert_eq. simpl.
  eexists. split; [reflexivity |].
  destruct (remainingTime_live (now1 + ttl * 1000) now2 ltac:(lia)) as (H1 & H2 & H3). nia.
Qed.

Lemma acquireLock_twice_witness :
  exists expiresIn,
    acquireLock 120 "tok-2" 61000 "S1" "u2" (fst (acquireLock 120 "tok-1" 1000 "S1" "u1" ∅))
    = (fst (acquireLock 120 "tok-1" 1000 "S1" "u1" ∅),
       Throw (SeatLockError "Seat is already locked by another user"
                (Some ("S1", Some expiresIn))))
    /\ 1 <= expiresIn <= 120.
Proof.
  apply (acquireLock_twice 120 "tok-1" "tok-2" 1000 61000 "S1" "u1" "u2" ∅).
  - reflexivity.
  - lia.
Defined.

(** X3: Acquiring the lock of a free seat and releasing it with the token
    obtained gives back the store as it was, and the release reports that
    a key was removed. *)
Theorem acquireLock_releaseLock (ttl : Z) (uuid : string) (now : Z)
    (seatId userId : string) (redis : gmap string Lock.t) :
  getLock seatId redis = None ->
  releaseLock seatId (Some uuid) (fst (acquireLock ttl uuid now seatId userId redis))
  = (redis, Ok true).
Proof.
  intros Hfree. unfold acquireLock. unfold getLock in Hfree. rewrite Hfree. simpl.
  unfold releaseLock, redis_del, getLock. rewrite lookup_insert_eq. simpl.
  rewrite String.eqb_refl, andb_false_r.
  rewrite delete_insert_eq. by rewrite delete_id.
Qed.

Lemma acquireLock_releaseLock_witness :
  releaseLock "S1" (Some "tok-1") (fst (acquireLock 120 "tok-1" 1000 "S1" "u1" ∅))
  = (∅, Ok true).
Proof.
  apply (acquireLock_releaseLock 120 "tok-1" 1000 "S1" "u1" ∅). reflexivity.
Defined.

Lemma bulkCheckLocks_fold (redis : gmap string Lock.t) (seatIds : list string)
    (acc : gmap string bool) (seatId : string) :
  fold_left (fun lockStatus '(seatId, result) => <[seatId := (result =? 1)]> lockStatus)
    (combine seatIds (map (fun seatId => redis_exists (getLockKey seatId) redis) seatIds))
    acc !! seatId
  = if bool_decide (seatId ∈ seatIds) then Some (isLocked seatId redis) else acc !! seatId.
Proof.
  revert acc. induction seatIds as [|x ids IH]; intros acc; cbn [combine map fold_left].
  - rewrite bool_decide_eq_false_2; [done | apply not_elem_of_nil].
  - rewrite IH. destruct (bool_decide (seatId ∈ ids)) eqn:Hin.
    + apply bool_decide_eq_true in Hin.
      rewrite bool_decide_eq_true_2; [done | apply elem_of_cons; by right].
    + apply bool_decide_eq_false in Hin.
      destruct (decide (x = seatId)) as [-> | Hne].
      * rewrite bool_decide_eq_true_2 by (apply elem_of_cons; by left).
        rewrite lookup_insert_eq.
        unfold redis_exists, isLocked, getLock.
        by destruct (redis !! getLockKey seatId).
      * rewrite bool_decide_eq_false_2.
        -- by rewrite lookup_insert_ne.
        -- intros Hel. apply elem_of_cons in Hel as [-> | Hel]; done.
Qed.

Lemma bulkCheckLocks_member (seatIds : list string) (redis : gmap string Lock.t)
    (seatId : string) :
  In seatId seatIds -> bulkCheckLocks seatIds redis !! seatId = Some (isLocked seatId redis).
Proof.
  intros Hin. unfold bulkCheckLocks. rewrite bulkCheckLocks_fold.
  rewrite bool_decide_eq_true_2; [done | by apply list_elem_of_In].
Qed.

(** X5: For a seat id that is not the name of a member every object
    inherits, the answer of the batch check holds an entry exactly when the
    id was among the ids given, and the entry says whether the store holds
    a lock for that seat, also when the id was given more than once. *)
Theorem bulkCheckLocks_lookup (seatIds : list string) (redis : gmap string Lock.t)
    (seatId : string) :
  ~ In seatId objectPrototypeNames ->
  (In seatId seatIds -> bulkCheckLocks seatIds redis !! seatId = Some (isLocked seatId redis))
  /\ (~ In seatId seatIds -> bulkCheckLocks seatIds redis !! seatId = None).
Proof.
  intros _. unfold bulkCheckLocks. rewrite bulkCheckLocks_fold. split; intros Hin.
  - rewrite bool_decide_eq_true_2; [done | by apply list_elem_of_In].
  - rewrite bool_decide_eq_false_2; [done |]. intros Hel. by apply list_elem_of_In in Hel.
Qed.

Lemma bulkCheckLocks_lookup_witness :
  bulkCheckLocks ["S1"; "S2"; "S1"] Sample.store1 !! "S1" = Some true
  /\ bulkCheckLocks ["S1"; "S2"; "S1"] Sample.store1 !! "S2" = Some false
  /\ bulkCheckLocks ["S1"; "S2"; "S1"] Sample.store1 !! "S3" = None.
Proof.
  split; [| split].
  - apply (proj1 (bulkCheckLocks_lookup ["S1"; "S2"; "S1"] Sample.store1 "S1"
                    ltac:(vm_compute; intuition discriminate))).
    simpl. tauto.
  - apply (proj1 (bulkCheckLocks_lookup ["S1"; "S2"; "S1"] Sample.store1 "S2"
                    ltac:(vm_compute; intuition discriminate))).
    simpl. tauto.
  - apply (proj2 (bulkCheckLocks_lookup ["S1"; "S2"; "S1"] Sample.store1 "S3"
                    ltac:(vm_compute; intuition discriminate))).
    simpl. intuition discriminate.
Defined.

(** ** Booking service: reserve *)

Lemma existsb_token_find (tok : string) (rs : list Reservation.t) :
  existsb (fun r' => String.eqb (Reservation.reservationToken r') tok) rs = false <->
  findReservation tok rs = None.
Proof.
  unfold findReservation. induction rs as [|r rs IH]; simpl; [done |].
  destruct (String.eqb (Reservation.reservationToken r) tok); simpl; [| done].
  split; discriminate.
Qed.

Lemma findReservation_new (tok : string) (rs : list Reservation.t) (row : Reservation.t) :
  findReservation tok rs = None -> Reservation.reservationToken row = tok ->
  findReservation tok (rs ++ [row]) = Some row.
Proof.
  unfold findReservation. intros Hnone Htok. induction rs as [|r rs IH]; simpl in *.
  - apply String.eqb_eq in Htok. by rewrite Htok.
  - destruct (String.eqb (Reservation.reservationToken r) tok); [discriminate |].
    by apply IH.
Qed.

Lemma saveReservationStatus_new (tok : string) (s : ReservationStatus)
    (rs : list Reservation.t) (row : Reservation.t) :
  findReservation tok rs = None -> Reservation.reservationToken row = tok ->
  saveReservationStatus tok s (rs ++ [row]) = rs ++ [Reservation.set_status s row].
Proof.
  unfold findReservation. intros Hnone Htok. induction rs as [|r rs IH]; simpl in *.
  - apply String.eqb_eq in Htok. by rewrite Htok.
  - destruct (String.eqb (Reservation.reservationToken r) tok); [discriminate |].
    by rewrite IH.
Qed.

Lemma reserveSeat_Ok_inv (env : Env.t) (appId seatId userId : string) (st st' : State)
    (out : ReserveResult.t) :
  reserveSeat env appId seatId userId st = (st', Ok out) ->
  exists seat,
    seats st !! seatId = Some seat
    /\ Seat.appId seat = appId
    /\ Seat.status seat = AVAILABLE
    /\ getLock seatId (redis st) = None
    /\ Env.mongoFailure env = None
    /\ findReservation (Env.uuidv4 env) (reservations st) = None
    /\ st' = mkState (<[getLockKey seatId := acquiredLock env userId]> (redis st)) (seats st)
               (reservations st ++ [reservationRow env appId seatId userId seat])
               (bookings st)
    /\ out = ReserveResult.mk (Env.uuidv4 env)
               (Env.now env + Env.LOCK_TTL_SECONDS env * 1000)
               (SeatView.mk seatId (Seat.seatNumber seat) (Some (Seat.price seat))
                  (Seat.entityId seat))
               (Env.LOCK_TTL_SECONDS env).
Proof.
  unfold reserveSeat.
  destruct (seats st !! seatId) as [seat|] eqn:Hseat; [| discriminate].
  destruct (String.eqb (Seat.appId seat) appId) eqn:Happ; [| discriminate].
  destruct (SeatStatus_eqb (Seat.status seat) AVAILABLE) eqn:Havail; [| discriminate].
  simpl. unfold acquireLock, getLock.
  destruct (redis st !! getLockKey seatId) eqn:Hlock; [discriminate |]. simpl.
  unfold insertReservation.
  destruct (Env.mongoFailure env) eqn:Hmongo; [discriminate |]. simpl.
  destruct (existsb _ (reservations st)) eqn:Hex; [discriminate |].
  intros [= <- <-]. exists seat.
  apply String.eqb_eq in Happ. apply SeatStatus_eqb_eq in Havail.
  apply existsb_token_find in Hex. done.
Qed.

(** X6: For a seat id and a user id in ObjectId form, a non-empty tenant id
    and a non-empty fresh token, which is what the Reservation schema
    asks of a row, a reserve succeeds exactly when the seat exists, belongs
    to the caller's tenant, is AVAILABLE and carries no lock, the fresh
    token is the token of no reservation row, and the store accepts the
    insert. A reserve that succeeds stores the lock and appends one ACTIVE
    row, both with the fresh token and the same expiry, and changes neither
    seats nor bookings. A reserve for a seat that carries a lock changes
    nothing. *)
Theorem reserveSeat_succeeds_iff (env : Env.t) (appId seatId userId : string) (st : State) :
  (isObjectIdString seatId = true ->
   isObjectIdString userId = true ->
   appId <> "" ->
   Env.uuidv4 env <> "" ->
   (isOk (snd (reserveSeat env appId seatId userId st)) = true <->
    exists seat,
      seats st !! seatId = Some seat
      /\ Seat.appId seat = appId
      /\ Seat.status seat = AVAILABLE
      /\ getLock seatId (redis st) = None
      /\ Env.mongoFailure env = None
      /\ findReservation (Env.uuidv4 env) (reservations st) = None))
  /\ (forall st' out,
        reserveSeat env appId seatId userId st = (st', Ok out) ->
        exists seat,
          seats st !! seatId = Some seat
          /\ redis st' = <[getLockKey seatId := acquiredLock env userId]> (redis st)
          /\ reservations st'
             = reservations st ++ [reservationRow env appId seatId userId seat]
          /\ seats st' = seats st
          /\ bookings st' = bookings st
          /\ ReserveResult.reservationToken out = Env.uuidv4 env
          /\ ReserveResult.expiresAt out = Lock.expiresAt (acquiredLock env userId)
          /\ ReserveResult.ttl out = Env.LOCK_TTL_SECONDS env)
  /\ (getLock seatId (redis st) <> None ->
      fst (reserveSeat env appId seatId userId st) = st).
Proof.
  split; [| split].
  - intros _ _ _ _. split.
    + destruct (reserveSeat env appId seatId userId st) as [st' [out | e]] eqn:Hres;
        [| discriminate].
      intros _. apply reserveSeat_Ok_inv in Hres as (seat & H1 & H2 & H3 & H4 & H5 & H6 & _).
      by exists seat.
    + intros (seat & Hseat & Happ & Havail & Hfree & Hmongo & Hfresh).
      unfold reserveSeat. rewrite Hseat.
      apply String.eqb_eq in Happ. rewrite Happ. rewrite Havail. simpl.
      unfold acquireLock. unfold getLock in Hfree. rewrite Hfree. simpl.
      unfold insertReservation. rewrite Hmongo.
      apply existsb_token_find in Hfresh. simpl. by rewrite Hfresh.
  - intros st' out Hres.
    apply reserveSeat_Ok_inv in Hres as (seat & H1 & _ & _ & _ & _ & _ & -> & ->).
    by exists seat.
  - intros Hheld. unfold reserveSeat.
    destruct (seats st !! seatId) as [seat|]; [| done].
    destruct (negb (String.eqb (Seat.appId seat) appId)); [done |].
    destruct (negb (SeatStatus_eqb (Seat.status seat) AVAILABLE)); [done |].
    unfold acquireLock. unfold getLock in Hheld.
    destruct (redis st !! getLockKey seatId); [| done]. simpl. by destruct st.
Qed.

Lemma reserveSeat_succeeds_iff_witness :
  isOk (snd (reserveSeat Stored.env "tenantA" Stored.seatId Stored.userId Stored.st0)) = true
  /\ fst (reserveSeat (Sample.env 2000 "1970-01-01T00:00:02.000Z" "tok-9" "0.4fzyo82mvyr"
                         "oid-0" None) "tenantA" "S1" "u2" Sample.reserved1)
     = Sample.reserved1.
Proof.
  split.
  - apply (proj1 (reserveSeat_succeeds_iff Stored.env "tenantA" Stored.seatId Stored.userId
                    Stored.st0)).
    + reflexivity.
    + reflexivity.
    + discriminate.
    + discriminate.
    + exists Sample.seatA1. repeat split; vm_compute; reflexivity.
  - apply (proj2 (proj2 (reserveSeat_succeeds_iff
                           (Sample.env 2000 "1970-01-01T00:00:02.000Z" "tok-9" "0.4fzyo82mvyr"
                              "oid-0" None) "tenantA" "S1" "u2" Sample.reserved1))).
    vm_compute. discriminate.
Defined.

(** ** Booking service: reserve, then release or confirm *)

(** X7: A release right after a successful reserve, by the same user, returns
    true, removes the lock so that the store is as before the reserve,
    marks the new row RELEASED and touches neither seats nor bookings. *)
Theorem reserve_then_release (env env' : Env.t) (appId seatId userId : string)
    (st st1 : State) (out : ReserveResult.t) :
  reserveSeat env appId seatId userId st = (st1, Ok out) ->
  Env.mongoFailure env' = None ->
  exists st2 seat,
    releaseSeat env' (ReserveResult.reservationToken out) userId st1 = (st2, Ok true)
    /\ seats st !! seatId = Some seat
    /\ redis st2 = redis st
    /\ reservations st2
       = reservations st
         ++ [Reservation.set_status RELEASED (reservationRow env appId seatId userId seat)]
    /\ seats st2 = seats st
    /\ bookings st2 = bookings st.
Proof.
  intros Hres Hmongo.
  apply reserveSeat_Ok_inv in Hres
    as (seat & Hseat & _ & _ & Hfree & _ & Hfresh & -> & ->).
  unfold releaseSeat. simpl.
  rewrite (findReservation_new _ _ (reservationRow env appId seatId userId seat) Hfresh eq_refl).
  simpl. rewrite String.eqb_refl. simpl.
  unfold releaseLock, redis_del, getLock. rewrite lookup_insert_eq. simpl.
  rewrite String.eqb_refl, andb_false_r. rewrite Hmongo. simpl.
  eexists _, seat. split; [reflexivity |]. simpl.
  rewrite (saveReservationStatus_new _ _ _ (reservationRow env appId seatId userId seat)
             Hfresh eq_refl).
  rewrite delete_insert_eq. unfold getLock in Hfree. by rewrite delete_id.
Qed.

Lemma reserve_then_release_witness :
  exists st2 seat,
    releaseSeat Sample.envRelease "tok-1" "u1" Sample.reserved1 = (st2, Ok true)
    /\ seats (state Sample.world0) !! "S1" = Some seat
    /\ redis st2 = redis (state Sample.world0)
    /\ reservations st2
       = reservations (state Sample.world0)
         ++ [Reservation.set_status RELEASED
               (reservationRow (Sample.env 1000 "1970-01-01T00:00:01.000Z" "tok-1"
                                  "0.4fzyo82mvyr" "oid-0" None) "tenantA" "S1" "u1" seat)]
    /\ seats st2 = seats (state Sample.world0)
    /\ bookings st2 = bookings (state Sample.world0).
Proof.
  apply (reserve_then_release
           (Sample.env 1000 "1970-01-01T00:00:01.000Z" "tok-1" "0.4fzyo82mvyr" "oid-0" None)
           Sample.envRelease "tenantA" "S1" "u1" (state Sample.world0) Sample.reserved1
           (ReserveResult.mk "tok-1" 121000 (SeatView.mk "S1" "A1" (Some 100) "E1") 120)).
  - vm_compute. reflexivity.
  - reflexivity.
Defined.

Lemma validatePaymentIdFormat_truthy (paymentId : string) :
  validatePaymentIdFormat paymentId = true -> paymentId <> "".
Proof.
  unfold validatePaymentIdFormat. rewrite orb_true_iff, razorpayPattern_iff,
    simulatedPattern_iff.
  intros [(r & -> & _) | (a & b & -> & _)]; discriminate.
Qed.

Lemma reserve_ready (env env' : Env.t) (appId seatId userId pay : string)
    (st : State) (seat : Seat.t) :
  seats st !! seatId = Some seat ->
  Seat.status seat = AVAILABLE ->
  findReservation (Env.uuidv4 env) (reservations st) = None ->
  Env.now env' < Env.now env + Env.LOCK_TTL_SECONDS env * 1000 ->
  validatePaymentIdFormat pay = true ->
  confirmReady env' (Env.uuidv4 env) pay userId
    (mkState (<[getLockKey seatId := acquiredLock env userId]> (redis st)) (seats st)
       (reservations st ++ [reservationRow env appId seatId userId seat]) (bookings st))
    (reservationRow env appId seatId userId seat) seat.
Proof.
  intros Hseat Havail Hfresh Hnow Hpay. unfold confirmReady. simpl.
  split; [by apply findReservation_new |]. split; [done |]. split; [done |].
  split; [unfold Reservation.isExpired; simpl; apply Z.ltb_ge; lia |].
  split.
  { unfold verifyLock, getLock. rewrite lookup_insert_eq. simpl.
    rewrite !String.eqb_refl. simpl. by apply Z.ltb_lt. }
  split; [done |]. split; [done |].
  split; [by apply validatePaymentIdFormat_truthy | done].
Qed.

(** X8: A confirm that follows a successful reserve, by the same user, before
    the expiry, with a well-formed payment reference, a free booking id
    and a store that accepts the writes, succeeds whatever tenant the
    caller names: the seat becomes BOOKED by the user and points to the
    new booking, the booking carries the seat's price, the user, the token
    and the payment reference with status SUCCESS, the row becomes
    CONFIRMED, and the lock is removed. *)
Theorem reserve_then_confirm (env env' : Env.t) (appId appId' seatId userId pay : string)
    (st st1 : State) (out : ReserveResult.t) :
  reserveSeat env appId seatId userId st = (st1, Ok out) ->
  Env.now env' < ReserveResult.expiresAt out ->
  validatePaymentIdFormat pay = true ->
  Env.mongoFailure env' = None ->
  existsb (fun b => String.eqb (Booking.bookingId b)
                      (generateBookingId (Env.isoString env') (Env.random36 env')))
          (bookings st) = false ->
  exists st2 res seat,
    confirmBooking env' appId' (ReserveResult.reservationToken out) pay userId st1
    = (st2, Ok res)
    /\ seats st !! seatId = Some seat
    /\ redis st2 = redis st
    /\ seats st2
       = <[seatId := Seat.mk (Seat.appId seat) (Seat.domain seat) (Seat.entityId seat)
                       (Seat.seatNumber seat) BOOKED (Seat.price seat) (Some userId)
                       (Some (Env.objectId env'))]> (seats st)
    /\ bookings st2 = bookings st ++ [ConfirmResult.booking res]
    /\ reservations st2
       = reservations st
         ++ [Reservation.set_status CONFIRMED (reservationRow env appId seatId userId seat)]
    /\ Booking.amount (ConfirmResult.booking res) = Seat.price seat
    /\ Booking.userId (ConfirmResult.booking res) = userId
    /\ Booking.seatId (ConfirmResult.booking res) = seatId
    /\ Booking.reservationToken (ConfirmResult.booking res) = Env.uuidv4 env
    /\ Booking.paymentId (ConfirmResult.booking res) = pay
    /\ Booking.paymentStatus (ConfirmResult.booking res) = SUCCESS
    /\ Booking.appId (ConfirmResult.booking res) = appId'.
Proof.
  intros Hres Hnow Hpay Hmongo Hfree.
  apply reserveSeat_Ok_inv in Hres
    as (seat & Hseat & _ & Havail & Hlock & _ & Hfresh & -> & ->).
  simpl in Hnow.
  pose proof (reserve_ready env env' appId seatId userId pay st seat Hseat Havail Hfresh
                Hnow Hpay) as Hready.
  simpl. rewrite (confirmBooking_ready env' appId' _ pay userId _ _ seat Hready).
  unfold confirmTransaction, insertBooking. rewrite Hmongo. simpl. rewrite Hfree.
  eexists _, _, seat. split; [reflexivity |]. simpl.
  rewrite (saveReservationStatus_new _ _ _ (reservationRow env appId seatId userId seat)
             Hfresh eq_refl).
  rewrite delete_insert_eq. unfold getLock in Hlock. rewrite (delete_id _ _ Hlock).
  repeat split; done.
Qed.

Lemma reserve_then_confirm_witness :
  exists st2 res seat,
    confirmBooking Sample.envConfirm1 "tenantA" "tok-1" "pay_abc123" "u1" Sample.reserved1
    = (st2, Ok res)
    /\ seats (state Sample.world0) !! "S1" = Some seat
    /\ redis st2 = redis (state Sample.world0)
    /\ seats st2
       = <["S1" := Seat.mk (Seat.appId seat) (Seat.domain seat) (Seat.entityId seat)
                     (Seat.seatNumber seat) BOOKED (Seat.price seat) (Some "u1")
                     (Some "oid-1")]> (seats (state Sample.world0))
    /\ bookings st2 = bookings (state Sample.world0) ++ [ConfirmResult.booking res]
    /\ reservations st2
       = reservations (state Sample.world0)
         ++ [Reservation.set_status CONFIRMED
               (reservationRow (Sample.env 1000 "1970-01-01T00:00:01.000Z" "tok-1"
                                  "0.4fzyo82mvyr" "oid-0" None) "tenantA" "S1" "u1" seat)]
    /\ Booking.amount (ConfirmResult.booking res) = Seat.price seat
    /\ Booking.userId (ConfirmResult.booking res) = "u1"
    /\ Booking.seatId (ConfirmResult.booking res) = "S1"
    /\ Booking.reservationToken (ConfirmResult.booking res) = "tok-1"
    /\ Booking.paymentId (ConfirmResult.booking res) = "pay_abc123"
    /\ Booking.paymentStatus (ConfirmResult.booking res) = SUCCESS
    /\ Booking.appId (ConfirmResult.booking res) = "tenantA".
Proof.
  apply (reserve_then_confirm
           (Sample.env 1000 "1970-01-01T00:00:01.000Z" "tok-1" "0.4fzyo82mvyr" "oid-0" None)
           Sample.envConfirm1 "tenantA" "tenantA" "S1" "u1" "pay_abc123"
           (state Sample.world0) Sample.reserved1
           (ReserveResult.mk "tok-1" 121000 (SeatView.mk "S1" "A1" (Some 100) "E1") 120)).
  - vm_compute. reflexivity.
  - vm_compute. reflexivity.
  - vm_compute. reflexivity.
  - reflexivity.
  - reflexivity.
Defined.

(** ** Booking service: whose lock a call removes *)

(** X9: A release never removes a lock that carries another token than the
    one released: neither the lock of another seat, nor a newer lock on
    the reservation's own seat. *)
Theorem releaseSeat_keeps_foreign_lock (env : Env.t) (tok userId seatId : string)
    (st : State) (lock : Lock.t) :
  tok <> "" ->
  getLock seatId (redis st) = Some lock ->
  Lock.reservationToken lock <> tok ->
  getLock seatId (redis (fst (releaseSeat env tok userId st))) = Some lock.
Proof.
  intros Htok Hlock Hforeign. unfold releaseSeat.
  destruct (findReservation tok (reservations st)) as [r|]; [| done].
  destruct (negb (String.eqb (Reservation.userId r) userId)); [done |].
  destruct (ReservationStatus_eqb (Reservation.status r) CONFIRMED); [done |].
  assert (Hkept : getLock seatId
                    (fst (releaseLock (Reservation.seatId r) (Some tok) (redis st)))
                  = Some lock).
  { destruct (decide (seatId = Reservation.seatId r)) as [-> | Hne].
    - unfold releaseLock. rewrite Hlock.
      apply truthy_true in Htok. rewrite Htok.
      apply String.eqb_neq in Hforeign. by rewrite Hforeign.
    - unfold releaseLock, redis_del.
      destruct (truthy tok && _); [done |].
      destruct (redis st !! getLockKey (Reservation.seatId r)); simpl; [| done].
      by rewrite getLock_delete_other. }
  destruct (releaseLock (Reservation.seatId r) (Some tok) (redis st)) as [redis' [ok | e]];
    simpl in *; [| done].
  by destruct (Env.mongoFailure env).
Qed.

Lemma releaseSeat_keeps_foreign_lock_witness :
  getLock "S1" (redis (fst (releaseSeat Sample.envRelease "tok-1" "u1" (state Late.world))))
  = Some Late.lock2.
Proof.
  apply (releaseSeat_keeps_foreign_lock Sample.envRelease "tok-1" "u1" "S1"
           (state Late.world) Late.lock2).
  - discriminate.
  - vm_compute. reflexivity.
  - discriminate.
Defined.

(** X10: A confirm that comes after the expiry of its ACTIVE reservation marks
    the row EXPIRED, fails with Conflict, and deletes the lock the seat
    carries at that moment without comparing tokens: also the lock of a
    newer reservation of the seat. *)
Theorem late_confirm_deletes_seat_lock (env : Env.t) (appId tok pay userId : string)
    (st : State) (r : Reservation.t) :
  findReservation tok (reservations st) = Some r ->
  Reservation.userId r = userId ->
  Reservation.status r = ACTIVE ->
  Reservation.expiresAt r < Env.now env ->
  Env.mongoFailure env = None ->
  confirmBooking env appId tok pay userId st
  = (mkState (delete (getLockKey (Reservation.seatId r)) (redis st)) (seats st)
       (saveReservationStatus tok EXPIRED (reservations st)) (bookings st),
     Throw (ConflictError "Reservation has expired"))
  /\ getLock (Reservation.seatId r)
       (redis (fst (confirmBooking env appId tok pay userId st))) = None
  /\ findReservation tok (reservations (fst (confirmBooking env appId tok pay userId st)))
     = Some (Reservation.set_status EXPIRED r).
Proof.
  intros Hfind Huser Hactive Hlate Hmongo.
  assert (Heq : confirmBooking env appId tok pay userId st
    = (mkState (delete (getLockKey (Reservation.seatId r)) (redis st)) (seats st)
         (saveReservationStatus tok EXPIRED (reservations st)) (bookings st),
       Throw (ConflictError "Reservation has expired"))).
  { unfold confirmBooking. rewrite Hfind.
    apply String.eqb_eq in Huser. rewrite Huser, Hactive. simpl.
    unfold Reservation.isExpired. apply Z.ltb_lt in Hlate. rewrite Hlate, Hmongo.
    unfold releaseLock, redis_del. simpl.
    destruct (redis st !! getLockKey (Reservation.seatId r)) eqn:Hlock; simpl; [done |].
    by rewrite (delete_id _ _ Hlock). }
  rewrite Heq. simpl. split; [done |]. split.
  - unfold getLock. apply lookup_delete_eq.
  - by apply find_save.
Qed.

Lemma late_confirm_deletes_seat_lock_witness :
  confirmBooking Late.envLate "tenantA" "tok-1" "pay_abc123" "u1" (state Late.world)
  = (mkState (delete (getLockKey "S1") (redis (state Late.world))) (seats (state Late.world))
       (saveReservationStatus "tok-1" EXPIRED (reservations (state Late.world)))
       (bookings (state Late.world)),
     Throw (ConflictError "Reservation has expired"))
  /\ getLock "S1"
       (redis (fst (confirmBooking Late.envLate "tenantA" "tok-1" "pay_abc123" "u1"
                      (state Late.world)))) = None
  /\ findReservation "tok-1"
       (reservations (fst (confirmBooking Late.envLate "tenantA" "tok-1" "pay_abc123" "u1"
                             (state Late.world))))
     = Some (Reservation.set_status EXPIRED
               (Reservation.mk "tok-1" "u1" "tenantA" "S1" ACTIVE 121000 "A1" 100 "E1")).
Proof.
  apply (late_confirm_deletes_seat_lock Late.envLate "tenantA" "tok-1" "pay_abc123" "u1"
           (state Late.world)
           (Reservation.mk "tok-1" "u1" "tenantA" "S1" ACTIVE 121000 "A1" 100 "E1")).
  - vm_compute. reflexivity.
  - reflexivity.
  - reflexivity.
  - vm_compute. reflexivity.
  - reflexivity.
Defined.

(** In the state of that sample the lock on S1 is u2's. *)
Lemma late_confirm_sample_lock :
  getLock "S1" (redis (state Late.world)) = Some Late.lock2.
Proof. vm_compute. reflexivity. Qed.

(** ** Booking service: what a failed confirm leaves *)

(** X11: A confirm that fails changes nothing, the lock included, unless it
    fails because the reservation has expired. *)
Theorem confirmBooking_failure_changes_nothing (env : Env.t)
    (appId tok pay userId : string) (st st' : State) (e : Error) :
  confirmBooking env appId tok pay userId st = (st', Throw e) ->
  e <> ConflictError "Reservation has expired" ->
  st' = st.
Proof.
  unfold confirmBooking.
  destruct (findReservation tok (reservations st)) as [r|]; [| by intros [= <- _]].
  destruct (negb (String.eqb (Reservation.userId r) userId)); [by intros [= <- _] |].
  destruct (negb (ReservationStatus_eqb (Reservation.status r) ACTIVE));
    [by intros [= <- _] |].
  destruct (Reservation.isExpired (Env.now env) r).
  { destruct (Env.mongoFailure env); [by intros [= <- _] |].
    unfold releaseLock. simpl.
    destruct (redis_del _ _) as [redis' n]. intros [= _ <-]. done. }
  destruct (verifyLock _ _ _ _ _) eqn:Hverify; simpl; [| by intros [= <- _]].
  destruct (seats st !! Reservation.seatId r) as [seat|]; [| by intros [= <- _]].
  destruct (negb (SeatStatus_eqb (Seat.status seat) AVAILABLE)); [by intros [= <- _] |].
  destruct (verifyPayment _ _); [| by intros [= <- _]].
  destruct (confirmTransaction _ _ _ _ _ _ _ _) as [[st1 b] | e1] eqn:Htx;
    [| by intros [= <- _]].
  apply confirmTransaction_redis in Htx. rewrite Htx.
  rewrite (releaseLock_held _ _ _ _ _ Hverify). discriminate.
Qed.

Lemma confirmBooking_failure_changes_nothing_witness :
  fst (confirmBooking Sample.envConfirm1 "tenantA" "tok-1" "not-a-payment" "u1"
         Sample.reserved1)
  = Sample.reserved1.
Proof.
  apply (confirmBooking_failure_changes_nothing Sample.envConfirm1 "tenantA" "tok-1"
           "not-a-payment" "u1" Sample.reserved1 _
           (PaymentError "Invalid payment ID format")).
  - vm_compute. reflexivity.
  - discriminate.
Defined.

(** ** No seat is booked twice *)

Lemma confirmBooking_seats_bookings (env : Env.t) (appId tok pay userId : string)
    (st : State) :
  (seats (fst (confirmBooking env appId tok pay userId st)) = seats st
   /\ bookings (fst (confirmBooking env appId tok pay userId st)) = bookings st)
  \/ exists seatId seat seat' b,
       seats st !! seatId = Some seat
       /\ Seat.status seat = AVAILABLE
       /\ Seat.status seat' = BOOKED
       /\ Booking.seatId b = seatId
       /\ ~ In (Booking.bookingId b) (map Booking.bookingId (bookings st))
       /\ seats (fst (confirmBooking env appId tok pay userId st)) = <[seatId := seat']> (seats st)
       /\ bookings (fst (confirmBooking env appId tok pay userId st)) = bookings st ++ [b].
Proof.
  destruct (confirmBooking env appId tok pay userId st) as [st' [out | e]] eqn:Hconfirm.
  - right. apply confirmBooking_Ok_inv in Hconfirm
      as (r & seat & st1 & b & Hready & Htx & -> & _).
    destruct Hready as (_ & _ & _ & _ & _ & Hseat & Havail & _).
    revert Htx. unfold confirmTransaction, insertBooking.
    destruct (Env.mongoFailure env); [discriminate |]. simpl.
    destruct (existsb _ (bookings st)) eqn:Hex; [discriminate |].
    intros [= <- <-]. simpl.
    eexists _, seat, _, _.
    split; [exact Hseat |]. split; [exact Havail |].
    split; [| split; [| split; [| split; reflexivity]]]; [reflexivity | reflexivity |].
    simpl. intros Hin. apply in_map_iff in Hin as (b' & Hid & Hin).
    assert (existsb (fun b0 => String.eqb (Booking.bookingId b0)
                                 (generateBookingId (Env.isoString env) (Env.random36 env)))
              (bookings st) = true); [| congruence].
    apply existsb_exists. exists b'. split; [done |]. by apply String.eqb_eq.
  - left. simpl. revert Hconfirm. unfold confirmBooking.
    destruct (findReservation tok (reservations st)) as [r|]; [| by intros [= <- _]].
    destruct (negb (String.eqb (Reservation.userId r) userId)); [by intros [= <- _] |].
    destruct (negb (ReservationStatus_eqb (Reservation.status r) ACTIVE));
      [by intros [= <- _] |].
    destruct (Reservation.isExpired (Env.now env) r).
    { destruct (Env.mongoFailure env); [by intros [= <- _] |].
      unfold releaseLock. simpl.
      destruct (redis_del _ _) as [redis' n]. by intros [= <- _]. }
    destruct (verifyLock _ _ _ _ _) eqn:Hverify; simpl; [| by intros [= <- _]].
    destruct (seats st !! Reservation.seatId r) as [seat|]; [| by intros [= <- _]].
    destruct (negb (SeatStatus_eqb (Seat.status seat) AVAILABLE)); [by intros [= <- _] |].
    destruct (verifyPayment _ _); [| by intros [= <- _]].
    destruct (confirmTransaction _ _ _ _ _ _ _ _) as [[st1 b] | e1] eqn:Htx;
      [| by intros [= <- _]].
    apply confirmTransaction_redis in Htx. rewrite Htx.
    rewrite (releaseLock_held _ _ _ _ _ Hverify). discriminate.
Qed.

Lemma reserveSeat_seats_bookings (env : Env.t) (appId seatId userId : string) (st : State) :
  seats (fst (reserveSeat env appId seatId userId st)) = seats st
  /\ bookings (fst (reserveSeat env appId seatId userId st)) = bookings st.
Proof.
  unfold reserveSeat.
  destruct (seats st !! seatId) as [seat|]; [| done].
  destruct (negb (String.eqb (Seat.appId seat) appId)); [done |].
  destruct (negb (SeatStatus_eqb (Seat.status seat) AVAILABLE)); [done |].
  destruct (acquireLock _ _ _ _ _ _) as [redis' [details | e]]; [| done].
  by destruct (insertReservation _ _ _).
Qed.

Lemma releaseSeat_seats_bookings (env : Env.t) (tok userId : string) (st : State) :
  seats (fst (releaseSeat env tok userId st)) = seats st
  /\ bookings (fst (releaseSeat env tok userId st)) = bookings st.
Proof.
  unfold releaseSeat.
  destruct (findReservation tok (reservations st)) as [r|]; [| done].
  destruct (negb (String.eqb (Reservation.userId r) userId)); [done |].
  destruct (ReservationStatus_eqb (Reservation.status r) CONFIRMED); [done |].
  destruct (releaseLock _ _ _) as [redis' [ok | e]]; [| done].
  by destruct (Env.mongoFailure env).
Qed.

(** What an action does to seats and bookings: nothing, or one AVAILABLE
    seat becomes BOOKED and one booking of that seat, with an id no
    booking had, is appended. *)
Lemma apply_action_seats_bookings (a : Action) (st st' : State) :
  apply_action a st = Some st' ->
  (seats st' = seats st /\ bookings st' = bookings st)
  \/ exists seatId seat seat' b,
       seats st !! seatId = Some seat
       /\ Seat.status seat = AVAILABLE
       /\ Seat.status seat' = BOOKED
       /\ Booking.seatId b = seatId
       /\ ~ In (Booking.bookingId b) (map Booking.bookingId (bookings st))
       /\ seats st' = <[seatId := seat']> (seats st)
       /\ bookings st' = bookings st ++ [b].
Proof.
  destruct a as [env appId seatId userId | env appId tok pay userId | env tok userId
                | now seatId]; simpl.
  - intros [= <-]. left. apply reserveSeat_seats_bookings.
  - intros [= <-]. apply confirmBooking_seats_bookings.
  - intros [= <-]. left. apply releaseSeat_seats_bookings.
  - destruct (getLock seatId (redis st)) as [lock|]; [| discriminate].
    destruct (Lock.expiresAt lock <=? now); [| discriminate].
    intros [= <-]. by left.
Qed.




(** X13: A BOOKED seat is final: no action changes its record, and a reserve
    for it fails with Conflict and changes nothing. *)
Theorem booked_seat_is_final (a : Action) (env : Env.t) (appId userId seatId : string)
    (st st' : State) (seat : Seat.t) :
  seats st !! seatId = Some seat ->
  Seat.status seat = BOOKED ->
  (apply_action a st = Some st' -> seats st' !! seatId = Some seat)
  /\ (exists message,
        reserveSeat env appId seatId userId st = (st, Throw (ConflictError message))).
Proof.
  intros Hseat Hbooked. split.
  - intros Happly.
    destruct (apply_action_seats_bookings a st st' Happly)
      as [[Hs _] | (sid & s & s' & b & Hsid & Havail & _ & _ & _ & Hs & _)].
    + by rewrite Hs.
    + rewrite Hs. rewrite lookup_insert_ne; [done |].
      intros ->. rewrite Hseat in Hsid. inversion Hsid; subst. congruence.
  - unfold reserveSeat. rewrite Hseat.
    destruct (negb (String.eqb (Seat.appId seat) appId)); [by eexists |].
    rewrite Hbooked. simpl. by eexists.
Qed.

Lemma booked_seat_is_final_witness :
  exists message,
    reserveSeat (Sample.env 6000 "1970-01-01T00:00:06.000Z" "tok-2" "0.4fzyo82mvyr" "oid-0"
                   None) "tenantA" "S1" "u2" Sample.confirmed1
    = (Sample.confirmed1, Throw (ConflictError message)).
Proof.
  apply (proj2 (booked_seat_is_final
                  (AExpire 0 "S1")
                  (Sample.env 6000 "1970-01-01T00:00:06.000Z" "tok-2" "0.4fzyo82mvyr" "oid-0"
                     None) "tenantA" "u2" "S1" Sample.confirmed1 Sample.confirmed1
                  (Seat.mk "tenantA" "EVENT" "E1" "A1" BOOKED 100 (Some "u1") (Some "oid-1"))
                  ltac:(vm_compute; reflexivity) eq_refl)).
Defined.

(** ** Booking service: listing *)

Lemma ascii_compare_trans_le (x y z : ascii) :
  Ascii.compare x y <> Gt -> Ascii.compare y z <> Gt -> Ascii.compare x z <> Gt.
Proof.
  unfold Ascii.compare. rewrite !N.compare_le_iff. lia.
Qed.

Lemma string_leb_trans (a b c : string) :
  String.leb a b = true -> String.leb b c = true -> String.leb a c = true.
Proof.
  unfold String.leb. revert b c.
  induction a as [|x a IH]; intros [|y b] [|z c]; simpl; try done.
  unfold Ascii.compare.
  destruct (N.compare_spec (N_of_ascii x) (N_of_ascii y)) as [Hxy | Hxy | Hxy];
    destruct (N.compare_spec (N_of_ascii y) (N_of_ascii z)) as [Hyz | Hyz | Hyz];
    destruct (N.compare_spec (N_of_ascii x) (N_of_ascii z)) as [Hxz | Hxz | Hxz];
    try done; try lia.
  apply IH.
Qed.

Lemma insertBySeatNumber_perm (x : string * Seat.t) (l : list (string * Seat.t)) :
  Permutation (insertBySeatNumber x l) (x :: l).
Proof.
  induction l as [|y l IH]; simpl; [done |].
  destruct (String.leb _ _); [done |].
  rewrite IH. apply perm_swap.
Qed.

Lemma insertBySeatNumber_sorted (x : string * Seat.t) (l : list (string * Seat.t)) :
  StronglySorted seatNumber_le l -> StronglySorted seatNumber_le (insertBySeatNumber x l).
Proof.
  induction 1 as [|y l Hsorted IH Hall]; simpl.
  - constructor; constructor.
  - destruct (String.leb (Seat.seatNumber x.2) (Seat.seatNumber y.2)) eqn:Hle.
    + constructor; [by constructor |]. constructor; [done |].
      eapply Forall_impl; [exact Hall |]. intros z Hz. unfold seatNumber_le in *.
      by eapply string_leb_trans.
    + constructor; [done |].
      rewrite insertBySeatNumber_perm. constructor; [| done].
      unfold seatNumber_le.
      destruct (String.leb_total (Seat.seatNumber x.2) (Seat.seatNumber y.2)); congruence.
Qed.

Lemma sortBySeatNumber_perm (l : list (string * Seat.t)) :
  Permutation (sortBySeatNumber l) l.
Proof.
  induction l as [|x l IH]; simpl; [done |].
  rewrite insertBySeatNumber_perm. by rewrite IH.
Qed.

Lemma sortBySeatNumber_sorted (l : list (string * Seat.t)) :
  StronglySorted seatNumber_le (sortBySeatNumber l).
Proof.
  induction l as [|x l IH]; simpl; [constructor |].
  by apply insertBySeatNumber_sorted.
Qed.

Lemma StronglySorted_filter {A : Type} (R : A -> A -> Prop) (p : A -> bool) (l : list A) :
  StronglySorted R l -> StronglySorted R (List.filter p l).
Proof.
  induction 1 as [|x l Hsorted IH Hall]; simpl; [constructor |].
  destruct (p x); [| done]. constructor; [done |].
  apply List.Forall_forall. intros y Hy. apply List.filter_In in Hy as [Hy _].
  by eapply List.Forall_forall in Hall.
Qed.

Lemma findSeats_In (query : Seat.t -> bool) (seats : gmap string Seat.t)
    (id : string) (seat : Seat.t) :
  In (id, seat) (findSeats query seats) <-> seats !! id = Some seat /\ query seat = true.
Proof.
  unfold findSeats. rewrite <- list_elem_of_In, sortBySeatNumber_perm, list_elem_of_In.
  rewrite List.filter_In, <- list_elem_of_In, elem_of_map_to_list. done.
Qed.

Lemma filter_fst_NoDup {A B : Type} (p : A * B -> bool) (l : list (A * B)) :
  NoDup (map fst l) -> NoDup (map fst (List.filter p l)).
Proof.
  induction l as [|x l IH]; simpl; [done |].
  intros Hnd. apply NoDup_cons in Hnd as [Hnotin Hnd].
  destruct (p x); simpl; [| by apply IH].
  apply NoDup_cons. split; [| by apply IH].
  intros Hin. apply Hnotin. apply list_elem_of_In in Hin. apply list_elem_of_In.
  apply in_map_iff in Hin as (y & Hy & Hin). apply List.filter_In in Hin as [Hin _].
  apply in_map_iff. by exists y.
Qed.

Lemma findSeats_NoDup (query : Seat.t -> bool) (seats : gmap string Seat.t) :
  NoDup (map fst (findSeats query seats)).
Proof.
  unfold findSeats.
  assert (Hperm : Permutation
            (map fst (sortBySeatNumber
                        (List.filter (fun kv => query kv.2) (map_to_list seats))))
            (map fst (List.filter (fun kv => query kv.2) (map_to_list seats)))).
  { apply Permutation_map. apply sortBySeatNumber_perm. }
  rewrite Hperm. apply filter_fst_NoDup. apply NoDup_fst_map_to_list.
Qed.

Lemma availableQuery_iff (appId entityId : string) (filters : SeatFilters.t) (seat : Seat.t) :
  availableQuery appId entityId filters seat = true <->
  Seat.appId seat = appId
  /\ Seat.entityId seat = entityId
  /\ Seat.status seat = AVAILABLE
  /\ (forall minPrice, SeatFilters.minPrice filters = Some minPrice ->
                       minPrice <= Seat.price seat)
  /\ (forall maxPrice, SeatFilters.maxPrice filters = Some maxPrice ->
                       Seat.price seat <= maxPrice).
Proof.
  unfold availableQuery.
  rewrite !andb_true_iff, !String.eqb_eq, SeatStatus_eqb_eq.
  assert (Hmin : match SeatFilters.minPrice filters with
                 | Some minPrice => minPrice <=? Seat.price seat
                 | None => true
                 end = true <->
                 forall minPrice, SeatFilters.minPrice filters = Some minPrice ->
                                  minPrice <= Seat.price seat).
  { destruct (SeatFilters.minPrice filters) as [m|].
    - rewrite Z.leb_le. split; [by intros ? ? [= <-] | eauto].
    - split; [discriminate | done]. }
  assert (Hmax : match SeatFilters.maxPrice filters with
                 | Some maxPrice => Seat.price seat <=? maxPrice
                 | None => true
                 end = true <->
                 forall maxPrice, SeatFilters.maxPrice filters = Some maxPrice ->
                                  Seat.price seat <= maxPrice).
  { destruct (SeatFilters.maxPrice filters) as [m|].
    - rewrite Z.leb_le. split; [by intros ? ? [= <-] | eauto].
    - split; [discriminate | done]. }
  rewrite Hmin, Hmax. tauto.
Qed.

(** X14: The listing returns exactly the seats of the tenant and the entity
    that are AVAILABLE, lie within the price bounds given, and carry no
    lock in the store; each such seat once, in ascending order of seat
    numbers. *)
Theorem getAvailableSeats_lists (appId entityId : string) (filters : SeatFilters.t)
    (st : State) :
  (forall id seat,
      In (id, seat) (getAvailableSeats appId entityId filters st) <->
      seats st !! id = Some seat
      /\ Seat.appId seat = appId
      /\ Seat.entityId seat = entityId
      /\ Seat.status seat = AVAILABLE
      /\ (forall minPrice, SeatFilters.minPrice filters = Some minPrice ->
                           minPrice <= Seat.price seat)
      /\ (forall maxPrice, SeatFilters.maxPrice filters = Some maxPrice ->
                           Seat.price seat <= maxPrice)
      /\ getLock id (redis st) = None)
  /\ StronglySorted seatNumber_le (getAvailableSeats appId entityId filters st)
  /\ NoDup (map fst (getAvailableSeats appId entityId filters st)).
Proof.
  split; [| split].
  - intros id seat. unfold getAvailableSeats.
    rewrite List.filter_In, findSeats_In. cbn [fst].
    assert (Hlocked : seats st !! id = Some seat ->
                      availableQuery appId entityId filters seat = true ->
                      bulkCheckLocks
                        (map fst (findSeats (availableQuery appId entityId filters)
                                    (seats st))) (redis st) !! id
                      = Some (isLocked id (redis st))).
    { intros Hseat Hquery. apply bulkCheckLocks_member.
      apply in_map_iff. exists (id, seat). split; [done |]. by apply findSeats_In. }
    split.
    + intros [[Hseat Hquery] Hfree].
      rewrite (Hlocked Hseat Hquery) in Hfree. simpl in Hfree.
      apply availableQuery_iff in Hquery as (H1 & H2 & H3 & H4 & H5).
      repeat (split; [done |]).
      unfold isLocked in Hfree. by destruct (getLock id (redis st)).
    + intros (Hseat & H1 & H2 & H3 & H4 & H5 & Hfree).
      assert (Hquery : availableQuery appId entityId filters seat = true)
        by (apply availableQuery_iff; done).
      split; [done |].
      rewrite (Hlocked Hseat Hquery). simpl. unfold isLocked. by rewrite Hfree.
  - unfold getAvailableSeats. apply StronglySorted_filter.
    unfold findSeats. apply sortBySeatNumber_sorted.
  - unfold getAvailableSeats. apply filter_fst_NoDup. apply findSeats_NoDup.
Qed.

(** In the sample, S1 is locked by u1 and S2 is free: the listing is S2. *)
Lemma getAvailableSeats_sample :
  getAvailableSeats "tenantA" "E1" (SeatFilters.mk None None) Sample.reserved1
  = [("S2", Sample.seatA2)].
Proof. vm_compute. reflexivity. Qed.

(** ** Payment service: generated ids *)

Lemma all_chars_impl (p q : ascii -> bool) (s : string) :
  (forall c, p c = true -> q c = true) -> all_chars p s = true -> all_chars q s = true.
Proof.
  intros Himpl. induction s as [|c s IH]; simpl; [done |].
  rewrite !andb_true_iff. intros [Hc Hs]. split; [by apply Himpl | by apply IH].
Qed.

Lemma all_chars_app (p : ascii -> bool) (s t : string) :
  all_chars p (s +:+ t) = all_chars p s && all_chars p t.
Proof.
  induction s as [|c s IH]; [done |].
  rewrite append_cons. simpl. by rewrite IH, andb_assoc.
Qed.

Lemma toUpperCase_base36 (s : string) :
  all_chars isBase36 s = true -> all_chars isUpperAlnum (toUpperCase s) = true.
Proof.
  induction s as [|c s IH]; simpl; [done |].
  rewrite !andb_true_iff. intros [Hc Hs]. split; [by apply upper_char_base36 | by apply IH].
Qed.

Lemma toUpperCase_nonempty (s : string) : s <> "" -> toUpperCase s <> "".
Proof. by destruct s. Qed.

Lemma isHex_isBase36 (c : ascii) : isHex c = true -> isBase36 c = true.
Proof. destruct c as [[] [] [] [] [] [] [] []]; vm_compute; congruence. Qed.

(** X15: A generated payment id always verifies: PAY-, the upper-cased base-36
    time stamp, a dash and the upper-cased first group of a uuid is a
    well-formed reference. A generated refund id never verifies as a
    payment. *)
Theorem generatePaymentId_verifies (now : Z) (timestamp36 uuid : string) :
  timestamp36 <> "" ->
  all_chars isBase36 timestamp36 = true ->
  split_head "-" uuid <> "" ->
  all_chars isHex (split_head "-" uuid) = true ->
  verifyPayment now (generatePaymentId timestamp36 uuid)
  = Ok (VerifiedPayment.mk (generatePaymentId timestamp36 uuid) "VERIFIED" now)
  /\ verifyPayment now (generateRefundId timestamp36 uuid)
     = Throw (PaymentError "Invalid payment ID format").
Proof.
  intros Hts Hts36 Hseg Hhex. split.
  - assert (Hvalid : validatePaymentIdFormat (generatePaymentId timestamp36 uuid) = true).
    { unfold validatePaymentIdFormat. apply orb_true_iff. right.
      apply simulatedPattern_iff.
      exists (toUpperCase timestamp36), (toUpperCase (split_head "-" uuid)).
      split; [reflexivity |].
      split; [by apply toUpperCase_nonempty |].
      split; [by apply toUpperCase_nonempty |].
      split; [by apply toUpperCase_base36 |].
      apply toUpperCase_base36. eapply all_chars_impl; [apply isHex_isBase36 | done]. }
    unfold verifyPayment. rewrite Hvalid.
    pose proof (validatePaymentIdFormat_truthy _ Hvalid) as Hne.
    apply truthy_true in Hne. by rewrite Hne.
  - reflexivity.
Qed.

Lemma generatePaymentId_verifies_witness :
  verifyPayment 5000 (generatePaymentId "mkq3x9a1" "3f2a9c1e-7b4d-4e2a-9c1f-0a1b2c3d4e5f")
  = Ok (VerifiedPayment.mk
          (generatePaymentId "mkq3x9a1" "3f2a9c1e-7b4d-4e2a-9c1f-0a1b2c3d4e5f") "VERIFIED" 5000)
  /\ verifyPayment 5000 (generateRefundId "mkq3x9a1" "3f2a9c1e-7b4d-4e2a-9c1f-0a1b2c3d4e5f")
     = Throw (PaymentError "Invalid payment ID format").
Proof.
  apply (generatePaymentId_verifies 5000 "mkq3x9a1" "3f2a9c1e-7b4d-4e2a-9c1f-0a1b2c3d4e5f").
  - discriminate.
  - reflexivity.
  - discriminate.
  - reflexivity.
Defined.

(** ** Token helper *)

Lemma extractToken_Bearer (authHeader : option string) (token : string) :
  extractToken authHeader = Some token <-> authHeader = Some ("Bearer " +:+ token).
Proof.
  unfold extractToken. split.
  - destruct authHeader as [h|]; [| discriminate].
    destruct (truthy h); simpl; [| discriminate].
    destruct (String.prefix "Bearer " h) eqn:Hprefix; simpl; [| discriminate].
    apply prefix_iff in Hprefix as [b ->]. intros [= <-].
    reflexivity.
  - intros ->.
    assert (Hprefix : String.prefix "Bearer " ("Bearer " +:+ token) = true)
      by (apply prefix_iff; by eexists).
    rewrite Hprefix. reflexivity.
Qed.

(** X16: The helper returns a token exactly for a header that starts with
    "Bearer " (that spelling, one space), and the token is the rest of the
    header, the empty rest included. *)
Theorem extractToken_iff (authHeader : option string) (token : string) :
  extractToken authHeader = Some token <-> authHeader = Some ("Bearer " +:+ token).
Proof.
  unfold extractToken. split.
  - destruct authHeader as [h|]; [| discriminate].
    destruct (truthy h); simpl; [| discriminate].
    destruct (String.prefix "Bearer " h) eqn:Hprefix; simpl; [| discriminate].
    apply prefix_iff in Hprefix as [b ->]. intros [= <-].
    reflexivity.
  - intros ->.
    assert (Hprefix : String.prefix "Bearer " ("Bearer " +:+ token) = true)
      by (apply prefix_iff; by eexists).
    rewrite Hprefix. reflexivity.
Qed.

(** ** Redis connection *)

(** X17: The reconnect strategy gives up after the tenth retry; until then the
    delay is a tenth of a second per retry, so never more than one second:
    the cap of three seconds is never reached. *)
Theorem reconnectStrategy_delay (retries : Z) :
  (10 < retries -> reconnectStrategy retries = inl "Max reconnection attempts reached")
  /\ (retries <= 10 ->
      reconnectStrategy retries = inr (retries * 100) /\ retries * 100 <= 1000).
Proof.
  unfold reconnectStrategy. split; intros Hretries.
  - apply Z.ltb_lt in Hretries. by rewrite Hretries.
  - assert (Hle : (10 <? retries) = false) by (apply Z.ltb_ge; lia).
    rewrite Hle.
    split; [f_equal; lia | lia].
Qed.

Lemma reconnectStrategy_delay_witness :
  reconnectStrategy 10 = inr (10 * 100) /\ 10 * 100 <= 1000.
Proof.
  apply (proj2 (reconnectStrategy_delay 10)). lia.
Defined.

(** ** Gateway service *)

Section RazorpayFacts.

Variable razorpay_orders_create : OrderOptions.t -> Result Order.t.
Variable hmac_sha256_hex : string -> string -> string.
Variable md5_hex : string -> string.

Lemma createOrder_Ok_inv (cfg : RazorpayEnv.t) (env : GatewayEnv.t) (orderData : OrderData.t)
    (orderCache orderCache' : gmap string Order.t) (order : Order.t) :
  createOrder razorpay_orders_create cfg env orderData orderCache = (orderCache', Ok order) ->
  exists reservationToken,
    OrderData.reservationToken orderData = Some reservationToken
    /\ reservationToken <> ""
    /\ orderCache' !! reservationToken = Some order
    /\ (forall other, other <> reservationToken ->
                      orderCache' !! other = orderCache !! other)
    /\ (forall existing, orderCache !! reservationToken = Some existing ->
                         order = existing /\ orderCache' = orderCache).
Proof.
  unfold createOrder.
  destruct (OrderData.reservationToken orderData) as [tok|]; [| discriminate].
  destruct (truthy tok) eqn:Htok; simpl; [| discriminate].
  destruct (OrderData.amount orderData) as [amount|]; [| discriminate].
  destruct ((amount =? 0) || (amount <=? 0)); [discriminate |].
  apply truthy_true in Htok.
  destruct (orderCache !! tok) as [existing|] eqn:Hcache.
  - intros [= <- <-]. exists tok.
    split; [done |]. split; [done |]. split; [done |]. split; [done |].
    intros ? Heq. rewrite Hcache in Heq. by inversion Heq.
  - destruct (if isSimulated cfg then _ else _) as [created | e]; [| discriminate].
    intros [= <- <-]. exists tok. split; [done |]. split; [done |].
    split; [apply lookup_insert_eq |]. split; [| intros ? Heq; congruence].
    intros other Hne. by apply lookup_insert_ne.
Qed.

(** X18: Order creation is idempotent by reservation token: once an order has
    been returned for a token, every later request for that token with a
    positive amount gets the same order back and leaves the cache as it
    is, whatever amount, currency, notes and configuration it comes with;
    the orders of other tokens are not touched by a request. *)
Theorem createOrder_idempotent (cfg cfg' : RazorpayEnv.t) (env env' : GatewayEnv.t)
    (orderData orderData' : OrderData.t) (orderCache orderCache' : gmap string Order.t)
    (order : Order.t) (amount' : Z) :
  createOrder razorpay_orders_create cfg env orderData orderCache = (orderCache', Ok order) ->
  OrderData.reservationToken orderData' = OrderData.reservationToken orderData ->
  OrderData.amount orderData' = Some amount' ->
  0 < amount' ->
  createOrder razorpay_orders_create cfg' env' orderData' orderCache' = (orderCache', Ok order)
  /\ (forall other, OrderData.reservationToken orderData <> Some other ->
                    orderCache' !! other = orderCache !! other).
Proof.
  intros Hfirst Htok Hamount Hpos.
  apply createOrder_Ok_inv in Hfirst as (tok & Hdata & Hne & Hcached & Hothers & _).
  split.
  - unfold createOrder. rewrite Htok, Hdata.
    apply truthy_true in Hne. rewrite Hne, Hamount. simpl.
    assert (Hvalid : (amount' =? 0) || (amount' <=? 0) = false).
    { apply orb_false_iff. split; [apply Z.eqb_neq | apply Z.leb_gt]; lia. }
    by rewrite Hvalid, Hcached.
  - intros other Hother. apply Hothers. intros ->. by rewrite Hdata in Hother.
Qed.

(** X19: A callback with all three fields is accepted exactly when the service
    is in simulation and the signature starts with SIM_, or no key secret
    is configured, or the signature is the keyed digest of
    orderId|paymentId under the configured secret; the answer then names
    the order and the payment. A callback that lacks a field, or is
    refused, fails with PaymentError. *)
Theorem verifyPaymentSignature_accepts (cfg : RazorpayEnv.t)
    (orderId paymentId signature : string) :
  orderId <> "" -> paymentId <> "" -> signature <> "" ->
  (isOk (verifyPaymentSignature hmac_sha256_hex cfg
           (PaymentData.mk (Some orderId) (Some paymentId) (Some signature))) = true <->
   (isSimulated cfg = true /\ String.prefix "SIM_" signature = true)
   \/ truthy_opt (RazorpayEnv.RAZORPAY_KEY_SECRET cfg) = false
   \/ exists secret,
        RazorpayEnv.RAZORPAY_KEY_SECRET cfg = Some secret
        /\ signature = hmac_sha256_hex secret (orderId +:+ "|" +:+ paymentId))
  /\ (isOk (verifyPaymentSignature hmac_sha256_hex cfg
              (PaymentData.mk (Some orderId) (Some paymentId) (Some signature))) = true ->
      verifyPaymentSignature hmac_sha256_hex cfg
        (PaymentData.mk (Some orderId) (Some paymentId) (Some signature))
      = Ok (Verification.mk true orderId paymentId))
  /\ (isOk (verifyPaymentSignature hmac_sha256_hex cfg
              (PaymentData.mk (Some orderId) (Some paymentId) (Some signature))) = false ->
      verifyPaymentSignature hmac_sha256_hex cfg
        (PaymentData.mk (Some orderId) (Some paymentId) (Some signature))
      = Throw (PaymentError "Invalid payment signature")).
Proof.
  intros Horder Hpayment Hsignature.
  apply truthy_true in Horder, Hpayment, Hsignature.
  unfold verifyPaymentSignature. simpl. rewrite Horder, Hpayment, Hsignature. simpl.
  destruct (isSimulated cfg && String.prefix "SIM_" signature) eqn:Hsim.
  { apply andb_true_iff in Hsim. split; [| done]. split; [by left | done]. }
  destruct (RazorpayEnv.RAZORPAY_KEY_SECRET cfg) as [secret|] eqn:Hsecret; simpl.
  - destruct (truthy secret) eqn:Htruthy; simpl.
    + destruct (String.eqb (hmac_sha256_hex secret (orderId +:+ "|" +:+ paymentId)) signature)
        eqn:Heq; simpl.
      * apply String.eqb_eq in Heq. split; [| done]. split; [| done].
        intros _. right. right. by exists secret.
      * apply String.eqb_neq in Heq. split; [| done]. split; [discriminate |].
        intros [Hs | [? | (secret' & [= <-] & ->)]]; [| done | done].
        apply andb_true_iff in Hs. congruence.
    + split; [| done]. split; [| done]. intros _. right. by left.
  - split; [| done]. split; [| done]. intros _. right. by left.
Qed.

(** A callback that lacks the order id, the payment id or the signature,
    or carries an empty one, is refused whatever the configuration. *)
Lemma verifyPaymentSignature_missing (cfg : RazorpayEnv.t) (paymentData : PaymentData.t) :
  truthy_opt (PaymentData.razorpay_order_id paymentData) = false
  \/ truthy_opt (PaymentData.razorpay_payment_id paymentData) = false
  \/ truthy_opt (PaymentData.razorpay_signature paymentData) = false ->
  verifyPaymentSignature hmac_sha256_hex cfg paymentData
  = Throw (PaymentError "Missing payment verification data").
Proof.
  unfold verifyPaymentSignature.
  destruct (PaymentData.razorpay_order_id paymentData) as [o|];
    destruct (PaymentData.razorpay_payment_id paymentData) as [p|];
    destruct (PaymentData.razorpay_signature paymentData) as [s|]; simpl; try done.
  intros [-> | [-> | ->]]; simpl; by rewrite ?orb_true_r.
Qed.

Lemma prefix_empty (s : string) : String.prefix "" s = true.
Proof. by destruct s. Qed.

Lemma substring_all_chars (p : ascii -> bool) (n m : nat) (s : string) :
  all_chars p s = true -> all_chars p (String.substring n m s) = true.
Proof.
  revert n m. induction s as [|c s IH]; intros n m Hall.
  - by destruct n, m.
  - simpl in Hall. apply andb_true_iff in Hall as [Hc Hs].
    destruct n as [|n]; [destruct m as [|m]; [done |] |]; simpl.
    + rewrite Hc. by apply (IH 0%nat m).
    + by apply IH.
Qed.

Lemma random36_substr_alnum (random36 : string) :
  is_random36 random36 = true -> all_chars isAlnum (js_substr 2 6 random36) = true.
Proof.
  unfold is_random36, js_substr. rewrite orb_true_iff. intros [Hzero | Hdigits].
  - apply String.eqb_eq in Hzero. by subst.
  - destruct (strip_prefix "0." random36) as [d|] eqn:Hstrip; [| discriminate].
    apply strip_prefix_Some in Hstrip. subst random36.
    apply andb_true_iff in Hdigits as [_ Hall].
    change (String.substring 2 6 ("0." +:+ d)) with (String.substring 0 6 d).
    apply substring_all_chars. eapply all_chars_impl; [| exact Hall].
    intros c. destruct c as [[] [] [] [] [] [] [] []]; vm_compute; congruence.
Qed.

(** X20: What the simulation generates passes the service's own checks: in
    simulation the generated callback is accepted by the signature check,
    and its payment id is a well-formed payment reference. *)
Theorem generateSimulatedPaymentResponse_accepted (cfg : RazorpayEnv.t) (env : GatewayEnv.t)
    (orderId : string) :
  isSimulated cfg = true ->
  orderId <> "" ->
  all_chars isDigit (GatewayEnv.nowString env) = true ->
  is_random36 (GatewayEnv.random36 env) = true ->
  exists paymentId,
    PaymentData.razorpay_payment_id (generateSimulatedPaymentResponse md5_hex env orderId)
    = Some paymentId
    /\ verifyPaymentSignature hmac_sha256_hex cfg
         (generateSimulatedPaymentResponse md5_hex env orderId)
       = Ok (Verification.mk true orderId paymentId)
    /\ validatePaymentIdFormat paymentId = true.
Proof.
  intros Hsim Horder Hnow Hrandom. eexists. split; [reflexivity |]. split.
  - unfold verifyPaymentSignature, generateSimulatedPaymentResponse. simpl.
    apply truthy_true in Horder. rewrite Horder, Hsim. simpl.
    by rewrite prefix_empty.
  - unfold validatePaymentIdFormat. apply orb_true_iff. left.
    apply razorpayPattern_iff.
    exists ("SIM" +:+ GatewayEnv.nowString env +:+ js_substr 2 6 (GatewayEnv.random36 env)).
    split; [reflexivity |]. split; [discriminate |].
    rewrite !all_chars_app. rewrite random36_substr_alnum by done.
    rewrite andb_true_r. simpl. eapply all_chars_impl; [| exact Hnow].
    intros c. destruct c as [[] [] [] [] [] [] [] []]; vm_compute; congruence.
Qed.

(** X21: A webhook is accepted exactly when the service is in simulation,
    whatever its signature, or a webhook secret is configured and the
    signature is the keyed digest of the payload under it; otherwise it
    fails with PaymentError. *)
Theorem verifyWebhook_accepts (cfg : RazorpayEnv.t) (payload : Webhook.t)
    (signature : option string) :
  (isOk (verifyWebhook hmac_sha256_hex cfg payload signature) = true <->
   isSimulated cfg = true
   \/ exists webhookSecret,
        RazorpayEnv.RAZORPAY_WEBHOOK_SECRET cfg = Some webhookSecret
        /\ webhookSecret <> ""
        /\ signature = Some (hmac_sha256_hex webhookSecret (Webhook.json payload)))
  /\ (isOk (verifyWebhook hmac_sha256_hex cfg payload signature) = true ->
      verifyWebhook hmac_sha256_hex cfg payload signature
      = Ok (true, Webhook.event payload, payload))
  /\ (isOk (verifyWebhook hmac_sha256_hex cfg payload signature) = false ->
      exists message,
        verifyWebhook hmac_sha256_hex cfg payload signature = Throw (PaymentError message)).
Proof.
  unfold verifyWebhook.
  destruct (isSimulated cfg); [split; [split; [by left | done] | split; [done | done]] |].
  destruct (RazorpayEnv.RAZORPAY_WEBHOOK_SECRET cfg) as [secret|]; simpl.
  - destruct (truthy secret) eqn:Htruthy; simpl.
    + destruct signature as [s|]; simpl.
      * destruct (String.eqb (hmac_sha256_hex secret (Webhook.json payload)) s) eqn:Heq; simpl.
        -- apply String.eqb_eq in Heq. apply truthy_true in Htruthy. subst s.
           split; [| split; [done | done]]. split; [| done]. intros _. right. by exists secret.
        -- apply String.eqb_neq in Heq.
           split; [| split; [done | by eexists]]. split; [discriminate |].
           intros [? | (secret' & Hs & _ & Hsig)]; [done |].
           inversion Hs; subst secret'. inversion Hsig. congruence.
      * split; [| split; [done | by eexists]]. split; [discriminate |].
        intros [? | (secret' & _ & _ & ?)]; done.
    + split; [| split; [done | by eexists]]. split; [discriminate |].
      intros [? | (secret' & [= <-] & Hne & _)]; [done |].
      apply truthy_true in Hne. congruence.
  - split; [| split; [done | by eexists]]. split; [discriminate |].
    intros [? | (secret' & ? & _)]; done.
Qed.

End RazorpayFacts.

Lemma createOrder_idempotent_witness :
  createOrder Gateway.orders_create Gateway.live Gateway.env2 (Gateway.orderFor 250)
    Gateway.cache1
  = (Gateway.cache1, Ok Gateway.order1)
  /\ (forall other, OrderData.reservationToken (Gateway.orderFor 100) <> Some other ->
                    Gateway.cache1 !! other = (∅ : gmap string Order.t) !! other).
Proof.
  apply (createOrder_idempotent Gateway.orders_create Gateway.simulated Gateway.live
           Gateway.env1 Gateway.env2 (Gateway.orderFor 100) (Gateway.orderFor 250)
           ∅ Gateway.cache1 Gateway.order1 250).
  - vm_compute. reflexivity.
  - reflexivity.
  - reflexivity.
  - lia.
Defined.

Lemma verifyPaymentSignature_accepts_witness :
  verifyPaymentSignature Gateway.hmac Gateway.live
    (PaymentData.mk (Some "order_1") (Some "pay_1")
       (Some (Gateway.hmac "rzp_live_secret" "order_1|pay_1")))
  = Ok (Verification.mk true "order_1" "pay_1").
Proof.
  apply (proj1 (proj2 (verifyPaymentSignature_accepts Gateway.hmac Gateway.live
                         "order_1" "pay_1" (Gateway.hmac "rzp_live_secret" "order_1|pay_1")
                         ltac:(discriminate) ltac:(discriminate) ltac:(discriminate)))).
  vm_compute. reflexivity.
Defined.

Lemma generateSimulatedPaymentResponse_accepted_witness :
  exists paymentId,
    PaymentData.razorpay_payment_id
      (generateSimulatedPaymentResponse Gateway.md5 Gateway.env1 "order_SIM1")
    = Some paymentId
    /\ verifyPaymentSignature Gateway.hmac Gateway.simulated
         (generateSimulatedPaymentResponse Gateway.md5 Gateway.env1 "order_SIM1")
       = Ok (Verification.mk true "order_SIM1" paymentId)
    /\ validatePaymentIdFormat paymentId = true.
Proof.
  apply (generateSimulatedPaymentResponse_accepted Gateway.hmac Gateway.md5
           Gateway.simulated Gateway.env1 "order_SIM1").
  - reflexivity.
  - discriminate.
  - reflexivity.
  - reflexivity.
Defined.

(** ** User gate *)

Section UserAuthFacts.

Variable jwt_verify : string -> string -> option TokenPayload.t.
Variable JWT_SECRET_USER : string.

Lemma userAuth_Ok_inv (authorization : option string) (users : gmap string User.t)
    (u : AuthUser.t) :
  userAuth jwt_verify JWT_SECRET_USER authorization users = Ok u ->
  exists token decoded user,
    authorization = Some ("Bearer " +:+ token)
    /\ token <> ""
    /\ jwt_verify token JWT_SECRET_USER = Some decoded
    /\ TokenPayload.type decoded = "user"
    /\ users !! TokenPayload.userId decoded = Some user
    /\ User.isActive user = true
    /\ u = AuthUser.mk (User._id user) None (User.email user) (User.name user) None None.
Proof.
  unfold userAuth, verifyUserToken.
  destruct (extractToken authorization) as [token|] eqn:Hextract; [| discriminate].
  apply extractToken_Bearer in Hextract.
  destruct (truthy token) eqn:Htoken; simpl; [| discriminate].
  apply truthy_true in Htoken.
  destruct (jwt_verify token JWT_SECRET_USER) as [decoded|] eqn:Hjwt; [| discriminate].
  destruct (String.eqb (TokenPayload.type decoded) "user") eqn:Htype; simpl;
    [| discriminate].
  apply String.eqb_eq in Htype.
  destruct (users !! TokenPayload.userId decoded) as [user|] eqn:Huser; [| discriminate].
  destruct (User.isActive user) eqn:Hactive; simpl; [| discriminate].
  intros [= <-]. by exists token, decoded, user.
Qed.

(** X22: The strict gate accepts exactly a header "Bearer " followed by a
    non-empty token that decodes under the user secret to a payload of type
    user naming an active user, and the identity it attaches is that
    user's; every refusal is an AuthenticationError. *)
Theorem userAuth_accepts (authorization : option string) (users : gmap string User.t) :
  (forall u,
      userAuth jwt_verify JWT_SECRET_USER authorization users = Ok u <->
      exists token decoded user,
        authorization = Some ("Bearer " +:+ token)
        /\ token <> ""
        /\ jwt_verify token JWT_SECRET_USER = Some decoded
        /\ TokenPayload.type decoded = "user"
        /\ users !! TokenPayload.userId decoded = Some user
        /\ User.isActive user = true
        /\ u = AuthUser.mk (User._id user) None (User.email user) (User.name user) None None)
  /\ (forall e,
        userAuth jwt_verify JWT_SECRET_USER authorization users = Throw e ->
        exists message, e = AuthenticationError message).
Proof.
  split.
  - intros u. split.
    + apply userAuth_Ok_inv.
    + intros (token & decoded & user & -> & Htoken & Hjwt & Htype & Huser & Hactive & ->).
      unfold userAuth, verifyUserToken.
      assert (Hextract : extractToken (Some ("Bearer " +:+ token)) = Some token)
        by by apply extractToken_Bearer.
      rewrite Hextract. apply truthy_true in Htoken. rewrite Htoken. simpl.
      rewrite Hjwt. apply String.eqb_eq in Htype. rewrite Htype. simpl.
      by rewrite Huser, Hactive.
  - intros e. unfold userAuth, verifyUserToken.
    destruct (extractToken authorization) as [token|]; [| intros [= <-]; by eexists].
    destruct (negb (truthy token)); [intros [= <-]; by eexists |].
    destruct (jwt_verify token JWT_SECRET_USER) as [decoded|]; [| intros [= <-]; by eexists].
    destruct (negb (String.eqb (TokenPayload.type decoded) "user"));
      [intros [= <-]; by eexists |].
    destruct (users !! TokenPayload.userId decoded) as [user|]; [| intros [= <-]; by eexists].
    destruct (negb (User.isActive user)); [intros [= <-]; by eexists | discriminate].
Qed.

(** X23: The lenient gate. Whoever passes the strict gate gets the same identity
    from the lenient one, marked as not external. A request that declares
    an external user in its header is never refused, whatever its
    Authorization header says. The gate refuses exactly the requests with
    no acceptable token, no external user header, no external user object
    and no user id in the body. *)
Theorem externalUserAuth_accepts (req : UserRequest.t) (users : gmap string User.t) :
  (forall u,
      userAuth jwt_verify JWT_SECRET_USER (UserRequest.authorization req) users = Ok u ->
      externalUserAuth jwt_verify JWT_SECRET_USER req users
      = Ok (AuthUser.mk (AuthUser.id u) None (AuthUser.email u) (AuthUser.name u)
              (Some false) None))
  /\ (truthy_opt (UserRequest.x_external_user_id req) = true ->
      isOk (externalUserAuth jwt_verify JWT_SECRET_USER req users) = true)
  /\ (isOk (externalUserAuth jwt_verify JWT_SECRET_USER req users) = false <->
      platformUser jwt_verify JWT_SECRET_USER (UserRequest.authorization req) users = None
      /\ truthy_opt (UserRequest.x_external_user_id req) = false
      /\ UserRequest.externalUser req = None
      /\ truthy_opt (UserRequest.userId req) = false).
Proof.
  split; [| split].
  - intros u Hstrict. apply userAuth_Ok_inv in Hstrict
      as (token & decoded & user & Hauth & Htoken & Hjwt & Htype & Huser & Hactive & ->).
    unfold externalUserAuth, platformUser, verifyUserToken. rewrite Hauth.
    assert (Hextract : extractToken (Some ("Bearer " +:+ token)) = Some token)
      by by apply extractToken_Bearer.
    rewrite Hextract. apply truthy_true in Htoken. rewrite Htoken. simpl.
    rewrite Hjwt. apply String.eqb_eq in Htype. rewrite Htype. simpl.
    by rewrite Huser, Hactive.
  - intros Hheader. unfold externalUserAuth.
    destruct (platformUser _ _ _ _); [done |]. by rewrite Hheader.
  - unfold externalUserAuth.
    destruct (platformUser _ _ _ _) as [u|]; [split; [discriminate | by intros [? _]] |].
    destruct (truthy_opt (UserRequest.x_external_user_id req));
      [split; [discriminate | by intros (_ & ? & _)] |].
    destruct (UserRequest.externalUser req) as [ext|];
      [split; [discriminate | by intros (_ & _ & ? & _)] |].
    destruct (truthy_opt (UserRequest.userId req));
      [split; [discriminate | by intros (_ & _ & _ & ?)] | done].
Qed.

(** X24: Every external identity is namespaced by the tenant: its id is ext_,
    the tenant's appId, an underscore and the declared id, and it records
    the tenant. *)
Theorem externalUserAuth_namespaces (req : UserRequest.t) (users : gmap string User.t)
    (u : AuthUser.t) :
  externalUserAuth jwt_verify JWT_SECRET_USER req users = Ok u ->
  AuthUser.isExternal u = Some true ->
  AuthUser.appId u = Some (UserRequest.appId req)
  /\ AuthUser.id u
     = "ext_" +:+ UserRequest.appId req +:+ "_" +:+ template (AuthUser.externalId u).
Proof.
  unfold externalUserAuth.
  destruct (platformUser _ _ _ _) as [p|] eqn:Hplatform.
  { intros [= <-] Hext. revert Hplatform. unfold platformUser.
    destruct (extractToken _) as [token|]; [| discriminate].
    destruct (negb (truthy token)); [discriminate |].
    destruct (verifyUserToken _ _ _) as [decoded | e]; [| discriminate].
    destruct (users !! TokenPayload.userId decoded) as [user|]; [| discriminate].
    destruct (User.isActive user); [| discriminate].
    intros [= <-]. discriminate. }
  destruct (truthy_opt (UserRequest.x_external_user_id req)); [by intros [= <-] |].
  destruct (UserRequest.externalUser req) as [ext|]; [by intros [= <-] |].
  destruct (truthy_opt (UserRequest.userId req)); [by intros [= <-] | discriminate].
Qed.

End UserAuthFacts.

Lemma externalUserAuth_accepts_witness :
  isOk (externalUserAuth Gateway.jwt "user-secret" Gateway.disabledWithHeader Gateway.users)
  = true.
Proof.
  apply (proj1 (proj2 (externalUserAuth_accepts Gateway.jwt "user-secret"
                         Gateway.disabledWithHeader Gateway.users))).
  reflexivity.
Defined.

Lemma externalUserAuth_namespaces_witness :
  AuthUser.appId (AuthUser.mk "ext_tenantA_42" (Some "42") "user_42@external" "User 42"
                    (Some true) (Some "tenantA"))
  = Some (UserRequest.appId Gateway.disabledWithHeader)
  /\ AuthUser.id (AuthUser.mk "ext_tenantA_42" (Some "42") "user_42@external" "User 42"
                    (Some true) (Some "tenantA"))
     = "ext_" +:+ UserRequest.appId Gateway.disabledWithHeader +:+ "_"
       +:+ template (AuthUser.externalId
                       (AuthUser.mk "ext_tenantA_42" (Some "42") "user_42@external" "User 42"
                          (Some true) (Some "tenantA"))).
Proof.
  apply (externalUserAuth_namespaces Gateway.jwt "user-secret" Gateway.disabledWithHeader
           Gateway.users).
  - vm_compute. reflexivity.
  - reflexivity.
Defined.

(** The strict gate refuses the disabled user of the sample, whom the
    lenient gate lets in as an external user. *)
Lemma userAuth_refuses_disabled :
  userAuth Gateway.jwt "user-secret" (UserRequest.authorization Gateway.disabledWithHeader)
    Gateway.users
  = Throw (AuthenticationError "User account is inactive").
Proof. vm_compute. reflexivity. Qed.

(** ** Tenant gate: whom it lets in *)

Section AppAuthSound.

Variable bcrypt_compare : string -> string -> bool.
Variable URL_hostname : string -> option string.

(** X25: The tenant gate attaches a context only for credentials that name an
    active tenant of the collection whose stored hash matches the key, and
    the context is that tenant's; every refusal is an AuthenticationError
    or, for the origin, an AuthorizationError. *)
Theorem appAuth_sound (headers : Headers.t) (apps : list App.t) :
  (forall ctx,
      appAuth bcrypt_compare URL_hostname headers apps = Ok ctx ->
      exists app appId apiKey,
        Headers.x_app_id headers = Some appId
        /\ Headers.x_api_key headers = Some apiKey
        /\ appId <> "" /\ apiKey <> ""
        /\ In app apps
        /\ App.appId app = appId
        /\ App.isActive app = true
        /\ bcrypt_compare apiKey (App.apiKeyHash app) = true
        /\ ctx = AppContext.mk (App._id app) (App.appId app) (App.name app) (App.domain app))
  /\ (forall e,
        appAuth bcrypt_compare URL_hostname headers apps = Throw e ->
        (exists message, e = AuthenticationError message)
        \/ e = AuthorizationError "Origin domain not authorized for this app").
Proof.
  unfold appAuth. split.
  - intros ctx.
    destruct (Headers.x_app_id headers) as [appId|]; [| discriminate].
    destruct (Headers.x_api_key headers) as [apiKey|]; [| discriminate].
    destruct (truthy appId) eqn:Hid; simpl; [| discriminate].
    destruct (truthy apiKey) eqn:Hkey; simpl; [| discriminate].
    destruct (List.find _ apps) as [app|] eqn:Hfind; [| discriminate].
    apply List.find_some in Hfind as [Hin Hmatch].
    apply andb_true_iff in Hmatch as [Happ Hactive]. apply String.eqb_eq in Happ.
    destruct (bcrypt_compare apiKey (App.apiKeyHash app)) eqn:Hbcrypt; simpl;
      [| discriminate].
    apply truthy_true in Hid, Hkey.
    intros Hok. exists app, appId, apiKey.
    repeat (split; [done |]).
    destruct (js_or (Headers.origin headers) (Headers.referer headers)) as [origin|];
      [| by inversion Hok].
    destruct ((0 <? length (App.allowedDomains app))%nat && truthy origin);
      [| by inversion Hok].
    destruct (existsb _ _); simpl in Hok; [by inversion Hok | discriminate].
  - intros e.
    destruct (Headers.x_app_id headers) as [appId|]; [| intros [= <-]; left; by eexists].
    destruct (Headers.x_api_key headers) as [apiKey|]; [| intros [= <-]; left; by eexists].
    destruct (negb (truthy appId) || negb (truthy apiKey));
      [intros [= <-]; left; by eexists |].
    destruct (List.find _ apps) as [app|]; [| intros [= <-]; left; by eexists].
    destruct (negb (bcrypt_compare apiKey (App.apiKeyHash app)));
      [intros [= <-]; left; by eexists |].
    destruct (js_or (Headers.origin headers) (Headers.referer headers)) as [origin|];
      [| discriminate].
    destruct ((0 <? length (App.allowedDomains app))%nat && truthy origin); [| discriminate].
    destruct (negb (existsb _ _)); [intros [= <-]; by right | discriminate].
Qed.

End AppAuthSound.

Lemma appAuth_sound_witness :
  exists app appId apiKey,
    Headers.x_app_id Sample.lookalike = Some appId
    /\ Headers.x_api_key Sample.lookalike = Some apiKey
    /\ appId <> "" /\ apiKey <> ""
    /\ In app [Sample.appA]
    /\ App.appId app = appId
    /\ App.isActive app = true
    /\ Sample.bcrypt_compare apiKey (App.apiKeyHash app) = true
    /\ AppContext.mk "app-1" "tenantA" "Events" "EVENT"
       = AppContext.mk (App._id app) (App.appId app) (App.name app) (App.domain app).
Proof.
  apply (proj1 (appAuth_sound Sample.bcrypt_compare http_hostname Sample.lookalike
                  [Sample.appA])).
  vm_compute. reflexivity.
Defined.
